(** * GitLens code lens provider: placement pass, resolution and content provider

    A shallow embedding of [src/gitCodeLensProvider.ts] (the classes
    [GitRecentChangeCodeLens], [GitAuthorsCodeLens], [GitCodeLensProvider]
    and [GitContentProvider]) and of [src/git/models/blameCommit.ts].

    Conventions.
    - JavaScript numbers that hold line and column indices are [Z].
    - A JavaScript exception is the [None] of an [option] result.
    - The [lenses] array that [_provideCodeLens] pushes to and the closures
      made by [Functions.once] are threaded as an explicit state ([Pass]).
    - A [string] holds the UTF-8 bytes of a text; a column of the editor
      counts UTF-16 code units ([utf16Length]).
    - The editor API ([Position], [Range], [TextDocument], [SymbolKind]) is
      not part of the repository; the part the provider calls is written out
      in the first modules below. *)

From Stdlib Require Import ZArith String Ascii List Bool Lia Sorted DecimalString.
From stdpp Require Import base decidable option list.
Import ListNotations.

Local Open Scope string_scope.
Local Open Scope list_scope.
Local Open Scope Z_scope.

(** ** Editor API used by the provider *)

Module Position.
Record t := mk { line : Z; character : Z }.

(** [new Position(line, character)]: the constructor rejects a negative line
    or character with an exception. *)
Definition new (l c : Z) : option t :=
  if (l <? 0) || (c <? 0) then None else Some (mk l c).

Definition isBefore (a b : t) : bool :=
  (line a <? line b) || ((line a =? line b) && (character a <? character b)).
End Position.

Module Range.
Record t := mk { start : Position.t; end_ : Position.t }.

(** [new Range(start, end)]: the two positions are stored in order. *)
Definition new (a b : Position.t) : t :=
  if Position.isBefore a b then mk a b else mk b a.

(** [new Range(startLine, startCharacter, endLine, endCharacter)] on
    non-negative numbers. *)
Definition new4 (sl sc el ec : Z) : t :=
  new (Position.mk sl sc) (Position.mk el ec).

(** [range.with(start)]: same end, new start. *)
Definition with_start (r : t) (s : Position.t) : t := new s (end_ r).

Definition isSingleLine (r : t) : bool :=
  Position.line (start r) =? Position.line (end_ r).
End Range.

Module SymbolKind.
Inductive t :=
| File | Module_ | Namespace | Package | Class | Method | Property | Field
| Constructor | Enum | Interface | Function | Variable_ | Constant | String_
| Number | Boolean | Array | Object | Key | Null | EnumMember | Struct
| Event | Operator | TypeParameter.

(** [SymbolKind[kind]], the reverse mapping of the enum. *)
Definition name (k : t) : string :=
  match k with
  | File => "File" | Module_ => "Module" | Namespace => "Namespace"
  | Package => "Package" | Class => "Class" | Method => "Method"
  | Property => "Property" | Field => "Field" | Constructor => "Constructor"
  | Enum => "Enum" | Interface => "Interface" | Function => "Function"
  | Variable_ => "Variable" | Constant => "Constant" | String_ => "String"
  | Number => "Number" | Boolean => "Boolean" | Array => "Array"
  | Object => "Object" | Key => "Key" | Null => "Null"
  | EnumMember => "EnumMember" | Struct => "Struct" | Event => "Event"
  | Operator => "Operator" | TypeParameter => "TypeParameter"
  end.
End SymbolKind.

#[global] Instance Position_eq_dec : EqDecision Position.t.
Proof. solve_decision. Defined.
#[global] Instance Range_eq_dec : EqDecision Range.t.
Proof. solve_decision. Defined.
#[global] Instance SymbolKind_eq_dec : EqDecision SymbolKind.t.
Proof. solve_decision. Defined.

Module TextLine.
Record t := mk { lineNumber : Z; text : string; range : Range.t }.
End TextLine.

(** The length of a JavaScript string, in UTF-16 code units, read off the
    UTF-8 bytes of the text: a byte below 128 is one character and one unit;
    a continuation byte (128 to 191) belongs to the character its leading
    byte counts; a leading byte of a two or three byte character (192 to
    239) counts one unit; a leading byte of a four byte character (240 and
    above), which is outside the basic plane and takes a surrogate pair,
    counts two. *)
Definition utf16Units (c : ascii) : nat :=
  let n := nat_of_ascii c in
  if (n <? 128)%nat then 1%nat
  else if (n <? 192)%nat then 0%nat
  else if (n <? 240)%nat then 1%nat
  else 2%nat.

Fixpoint utf16Length (s : string) : nat :=
  match s with
  | EmptyString => 0%nat
  | String c s' => (utf16Units c + utf16Length s')%nat
  end.

Module TextDocument.
Record t := mk {
  languageId : string;
  isDirty : bool;
  lines : list string   (* the text of each line, in order *)
}.

Definition lineCount (d : t) : Z := Z.of_nat (List.length (lines d)).

Definition lineText (d : t) (l : Z) : string :=
  nth (Z.to_nat l) (lines d) "".

(** The column after the last character of a line, as the editor counts
    columns. *)
Definition lineLength (d : t) (l : Z) : Z :=
  Z.of_nat (utf16Length (lineText d l)).

(** [document.lineAt(position)]: an exception when the line is not one of the
    document's. *)
Definition lineAt (d : t) (p : Position.t) : option TextLine.t :=
  let l := Position.line p in
  if (l <? 0) || (lineCount d <=? l) then None
  else Some (TextLine.mk l (lineText d l) (Range.new4 l 0 l (lineLength d l))).

(** [document.validatePosition(position)]: the position clamped into the
    document. *)
Definition validatePosition (d : t) (p : Position.t) : Position.t :=
  let l := Position.line p in
  let c := Position.character p in
  if l <? 0 then Position.mk 0 0
  else if lineCount d <=? l then
    Position.mk (lineCount d - 1) (lineLength d (lineCount d - 1))
  else
    let maxCharacter := lineLength d l in
    Position.mk l (if c <? 0 then 0
                   else if maxCharacter <? c then maxCharacter else c).

(** [document.validateRange(range)]. *)
Definition validateRange (d : t) (r : Range.t) : Range.t :=
  Range.new (validatePosition d (Range.start r))
            (validatePosition d (Range.end_ r)).
End TextDocument.

Module Location.
Record t := mk { range : Range.t }.
End Location.

Module SymbolInformation.
Record t := mk { name : string; kind : SymbolKind.t; location : Location.t }.
End SymbolInformation.

(** The strings made of ASCII characters only. *)
Definition isAscii (s : string) : bool :=
  forallb (fun c => (nat_of_ascii c <? 128)%nat) (list_ascii_of_string s).

(** [String.prototype.toLowerCase] on strings of ASCII characters ([isAscii]),
    as the symbol kind names and the location keywords are: the letters A to
    Z are lowered and every other character is kept.  On other strings
    JavaScript lowers more than this function does (the Kelvin sign U+212A
    becomes k), so a statement that compares names given by the user without
    case takes them to be ASCII. *)
Definition lowerAscii (c : ascii) : ascii :=
  let n := nat_of_ascii c in
  if ((65 <=? n) && (n <=? 90))%nat then ascii_of_nat (n + 32) else c.

Fixpoint toLowerCase (s : string) : string :=
  match s with
  | EmptyString => EmptyString
  | String c s' => String (lowerAscii c) (toLowerCase s')
  end.

(** [`${n}`] for an integer. *)
Definition numberToString (n : Z) : string :=
  NilZero.string_of_int (Z.to_int n).

(** ** Configuration ([./configuration], [./commands]) *)

(** Modelled from the spec: the configuration module is not among the source
    files.  The types below hold what the provider reads from it, the spec's
    placement policy: the locations [WholeFile], [Containers], [Blocks] and
    [Custom] with its allow-list of kind names, and for each annotation kind
    an enable flag and a chosen action. *)
Module CodeLensLocations.
Inductive t := Document | Containers | Blocks | Custom.
End CodeLensLocations.

(** Modelled from the spec: the configured action of an annotation kind, one
    of annotate file, show history for the range, show file history, diff
    against the previous revision, show quick commit summary, show quick
    commit-file summary, quick file-history picker, quick branch-history
    picker. *)
Module CodeLensCommand.
Inductive t :=
| BlameAnnotate | ShowBlameHistory | ShowFileHistory | DiffWithPrevious
| ShowQuickCommitDetails | ShowQuickCommitFileDetails | ShowQuickFileHistory
| ShowQuickCurrentBranchHistory.
End CodeLensCommand.

(** Modelled from the spec: the commands module is not among the source
    files; these are the command identifiers that the provider names. *)
Module Commands.
Inductive t := ToggleFileBlame | ShowBlameHistory | ShowFileHistory | DiffWithPrevious.
End Commands.

#[global] Instance CodeLensLocations_eq_dec : EqDecision CodeLensLocations.t.
Proof. solve_decision. Defined.
#[global] Instance CodeLensCommand_eq_dec : EqDecision CodeLensCommand.t.
Proof. solve_decision. Defined.
#[global] Instance Commands_eq_dec : EqDecision Commands.t.
Proof. solve_decision. Defined.

(** Modelled from the spec: the configuration records, with the fields that
    the provider reads. *)
Module ICodeLensLanguageLocation.
Record t := mk {
  language : option string;
  locations : list CodeLensLocations.t;
  customSymbols : option (list string)
}.
End ICodeLensLanguageLocation.

Module ICodeLensConfig.
Record t := mk {
  enabled : bool;
  (* [None]: a configured value that is none of the [CodeLensCommand]s *)
  command : option CodeLensCommand.t
}.
End ICodeLensConfig.

Module UnsavedChanges.
Record t := mk {
  recentChangeAndAuthors : string;
  recentChangeOnly : string;
  authorsOnly : string
}.
End UnsavedChanges.

Module IConfig.
Record t := mk {
  debug : bool;                                               (* codeLens.debug *)
  recentChange : ICodeLensConfig.t;                           (* codeLens.recentChange *)
  authors : ICodeLensConfig.t;                                (* codeLens.authors *)
  locations : list CodeLensLocations.t;                       (* codeLens.locations *)
  customLocationSymbols : option (list string);               (* codeLens.customLocationSymbols *)
  perLanguageLocations : list ICodeLensLanguageLocation.t;    (* codeLens.perLanguageLocations *)
  unsavedChanges : UnsavedChanges.t                           (* strings.codeLens.unsavedChanges *)
}.
End IConfig.

(** ** Git models ([./gitService], [./git/models]) *)

(** Modelled from the spec: the git service module is not among the source
    files.  [GitCommitLine] is the spec's blame line (line index, original
    line index, commit id), [GitAuthor] an author identity, [GitUri] the
    location of the document in its repository. *)
Module GitUri.
Record t := mk { fsPath : string; repoPath : option string; sha : option string }.
End GitUri.

Module GitCommitLine.
Record t := mk { sha : string; line : Z; originalLine : Z }.
End GitCommitLine.

Module GitAuthor.
Record t := mk { name : string; lineCount : Z }.
End GitAuthor.

(** Modelled from the spec: the base class [GitCommit] of [GitBlameCommit] is
    not among the source files.  The first ten fields are the arguments of the
    constructor in [git/models/blameCommit.ts]; what the provider reads from
    the base class is kept as three more fields: [isUncommitted], the spec's
    uncommitted marker of a commit, [shortSha], and [fromNow], the text that
    [fromNow()] gives when the lens is resolved. *)
Module GitBlameCommit.
Record t := mk {
  repoPath : string;
  sha : string;
  fileName : string;
  author : string;
  date : Z;
  message : string;
  lines : list GitCommitLine.t;
  originalFileName : option string;
  previousSha : option string;
  previousFileName : option string;
  isUncommitted : bool;
  shortSha : string;
  fromNow : string
}.
End GitBlameCommit.

(** A JavaScript [Map] with string keys, in insertion order. *)
Definition JsMap (V : Type) : Type := list (string * V).

Definition JsMap_values {V} (m : JsMap V) : list V := map snd m.

Fixpoint JsMap_get {V} (m : JsMap V) (k : string) : option V :=
  match m with
  | [] => None
  | (k', v) :: m' => if String.eqb k' k then Some v else JsMap_get m' k
  end.

(** Modelled from the spec: the blame map of a document (its lines in order
    and the commits by id) and the blame of a range of it. *)
Module GitBlame.
Record t := mk {
  authors : JsMap GitAuthor.t;
  commits : JsMap GitBlameCommit.t;
  lines : list GitCommitLine.t
}.
End GitBlame.

Module GitBlameLines.
Record t := mk {
  authors : JsMap GitAuthor.t;
  commits : JsMap GitBlameCommit.t;
  lines : list GitCommitLine.t;
  allLines : list GitCommitLine.t
}.
End GitBlameLines.

(** ** Helpers of [./system] *)

(** Modelled from the spec: [Iterables] is not among the source files.
    [Iterables.first] is the first element of an iteration ([None] for
    JavaScript's [undefined] on an empty one), [Iterables.join] the elements
    joined by a separator. *)
Module Iterables.
Definition first {A} (source : list A) : option A := head source.

Definition join (source : list string) (separator : string) : string :=
  String.concat separator source.
End Iterables.

(** Modelled from the spec: [Functions.once(fn)] gives a function that runs
    [fn] on its first call only and hands back the remembered result on every
    later call; the spec asks for an explicit memoization cell holding the
    computed value together with a computed flag.  The cells live in a store
    and a memoized function is the index of its cell, so that two lenses
    holding the same function hold the same cell.  [runs] records, in order,
    the cells whose wrapped function was really executed; [world] is whatever
    the wrapped function reads and changes. *)
Module Functions.
Record Cell (T R : Type) := mkCell {
  fn : T;                      (* the wrapped function *)
  result : option R            (* [None]: not computed yet *)
}.
Arguments mkCell {T R}.
Arguments fn {T R}.
Arguments result {T R}.

Record Store (T R W : Type) := mkStore {
  cells : list (Cell T R);
  world : W;
  runs : list nat
}.
Arguments mkStore {T R W}.
Arguments cells {T R W}.
Arguments world {T R W}.
Arguments runs {T R W}.

(** [Functions.once(fn)]: a new cell, nothing computed. *)
Definition once {T R} (f : T) (cs : list (Cell T R)) : nat * list (Cell T R) :=
  (List.length cs, cs ++ [mkCell f None]).

(** Calling the function that [once] returned.  [None] only for an index
    that no [once] produced. *)
Definition call {T R W} (run : T -> W -> R * W) (id : nat) (st : Store T R W)
  : option (R * Store T R W) :=
  match cells st !! id with
  | None => None
  | Some c =>
    match result c with
    | Some v => Some (v, st)
    | None =>
      let '(v, w') := run (fn c) (world st) in
      Some (v, mkStore (<[id := mkCell (fn c) (Some v)]> (cells st)) w'
                       (runs st ++ [id]))
    end
  end.
End Functions.

(** ** The code lenses *)

(** The closure [() => this.git.getBlameForRangeSync(blame, gitUri, blameRange)]:
    the three values it captures. *)
Module BlameThunk.
Record t := mk { blame : GitBlame.t; gitUri : GitUri.t; blameRange : Range.t }.
End BlameThunk.

Definition BlameCell : Type := Functions.Cell BlameThunk.t (option GitBlameLines.t).

Inductive CommandName :=
| CommandEmpty                                   (* the empty string *)
| CommandOf (c : Commands.t)                     (* Commands.X *)
| CodeLensCommandOf (c : CodeLensCommand.t).     (* CodeLensCommand.X *)

Inductive CommandArg :=
| UriFile (fsPath : string)
| ShowBlameHistoryCommandArgs (line : Z) (position : Position.t)
    (range : Range.t) (sha : option string)
| ShowFileHistoryCommandArgs (line : Z) (position : Position.t)
    (sha : option string)
| DiffWithPreviousCommandArgs (commit : option GitBlameCommit.t)
    (range : option Range.t)
| ShowQuickCommitDetailsCommandArgs (commit : option GitBlameCommit.t)
    (sha : option string)
| ShowQuickCommitFileDetailsCommandArgs (commit : option GitBlameCommit.t)
    (sha : option string)
| ShowQuickFileHistoryCommandArgs (range : option Range.t).

Module Command.
Record t := mk {
  title : string;
  command : option CommandName;          (* [None]: no [command] property *)
  arguments : option (list CommandArg)
}.
End Command.

Module LensClass.
Inductive t := GitRecentChangeCodeLens | GitAuthorsCodeLens.
End LensClass.

#[global] Instance LensClass_eq_dec : EqDecision LensClass.t.
Proof. solve_decision. Defined.

Module CodeLens.
Record t := mk {
  class : LensClass.t;
  blame : nat;                 (* the memoized function, as its cell *)
  uri : GitUri.t;
  symbolKind : SymbolKind.t;
  blameRange : Range.t;
  isFullRange : bool;
  range : Range.t;
  command : option Command.t
}.

Definition setCommand (lens : t) (c : Command.t) : t :=
  mk (class lens) (blame lens) (uri lens) (symbolKind lens) (blameRange lens)
     (isFullRange lens) (range lens) (Some c).
End CodeLens.

Definition GitRecentChangeCodeLens (blame : nat) (uri : GitUri.t)
  (symbolKind : SymbolKind.t) (blameRange : Range.t) (isFullRange : bool)
  (range : Range.t) : CodeLens.t :=
  CodeLens.mk LensClass.GitRecentChangeCodeLens blame uri symbolKind blameRange
    isFullRange range None.

Definition GitAuthorsCodeLens (blame : nat) (uri : GitUri.t)
  (symbolKind : SymbolKind.t) (blameRange : Range.t) (isFullRange : bool)
  (range : Range.t) : CodeLens.t :=
  CodeLens.mk LensClass.GitAuthorsCodeLens blame uri symbolKind blameRange
    isFullRange range None.

(** ** [GitCodeLensProvider] *)

Module GitCodeLensProvider.
Record t := mk { _config : IConfig.t; _documentIsDirty : bool }.
End GitCodeLensProvider.

(** The [lenses] array of one [provideCodeLenses] call and the memoized
    functions created so far. *)
Module Pass.
Record t := mk { lenses : list CodeLens.t; cells : list BlameCell }.
End Pass.

(** [array.includes(x)] *)
Definition includes {A} `{EqDecision A} (l : list A) (x : A) : bool :=
  bool_decide (x ∈ l).

(** [!!(customSymbols || []).find(_ => _.toLowerCase() === name.toLowerCase())] *)
Definition truthy (found : option string) : bool :=
  match found with
  | Some s => negb (String.eqb s "")
  | None => false
  end.

Definition customSymbolsFind (customSymbols : option (list string))
  (lowered : string) : option string :=
  find (fun s => String.eqb (toLowerCase s) lowered) (default [] customSymbols).

(** [new Range(0, 1000000, 1000000, 1000000)] validated against the document. *)
Definition wholeDocumentRange (document : TextDocument.t) : Range.t :=
  TextDocument.validateRange document (Range.new4 0 1000000 1000000 1000000).

Definition _validateSymbolAndGetBlameRange (document : TextDocument.t)
  (symbol : SymbolInformation.t) (languageLocation : ICodeLensLanguageLocation.t)
  : option Range.t :=
  let locations := ICodeLensLanguageLocation.locations languageLocation in
  let kind := SymbolInformation.kind symbol in
  let symbolRange := Location.range (SymbolInformation.location symbol) in
  let custom :=
    truthy (customSymbolsFind (ICodeLensLanguageLocation.customSymbols languageLocation)
              (toLowerCase (SymbolKind.name kind))) in
  let '(valid, range) :=
    match kind with
    | SymbolKind.File =>
      let valid :=
        if includes locations CodeLensLocations.Containers then true
        else if includes locations CodeLensLocations.Custom then custom
        else false in
      (valid, if valid then Some (wholeDocumentRange document) else None)
    | SymbolKind.Package =>
      let valid :=
        if includes locations CodeLensLocations.Containers then true
        else if includes locations CodeLensLocations.Custom then custom
        else false in
      (valid,
       if valid then
         if (Position.line (Range.start symbolRange) =? 0)
            && (Position.line (Range.end_ symbolRange) =? 0)
         then Some (wholeDocumentRange document) else None
       else None)
    | SymbolKind.Class | SymbolKind.Interface | SymbolKind.Module_
    | SymbolKind.Namespace | SymbolKind.Struct =>
      (includes locations CodeLensLocations.Containers, None)
    | SymbolKind.Constructor | SymbolKind.Enum | SymbolKind.Function
    | SymbolKind.Method | SymbolKind.Property =>
      (includes locations CodeLensLocations.Blocks, None)
    | _ => (false, None)
    end in
  let valid :=
    if negb valid && includes locations CodeLensLocations.Custom
    then custom else valid in
  if valid then Some (default symbolRange range) else None.

(** [lenses.length && lenses[lenses.length - 1].range.start.line === n] *)
Definition lastLensStartsAtLine (lenses : list CodeLens.t) (n : Z) : bool :=
  match last lenses with
  | Some l => Position.line (Range.start (CodeLens.range l)) =? n
  | None => false
  end.

(** The [switch (symbol.kind)] of the Omnisharp workaround. *)
Definition csharpMultiline (kind : SymbolKind.t) (multiline : bool) : bool :=
  match kind with
  | SymbolKind.File => multiline
  | SymbolKind.Package | SymbolKind.Module_ | SymbolKind.Namespace
  | SymbolKind.Class | SymbolKind.Interface | SymbolKind.Constructor
  | SymbolKind.Method | SymbolKind.Function | SymbolKind.Enum => true
  | _ => multiline
  end.

(** [let multiline = !blameRange.isSingleLine], then the Omnisharp workaround
    for a single-line range in a [csharp] document. *)
Definition authorsMultiline (document : TextDocument.t) (kind : SymbolKind.t)
  (blameRange : Range.t) : bool :=
  let multiline := negb (Range.isSingleLine blameRange) in
  (* HACK for Omnisharp, since it doesn't return full ranges *)
  if negb multiline && String.eqb (TextDocument.languageId document) "csharp"
  then csharpMultiline kind multiline else multiline.

Definition _provideCodeLens (this : GitCodeLensProvider.t) (gitUri : GitUri.t)
  (document : TextDocument.t) (symbol : SymbolInformation.t)
  (languageLocation : ICodeLensLanguageLocation.t) (blame : GitBlame.t)
  (st : Pass.t) : option Pass.t :=
  let config := GitCodeLensProvider._config this in
  let dirty := GitCodeLensProvider._documentIsDirty this in
  let kind := SymbolInformation.kind symbol in
  match _validateSymbolAndGetBlameRange document symbol languageLocation with
  | None => Some st
  | Some blameRange =>
    line ← TextDocument.lineAt document
             (Range.start (Location.range (SymbolInformation.location symbol)));
    (* Make sure there is only 1 lens per line *)
    if lastLensStartsAtLine (Pass.lenses st) (TextLine.lineNumber line)
    then Some st
    else
      (* Anchor the code lens to the end of the line *)
      let lineRange := TextLine.range line in
      let startChar := Position.character (Range.end_ lineRange) - 1 in
      let thunk := BlameThunk.mk blame gitUri blameRange in
      '(blameForRangeFn, startChar, st) ←
        (if dirty || ICodeLensConfig.enabled (IConfig.recentChange config) then
           let '(f, cells) := Functions.once thunk (Pass.cells st) in
           p ← Position.new (Position.line (Range.start lineRange)) startChar;
           Some (Some f, startChar + 1,
                 Pass.mk
                   (Pass.lenses st ++
                    [GitRecentChangeCodeLens f gitUri kind blameRange false
                       (Range.with_start lineRange p)])
                   cells)
         else Some (None, startChar, st));
      if ICodeLensConfig.enabled (IConfig.authors config) then
        if authorsMultiline document kind blameRange then
          let '(f, cells) :=
            match blameForRangeFn with
            | Some f => (f, Pass.cells st)
            | None => Functions.once thunk (Pass.cells st)
            end in
          if negb dirty then
            p ← Position.new (Position.line (Range.start lineRange)) startChar;
            Some (Pass.mk
                    (Pass.lenses st ++
                     [GitAuthorsCodeLens f gitUri kind blameRange false
                        (Range.with_start lineRange p)])
                    cells)
          else Some (Pass.mk (Pass.lenses st) cells)
        else Some st
      else Some st
  end.

(** [symbols.forEach(sym => this._provideCodeLens(..., sym, ..., lenses))] *)
Fixpoint forEachSymbol (this : GitCodeLensProvider.t) (gitUri : GitUri.t)
  (document : TextDocument.t) (languageLocation : ICodeLensLanguageLocation.t)
  (blame : GitBlame.t) (symbols : list SymbolInformation.t) (st : Pass.t)
  : option Pass.t :=
  match symbols with
  | [] => Some st
  | sym :: rest =>
    st' ← _provideCodeLens this gitUri document sym languageLocation blame st;
    forEachSymbol this gitUri document languageLocation blame rest st'
  end.

(** [blame === undefined || blame.lines.length === 0] *)
Definition blameIsMissing (blame : option GitBlame.t) : bool :=
  match blame with
  | None => true
  | Some b => (List.length (GitBlame.lines b) =? 0)%nat
  end.

(** The language's own locations, or the general ones. *)
Definition languageLocationsOf (config : IConfig.t) (document : TextDocument.t)
  : ICodeLensLanguageLocation.t :=
  match find (fun l =>
                match ICodeLensLanguageLocation.language l with
                | Some language =>
                  String.eqb (toLowerCase language) (TextDocument.languageId document)
                | None => false
                end)
             (IConfig.perLanguageLocations config) with
  | Some l => l
  | None =>
    ICodeLensLanguageLocation.mk None (IConfig.locations config)
      (IConfig.customLocationSymbols config)
  end.

(** The end of [provideCodeLenses]: the lens for the whole document. *)
Definition provideDocumentLens (this : GitCodeLensProvider.t) (gitUri : GitUri.t)
  (document : TextDocument.t) (languageLocations : ICodeLensLanguageLocation.t)
  (blame : GitBlame.t) (st : Pass.t) : Pass.t :=
  let config := GitCodeLensProvider._config this in
  let dirty := GitCodeLensProvider._documentIsDirty this in
  let locations := ICodeLensLanguageLocation.locations languageLocations in
  if includes locations CodeLensLocations.Document
     || (includes locations CodeLensLocations.Custom
         && truthy (customSymbolsFind
                      (ICodeLensLanguageLocation.customSymbols languageLocations)
                      "file"))
  then
    (* Check if we have a lens for the whole document -- if not add one *)
    if existsb (fun l =>
                  (Position.line (Range.start (CodeLens.range l)) =? 0)
                  && (Position.line (Range.end_ (CodeLens.range l)) =? 0))
               (Pass.lenses st)
    then st
    else
      let blameRange := wholeDocumentRange document in
      let thunk := BlameThunk.mk blame gitUri blameRange in
      let '(blameForRangeFn, st) :=
        if dirty || ICodeLensConfig.enabled (IConfig.recentChange config) then
          let '(f, cells) := Functions.once thunk (Pass.cells st) in
          (Some f,
           Pass.mk
             (Pass.lenses st ++
              [GitRecentChangeCodeLens f gitUri SymbolKind.File blameRange true
                 (Range.new4 0 0 0 (Position.character (Range.start blameRange)))])
             cells)
        else (None, st) in
      if ICodeLensConfig.enabled (IConfig.authors config) then
        let '(f, cells) :=
          match blameForRangeFn with
          | Some f => (f, Pass.cells st)
          | None => Functions.once thunk (Pass.cells st)
          end in
        if negb dirty then
          Pass.mk
            (Pass.lenses st ++
             [GitAuthorsCodeLens f gitUri SymbolKind.File blameRange true
                (Range.new4 0 1 0 (Position.character (Range.start blameRange)))])
            cells
        else Pass.mk (Pass.lenses st) cells
      else st
  else st.

(** [provideCodeLenses(document, token)].  [gitUri], [blame] and [symbols] are
    the values that the three awaited calls resolved to ([blame = None] for
    [undefined]).  The result is the provider with [_documentIsDirty] set and
    the returned lenses, [None] when an exception escapes. *)
Definition provideCodeLenses (this : GitCodeLensProvider.t)
  (document : TextDocument.t) (gitUri : GitUri.t) (blame : option GitBlame.t)
  (symbols : list SymbolInformation.t)
  : GitCodeLensProvider.t * option Pass.t :=
  let this := GitCodeLensProvider.mk (GitCodeLensProvider._config this)
                (TextDocument.isDirty document) in
  let languageLocations :=
    languageLocationsOf (GitCodeLensProvider._config this) document in
  let locations := ICodeLensLanguageLocation.locations languageLocations in
  let lenses := Pass.mk [] [] in
  (this,
   if (List.length locations =? 1)%nat && includes locations CodeLensLocations.Document
   then
     match blame with
     | Some b =>
       if blameIsMissing blame then Some lenses
       else Some (provideDocumentLens this gitUri document languageLocations b lenses)
     | None => Some lenses
     end
   else
     match blame with
     | Some b =>
       if blameIsMissing blame then Some lenses
       else
         st ← forEachSymbol this gitUri document languageLocations b symbols lenses;
         Some (provideDocumentLens this gitUri document languageLocations b st)
     | None => Some lenses
     end).

(** *** Building the command of a lens *)

(** A template string: its pieces put together. *)
Definition template (pieces : list string) : string := String.concat "" pieces.

(** [commit.lines.find(_ => _.line === line)], then [originalLine] when
    found. *)
Definition originalLineOf (commit : option GitBlameCommit.t) (line : Z) : Z :=
  match commit with
  | Some c =>
    match find (fun l => GitCommitLine.line l =? line) (GitBlameCommit.lines c) with
    | Some blameLine => GitCommitLine.originalLine blameLine
    | None => line
    end
  | None => line
  end.

Definition lensPosition (lens : CodeLens.t) : Position.t :=
  if CodeLens.isFullRange lens then Position.mk 1 0
  else Range.start (CodeLens.range lens).

Definition lensUri (lens : CodeLens.t) : CommandArg :=
  UriFile (GitUri.fsPath (CodeLens.uri lens)).

Definition _applyBlameAnnotateCommand (title : string) (lens : CodeLens.t)
  (blame : GitBlameLines.t) : CodeLens.t :=
  CodeLens.setCommand lens
    (Command.mk title (Some (CommandOf Commands.ToggleFileBlame))
       (Some [lensUri lens])).

Definition _applyShowBlameHistoryCommand (title : string) (lens : CodeLens.t)
  (blame : GitBlameLines.t) (commit : option GitBlameCommit.t) : CodeLens.t :=
  let line :=
    originalLineOf commit (Position.line (Range.start (CodeLens.range lens))) in
  CodeLens.setCommand lens
    (Command.mk title (Some (CommandOf Commands.ShowBlameHistory))
       (Some [lensUri lens;
              ShowBlameHistoryCommandArgs line (lensPosition lens)
                (CodeLens.blameRange lens) (GitBlameCommit.sha <$> commit)])).

Definition _applyShowFileHistoryCommand (title : string) (lens : CodeLens.t)
  (blame : GitBlameLines.t) (commit : option GitBlameCommit.t) : CodeLens.t :=
  let line :=
    originalLineOf commit (Position.line (Range.start (CodeLens.range lens))) in
  CodeLens.setCommand lens
    (Command.mk title (Some (CommandOf Commands.ShowFileHistory))
       (Some [lensUri lens;
              ShowFileHistoryCommandArgs line (lensPosition lens)
                (GitBlameCommit.sha <$> commit)])).

(** [blame.allLines[n]] is [undefined] outside the array, and reading [sha]
    from it is an exception. *)
Definition _applyDiffWithPreviousCommand (title : string) (lens : CodeLens.t)
  (blame : GitBlameLines.t) (commit : option GitBlameCommit.t)
  : option CodeLens.t :=
  commit ←
    match commit with
    | Some c => Some (Some c)
    | None =>
      let n := Position.line (Range.start (CodeLens.range lens)) in
      blameLine ← (if n <? 0 then None
                   else GitBlameLines.allLines blame !! Z.to_nat n);
      Some (JsMap_get (GitBlameLines.commits blame) (GitCommitLine.sha blameLine))
    end;
  Some (CodeLens.setCommand lens
          (Command.mk title (Some (CommandOf Commands.DiffWithPrevious))
             (Some [lensUri lens;
                    DiffWithPreviousCommandArgs commit
                      (if CodeLens.isFullRange lens then None
                       else Some (CodeLens.blameRange lens))]))).

(** [commit !== undefined && commit.isUncommitted] *)
Definition definedAndUncommitted (commit : option GitBlameCommit.t) : bool :=
  match commit with
  | Some c => GitBlameCommit.isUncommitted c
  | None => false
  end.

Definition _applyShowQuickCommitDetailsCommand (title : string) (lens : CodeLens.t)
  (blame : GitBlameLines.t) (commit : option GitBlameCommit.t) : CodeLens.t :=
  CodeLens.setCommand lens
    (Command.mk title
       (Some (if definedAndUncommitted commit then CommandEmpty
              else CodeLensCommandOf CodeLensCommand.ShowQuickCommitDetails))
       (Some [lensUri lens;
              ShowQuickCommitDetailsCommandArgs commit
                (GitBlameCommit.sha <$> commit)])).

Definition _applyShowQuickCommitFileDetailsCommand (title : string)
  (lens : CodeLens.t) (blame : GitBlameLines.t)
  (commit : option GitBlameCommit.t) : CodeLens.t :=
  CodeLens.setCommand lens
    (Command.mk title
       (Some (if definedAndUncommitted commit then CommandEmpty
              else CodeLensCommandOf CodeLensCommand.ShowQuickCommitFileDetails))
       (Some [lensUri lens;
              ShowQuickCommitFileDetailsCommandArgs commit
                (GitBlameCommit.sha <$> commit)])).

Definition _applyShowQuickFileHistoryCommand (title : string) (lens : CodeLens.t)
  (blame : GitBlameLines.t) (commit : option GitBlameCommit.t) : CodeLens.t :=
  CodeLens.setCommand lens
    (Command.mk title
       (Some (CodeLensCommandOf CodeLensCommand.ShowQuickFileHistory))
       (Some [lensUri lens;
              ShowQuickFileHistoryCommandArgs
                (if CodeLens.isFullRange lens then None
                 else Some (CodeLens.blameRange lens))])).

Definition _applyShowQuickBranchHistoryCommand (title : string) (lens : CodeLens.t)
  (blame : GitBlameLines.t) (commit : option GitBlameCommit.t) : CodeLens.t :=
  CodeLens.setCommand lens
    (Command.mk title
       (Some (CodeLensCommandOf CodeLensCommand.ShowQuickCurrentBranchHistory))
       (Some [lensUri lens])).

(** The [switch] on the configured command, shared by the two resolvers;
    [commit] is the commit handed to the builders ([None] for the authors
    lens, which hands none). *)
Definition applyConfiguredCommand (configured : option CodeLensCommand.t)
  (title : string) (lens : CodeLens.t) (blame : GitBlameLines.t)
  (commit : option GitBlameCommit.t) : option CodeLens.t :=
  match configured with
  | Some CodeLensCommand.BlameAnnotate =>
    Some (_applyBlameAnnotateCommand title lens blame)
  | Some CodeLensCommand.ShowBlameHistory =>
    Some (_applyShowBlameHistoryCommand title lens blame commit)
  | Some CodeLensCommand.ShowFileHistory =>
    Some (_applyShowFileHistoryCommand title lens blame commit)
  | Some CodeLensCommand.DiffWithPrevious =>
    _applyDiffWithPreviousCommand title lens blame commit
  | Some CodeLensCommand.ShowQuickCommitDetails =>
    Some (_applyShowQuickCommitDetailsCommand title lens blame commit)
  | Some CodeLensCommand.ShowQuickCommitFileDetails =>
    Some (_applyShowQuickCommitFileDetailsCommand title lens blame commit)
  | Some CodeLensCommand.ShowQuickFileHistory =>
    Some (_applyShowQuickFileHistoryCommand title lens blame commit)
  | Some CodeLensCommand.ShowQuickCurrentBranchHistory =>
    Some (_applyShowQuickBranchHistoryCommand title lens blame commit)
  | None => Some lens
  end.

(** The text between the square brackets of a debug title, up to the last
    item. *)
Definition debugPrefix (lens : CodeLens.t) : list string :=
  [" ["; SymbolKind.name (CodeLens.symbolKind lens); "(";
   numberToString (Position.character (Range.start (CodeLens.range lens))); "-";
   numberToString (Position.character (Range.end_ (CodeLens.range lens)));
   "), Lines (";
   numberToString (Position.line (Range.start (CodeLens.blameRange lens)) + 1); "-";
   numberToString (Position.line (Range.end_ (CodeLens.blameRange lens)) + 1);
   "), "].

(** *** Resolution *)

Section Resolve.

(** [GitService.getBlameForRangeSync] is not among the source files: it is a
    parameter, free to read and change a state of its own. *)
Context {W : Type}.
Variable getBlameForRangeSync :
  GitBlame.t -> GitUri.t -> Range.t -> W -> option GitBlameLines.t * W.

Definition ResolveState : Type :=
  Functions.Store BlameThunk.t (option GitBlameLines.t) W.

Definition runBlameThunk (t : BlameThunk.t) (w : W) : option GitBlameLines.t * W :=
  getBlameForRangeSync (BlameThunk.blame t) (BlameThunk.gitUri t)
    (BlameThunk.blameRange t) w.

(** [lens.getBlame()], that is [this.blame()]. *)
Definition getBlame (lens : CodeLens.t) (st : ResolveState)
  : option (option GitBlameLines.t * ResolveState) :=
  Functions.call runBlameThunk (CodeLens.blame lens) st.

(** The title shown while the document has unsaved changes. *)
Definition unsavedChangesTitle (config : IConfig.t) : string :=
  if ICodeLensConfig.enabled (IConfig.recentChange config)
     && ICodeLensConfig.enabled (IConfig.authors config)
  then UnsavedChanges.recentChangeAndAuthors (IConfig.unsavedChanges config)
  else if ICodeLensConfig.enabled (IConfig.recentChange config)
  then UnsavedChanges.recentChangeOnly (IConfig.unsavedChanges config)
  else UnsavedChanges.authorsOnly (IConfig.unsavedChanges config).

Definition _resolveGitRecentChangeCodeLens (this : GitCodeLensProvider.t)
  (lens : CodeLens.t) (st : ResolveState) : option (CodeLens.t * ResolveState) :=
  let config := GitCodeLensProvider._config this in
  (* Since blame information isn't valid when there are unsaved changes *)
  if GitCodeLensProvider._documentIsDirty this then
    Some (CodeLens.setCommand lens
            (Command.mk (unsavedChangesTitle config) None None), st)
  else
    '(blame, st) ← getBlame lens st;
    match blame with
    | None => Some (lens, st)
    | Some blame =>
      recentCommit ← Iterables.first (JsMap_values (GitBlameLines.commits blame));
      let title :=
        template [GitBlameCommit.author recentCommit; ", ";
                  GitBlameCommit.fromNow recentCommit] in
      let title :=
        if IConfig.debug config then
          String.append title
            (template (debugPrefix lens ++
                       ["Commit ("; GitBlameCommit.shortSha recentCommit; ")]"]))
        else title in
      lens ← applyConfiguredCommand
               (ICodeLensConfig.command (IConfig.recentChange config))
               title lens blame (Some recentCommit);
      Some (lens, st)
    end.

Definition _resolveGitAuthorsCodeLens (this : GitCodeLensProvider.t)
  (lens : CodeLens.t) (st : ResolveState) : option (CodeLens.t * ResolveState) :=
  let config := GitCodeLensProvider._config this in
  '(blame, st) ← getBlame lens st;
  match blame with
  | None => Some (lens, st)
  | Some blame =>
    let count := Z.of_nat (List.length (GitBlameLines.authors blame)) in
    firstAuthor ← Iterables.first (JsMap_values (GitBlameLines.authors blame));
    let title :=
      template [numberToString count; " ";
                if 1 <? count then "authors" else "author"; " (";
                GitAuthor.name firstAuthor;
                if 1 <? count then " and others" else ""; ")"] in
    let title :=
      if IConfig.debug config then
        String.append title
          (template (debugPrefix lens ++
                     ["Authors (";
                      Iterables.join
                        (map GitAuthor.name
                           (JsMap_values (GitBlameLines.authors blame))) ", ";
                      ")]"]))
      else title in
    lens ← applyConfiguredCommand
             (ICodeLensConfig.command (IConfig.authors config))
             title lens blame None;
    Some (lens, st)
  end.

Definition resolveCodeLens (this : GitCodeLensProvider.t) (lens : CodeLens.t)
  (st : ResolveState) : option (CodeLens.t * ResolveState) :=
  match CodeLens.class lens with
  | LensClass.GitRecentChangeCodeLens => _resolveGitRecentChangeCodeLens this lens st
  | LensClass.GitAuthorsCodeLens => _resolveGitAuthorsCodeLens this lens st
  end.

(** A run of [getBlame] calls, one after the other, with their results. *)
Fixpoint getBlames (lenses : list CodeLens.t) (st : ResolveState)
  : option (list (option GitBlameLines.t) * ResolveState) :=
  match lenses with
  | [] => Some ([], st)
  | lens :: rest =>
    '(r, st) ← getBlame lens st;
    '(rs, st) ← getBlames rest st;
    Some (r :: rs, st)
  end.

(** The store that the resolvers start from after a pass. *)
Definition afterPass (p : Pass.t) (w : W) : ResolveState :=
  Functions.mkStore (Pass.cells p) w [].

End Resolve.

(** ** [GitContentProvider] *)

(** Modelled from the spec: what [GitService.fromGitContentUri(uri)] decodes
    from the uri (the git service module is not among the source files). *)
Module IGitUriData.
Record t := mk {
  repoPath : string;
  fileName : string;
  originalFileName : option string;
  sha : string;
  decoration : option string
}.
End IGitUriData.

(** [a || b] on an optional string: the empty string is falsy. *)
Definition orElse (a : option string) (b : string) : string :=
  match a with
  | Some s => if String.eqb s "" then b else s
  | None => b
  end.

Definition newline : string := String (ascii_of_nat 10) EmptyString.

Section ContentProvider.

(** The services that the content provider calls are parameters:
    [GitService.fakeSha], [GitService.shortenSha], [path.relative], and the
    fetch [git.getVersionedFileText], whose awaited promise either rejects
    with an exception ([inl]) or resolves to the text ([inr]) and which may
    answer differently when asked again ([F] is its state). *)
Context {Exn F : Type}.
Variable fakeSha : string.
Variable shortenSha : string -> string.
Variable path_relative : string -> string -> string.
Variable getVersionedFileText : string -> string -> string -> F -> (Exn + string) * F.

(** What the provider does to the outside, in order. *)
Inductive Effect :=
| FetchVersionedFileText (repoPath fileName sha : string)
| LoggerError (ex : Exn) (classOrMethod method : string)
| ShowErrorMessage (message : string).

(** How the returned promise settles. *)
Inductive Settled :=
| Resolved (text : option string)      (* [None]: [undefined] *)
| Rejected (ex : Exn).

Definition unableToShowMessage (data : IGitUriData.t) (fileName : string) : string :=
  template ["Unable to show Git revision "; shortenSha (IGitUriData.sha data);
            " of '"; path_relative (IGitUriData.repoPath data) fileName; "'"].

Definition provideTextDocumentContent (data : IGitUriData.t) (git : F)
  : Settled * list Effect * F :=
  let fileName := orElse (IGitUriData.originalFileName data) (IGitUriData.fileName data) in
  let '(fetched, effects, git) :=
    if negb (String.eqb (IGitUriData.sha data) fakeSha) then
      let '(r, git') :=
        getVersionedFileText (IGitUriData.repoPath data) fileName
          (IGitUriData.sha data) git in
      (r, [FetchVersionedFileText (IGitUriData.repoPath data) fileName
             (IGitUriData.sha data)], git')
    else (inr "", [], git) in
  match fetched with
  | inr text =>
    let text :=
      match IGitUriData.decoration data with
      | Some d => if String.eqb d "" then text else template [d; newline; text]
      | None => text
      end in
    (Resolved (Some text), effects, git)
  | inl ex =>
    (Resolved None,
     effects ++ [LoggerError ex "GitContentProvider" "getVersionedFileText";
                 ShowErrorMessage (unableToShowMessage data fileName)],
     git)
  end.

End ContentProvider.

(** ** Sample inputs *)

Module Samples.

Definition tenLines : list string :=
  ["namespace App {"; "  class Greeter {"; "    constructor() {"; "    }";
   "    greet() { return 1; }"; "    function f() { return 2; }"; "    more() {";
   "    after() { return 3; }"; "  }"; "}"].

Definition doc (languageId : string) (isDirty : bool) : TextDocument.t :=
  TextDocument.mk languageId isDirty tenLines.

Definition lensConfig (enabled : bool) (command : option CodeLensCommand.t)
  : ICodeLensConfig.t := ICodeLensConfig.mk enabled command.

Definition strings : UnsavedChanges.t :=
  UnsavedChanges.mk "Cannot determine recent change or authors (unsaved changes)"
    "Cannot determine recent change (unsaved changes)"
    "Cannot determine authors (unsaved changes)".

Definition config (recentChange authors : bool)
  (locations : list CodeLensLocations.t) : IConfig.t :=
  IConfig.mk false
    (lensConfig recentChange (Some CodeLensCommand.ShowQuickCommitFileDetails))
    (lensConfig authors (Some CodeLensCommand.BlameAnnotate))
    locations None [] strings.

Definition uri : GitUri.t := GitUri.mk "/repo/src/app.ts" (Some "/repo") None.

Definition commit (sha author : string) (isUncommitted : bool) : GitBlameCommit.t :=
  GitBlameCommit.mk "/repo" sha "src/app.ts" author 1500000000 "message"
    [GitCommitLine.mk sha 0 0] None None None isUncommitted
    (String.substring 0 8 sha) "2 days ago".

Definition shaA : string := "3f2a9c1e7b6d4a5f8091a2b3c4d5e6f708192a3b".
Definition shaZero : string := "0000000000000000000000000000000000000000".

Definition blame : GitBlame.t :=
  GitBlame.mk [("Ann", GitAuthor.mk "Ann" 10)]
    [(shaA, commit shaA "Ann" false)]
    (map (fun n => GitCommitLine.mk shaA (Z.of_nat n) (Z.of_nat n)) (seq 0 10)).

Definition blameLines (c : GitBlameCommit.t) : GitBlameLines.t :=
  GitBlameLines.mk [("Ann", GitAuthor.mk "Ann" 10)]
    [(GitBlameCommit.sha c, c)]
    [GitCommitLine.mk (GitBlameCommit.sha c) 0 0]
    [GitCommitLine.mk (GitBlameCommit.sha c) 0 0].

(** A symbol of the given kind from [startLine] to [endLine]. *)
Definition symbolAt (kind : SymbolKind.t) (startLine endLine : Z)
  : SymbolInformation.t :=
  SymbolInformation.mk "sym" kind (Location.mk (Range.new4 startLine 4 endLine 5)).

Definition provider (c : IConfig.t) : GitCodeLensProvider.t :=
  GitCodeLensProvider.mk c false.

(** Three block symbols, the third one back on the line of the first. *)
Definition outOfOrder : list SymbolInformation.t :=
  [symbolAt SymbolKind.Function 5 5; symbolAt SymbolKind.Method 6 7;
   symbolAt SymbolKind.Function 5 5].

(** Block symbols by starting line, two of them on line 5. *)
Definition inOrder : list SymbolInformation.t :=
  [symbolAt SymbolKind.Constructor 2 3; symbolAt SymbolKind.Function 5 5;
   symbolAt SymbolKind.Method 5 5; symbolAt SymbolKind.Method 6 7].

(** A package declared on lines 3 to 5, and one declared on line 0. *)
Definition packageBelow : SymbolInformation.t := symbolAt SymbolKind.Package 3 5.
Definition packageOnTop : SymbolInformation.t := symbolAt SymbolKind.Package 0 0.

Definition containers : ICodeLensLanguageLocation.t :=
  ICodeLensLanguageLocation.mk None [CodeLensLocations.Containers] None.

Definition blocks : ICodeLensLanguageLocation.t :=
  ICodeLensLanguageLocation.mk None [CodeLensLocations.Blocks] None.

Definition emptyPass : Pass.t := Pass.mk [] [].

(** A git service that counts its calls and answers the first one only. *)
Definition countingBlame (b : GitBlame.t) (u : GitUri.t) (r : Range.t) (calls : nat)
  : option GitBlameLines.t * nat :=
  (if Nat.eqb calls 0 then Some (blameLines (commit shaA "Ann" false)) else None,
   S calls).

(** A symbol that starts below the last line of [tenLines]. *)
Definition beyondTheEnd : SymbolInformation.t := symbolAt SymbolKind.Function 40 41.

Definition noLines : GitBlame.t := GitBlame.mk [] [] [].

(** A recent change lens as the pass makes it for a method on line 6. *)
Definition methodLens : CodeLens.t :=
  GitRecentChangeCodeLens 0 uri SymbolKind.Method (Range.new4 6 4 7 5) false
    (Range.new4 6 10 6 11).

(** A store whose only function already gave the lines of commit [c]. *)
Definition computed (c : GitBlameCommit.t) : ResolveState (W := nat) :=
  Functions.mkStore
    [Functions.mkCell (BlameThunk.mk blame uri (Range.new4 6 4 7 5))
       (Some (Some (blameLines c)))]
    1%nat [0%nat].

(** A fetch that always fails, and counts how often it is asked. *)
Definition failingFetch (repoPath fileName sha : string) (asked : nat)
  : (string + string) * nat :=
  (inl "fatal: bad revision", S asked).

Definition fakeSha : string := "ffffffffffffffffffffffffffffffffffffffff".

Definition firstEight (sha : string) : string := String.substring 0 8 sha.

(** Stands for [path.relative] where the file name is already relative. *)
Definition keepFileName (from to : string) : string := to.

Definition uriData : IGitUriData.t :=
  IGitUriData.mk "/repo" "src/app.ts" (Some "src/old.ts") shaA None.

(** A one-line document whose only line was written by "A" yesterday. *)
Definition oneLineDoc : TextDocument.t := TextDocument.mk "plaintext" false ["hello"].

Definition commitByA : GitBlameCommit.t :=
  GitBlameCommit.mk "/repo" shaA "src/app.ts" "A" 1500000000 "message"
    [GitCommitLine.mk shaA 0 0] None None None false "3f2a9c1e" "yesterday".

Definition oneLineBlame : GitBlame.t :=
  GitBlame.mk [("A", GitAuthor.mk "A" 1)] [(shaA, commitByA)]
    [GitCommitLine.mk shaA 0 0].

(** A git service that answers with the lines of [commitByA]. *)
Definition blameByA (b : GitBlame.t) (u : GitUri.t) (r : Range.t) (calls : nat)
  : option GitBlameLines.t * nat :=
  (Some (GitBlameLines.mk [("A", GitAuthor.mk "A" 1)] [(shaA, commitByA)]
           [GitCommitLine.mk shaA 0 0] [GitCommitLine.mk shaA 0 0]),
   S calls).

(** A git service that answers with two authors, "A" seen first. *)
Definition blameByTwo (b : GitBlame.t) (u : GitUri.t) (r : Range.t) (calls : nat)
  : option GitBlameLines.t * nat :=
  (Some (GitBlameLines.mk
           [("A", GitAuthor.mk "A" 3); ("B", GitAuthor.mk "B" 2)]
           [(shaA, commitByA)] [GitCommitLine.mk shaA 0 0]
           [GitCommitLine.mk shaA 0 0]),
   S calls).

(** Custom locations that allow variables, written in capitals. *)
Definition customVariables : ICodeLensLanguageLocation.t :=
  ICodeLensLanguageLocation.mk None [CodeLensLocations.Custom] (Some ["VARIABLE"]).

(** The same custom locations, written in mixed case. *)
Definition customVariablesMixed : ICodeLensLanguageLocation.t :=
  ICodeLensLanguageLocation.mk None [CodeLensLocations.Custom] (Some ["Variable"]).

(** A document whose line 1 is empty. *)
Definition gapDoc : TextDocument.t :=
  TextDocument.mk "typescript" false ["class A {"; ""; "}"].

(** An authors lens as the pass makes it for a method on line 6. *)
Definition authorsLens : CodeLens.t :=
  GitAuthorsCodeLens 0 uri SymbolKind.Method (Range.new4 6 4 7 5) false
    (Range.new4 6 11 6 11).

(** Configured for the diff with the previous revision on the authors lens. *)
Definition diffConfig : IConfig.t :=
  IConfig.mk false (lensConfig true (Some CodeLensCommand.ShowQuickCommitFileDetails))
    (lensConfig true (Some CodeLensCommand.DiffWithPrevious))
    [CodeLensLocations.Blocks] None [] strings.

(** A git service that answers nothing. *)
Definition noBlame (b : GitBlame.t) (u : GitUri.t) (r : Range.t) (calls : nat)
  : option GitBlameLines.t * nat := (None, S calls).

(** The two lenses that the pass makes for a method on lines 6 to 7 of
    [tenLines], and the pass that holds them. *)
Definition methodRecentChange : CodeLens.t :=
  GitRecentChangeCodeLens 0 uri SymbolKind.Method (Range.new4 6 4 7 5) false
    (Range.new4 6 11 6 12).

Definition methodAuthors : CodeLens.t :=
  GitAuthorsCodeLens 0 uri SymbolKind.Method (Range.new4 6 4 7 5) false
    (Range.new4 6 12 6 12).

Definition methodPass : Pass.t :=
  Pass.mk [methodRecentChange; methodAuthors]
    [Functions.mkCell (BlameThunk.mk blame uri (Range.new4 6 4 7 5)) None].

(** A fetch that answers with the file name it was asked for. *)
Definition echoFetch (repoPath fileName sha : string) (asked : nat)
  : (string + string) * nat :=
  (inr (String.append "text of " fileName), S asked).

Definition decoratedData : IGitUriData.t :=
  IGitUriData.mk "/repo" "src/app.ts" (Some "") shaA (Some "// 3f2a9c1e").

Definition fakeData : IGitUriData.t :=
  IGitUriData.mk "/repo" "src/app.ts" None fakeSha (Some "// not committed").

(** A store whose only function already gave a blame without any commit. *)
Definition computedEmpty : ResolveState (W := nat) :=
  Functions.mkStore
    [Functions.mkCell (BlameThunk.mk blame uri (Range.new4 6 4 7 5))
       (Some (Some (GitBlameLines.mk [] [] [] [])))]
    1%nat [0%nat].

(** Containers in general, blocks for TypeScript; debug titles, other
    commands and other texts than [config]. *)
Definition perLanguageConfig : IConfig.t :=
  IConfig.mk true (lensConfig true (Some CodeLensCommand.BlameAnnotate))
    (lensConfig true None) [CodeLensLocations.Containers] (Some ["file"])
    [ICodeLensLanguageLocation.mk None [CodeLensLocations.Document] None;
     ICodeLensLanguageLocation.mk (Some "TypeScript") [CodeLensLocations.Blocks] None;
     ICodeLensLanguageLocation.mk (Some "typescript") [CodeLensLocations.Document] None]
    (UnsavedChanges.mk "a" "b" "c").

(** The same flags and the same entry for TypeScript, the rest different. *)
Definition perLanguageConfig2 : IConfig.t :=
  IConfig.mk false (lensConfig true (Some CodeLensCommand.ShowQuickCommitFileDetails))
    (lensConfig true (Some CodeLensCommand.BlameAnnotate))
    [CodeLensLocations.Document] None
    [ICodeLensLanguageLocation.mk (Some "TypeScript") [CodeLensLocations.Blocks] None]
    strings.

(** A document whose first line holds a character of two bytes: twelve
    characters, thirteen bytes. *)
Definition accentedDoc : TextDocument.t :=
  TextDocument.mk "typescript" false ["class Café {"; "  run() {}"; "}"].

(** The class and the anchor line of each lens. *)
Definition summary (p : option Pass.t) : option (list (LensClass.t * Z)) :=
  (fun p => map (fun l => (CodeLens.class l,
                           Position.line (Range.start (CodeLens.range l))))
                (Pass.lenses p)) <$> p.

End Samples.

(** ** Vocabulary of the properties *)

(** The line at which the anchor range of a lens starts. *)
Definition anchorLine (l : CodeLens.t) : Z :=
  Position.line (Range.start (CodeLens.range l)).

(** A range that lies on the single line [n]. *)
Definition onLine (r : Range.t) (n : Z) : Prop :=
  Position.line (Range.start r) = n /\ Position.line (Range.end_ r) = n.

(** The kind of a lens together with its anchor line. *)
Definition lensKey (l : CodeLens.t) : LensClass.t * Z := (CodeLens.class l, anchorLine l).

(** [symbol.location.range] and the line at which it starts. *)
Definition symbolRange (s : SymbolInformation.t) : Range.t :=
  Location.range (SymbolInformation.location s).

Definition symbolLine (s : SymbolInformation.t) : Z :=
  Position.line (Range.start (symbolRange s)).

(** The recent change lens is wanted: [_documentIsDirty || recentChange.enabled]. *)
Definition wantsRecentChange (this : GitCodeLensProvider.t) : bool :=
  GitCodeLensProvider._documentIsDirty this
  || ICodeLensConfig.enabled (IConfig.recentChange (GitCodeLensProvider._config this)).

Definition authorsEnabled (this : GitCodeLensProvider.t) : bool :=
  ICodeLensConfig.enabled (IConfig.authors (GitCodeLensProvider._config this)).

(** The kinds named by the Omnisharp workaround. *)
Definition csharpKinds : list SymbolKind.t :=
  [SymbolKind.Package; SymbolKind.Module_; SymbolKind.Namespace; SymbolKind.Class;
   SymbolKind.Interface; SymbolKind.Constructor; SymbolKind.Method;
   SymbolKind.Function; SymbolKind.Enum].

(** The lenses that a call added to the array. *)
Definition added (before after : Pass.t) : list CodeLens.t :=
  drop (List.length (Pass.lenses before)) (Pass.lenses after).

(** The symbol's starting line is a line of the document and holds at least
    one character: then neither [lineAt] nor [new Position] throws. *)
Definition anchorable (document : TextDocument.t) (s : SymbolInformation.t) : Prop :=
  0 <= symbolLine s < TextDocument.lineCount document
  /\ 1 <= TextDocument.lineLength document (symbolLine s).

(** What a call of [_provideCodeLens] that gets past its two early returns
    does: it adds the recent change lens when wanted, then the authors lens
    when enabled, multi-line and not dirty, both on the symbol's line and both
    holding the one function memoized by this call. *)
Definition Emits (this : GitCodeLensProvider.t) (gitUri : GitUri.t)
  (document : TextDocument.t) (symbol : SymbolInformation.t) (blame : GitBlame.t)
  (st st' : Pass.t) (blameRange : Range.t) : Prop :=
  let kind := SymbolInformation.kind symbol in
  let cell := List.length (Pass.cells st) in
  let multiline := authorsMultiline document kind blameRange in
  exists rangeRC rangeAU,
    Pass.lenses st' =
       Pass.lenses st
       ++ (if wantsRecentChange this
           then [GitRecentChangeCodeLens cell gitUri kind blameRange false rangeRC]
           else [])
       ++ (if authorsEnabled this && multiline
              && negb (GitCodeLensProvider._documentIsDirty this)
           then [GitAuthorsCodeLens cell gitUri kind blameRange false rangeAU]
           else [])
    /\ Pass.cells st' =
       Pass.cells st
       ++ (if wantsRecentChange this || (authorsEnabled this && multiline)
           then [Functions.mkCell (BlameThunk.mk blame gitUri blameRange) None]
           else [])
    /\ onLine rangeRC (symbolLine symbol) /\ onLine rangeAU (symbolLine symbol).

(** The policy asks for a lens on the whole document. *)
Definition wantsDocumentLens (languageLocations : ICodeLensLanguageLocation.t) : bool :=
  includes (ICodeLensLanguageLocation.locations languageLocations)
    CodeLensLocations.Document
  || (includes (ICodeLensLanguageLocation.locations languageLocations)
        CodeLensLocations.Custom
      && truthy (customSymbolsFind
                   (ICodeLensLanguageLocation.customSymbols languageLocations)
                   "file")).

(** [l.range.start.line === 0 && l.range.end.line === 0] *)
Definition onLineZero (l : CodeLens.t) : bool :=
  (Position.line (Range.start (CodeLens.range l)) =? 0)
  && (Position.line (Range.end_ (CodeLens.range l)) =? 0).

(** What [provideCodeLenses] adds for the whole document when it adds
    something. *)
Definition EmitsDocument (this : GitCodeLensProvider.t) (gitUri : GitUri.t)
  (document : TextDocument.t) (blame : GitBlame.t) (st st' : Pass.t) : Prop :=
  let cell := List.length (Pass.cells st) in
  let blameRange := wholeDocumentRange document in
  let c := Position.character (Range.start blameRange) in
  Pass.lenses st' =
     Pass.lenses st
     ++ (if wantsRecentChange this
         then [GitRecentChangeCodeLens cell gitUri SymbolKind.File blameRange true
                 (Range.new4 0 0 0 c)]
         else [])
     ++ (if authorsEnabled this && negb (GitCodeLensProvider._documentIsDirty this)
         then [GitAuthorsCodeLens cell gitUri SymbolKind.File blameRange true
                 (Range.new4 0 1 0 c)]
         else [])
  /\ Pass.cells st' =
     Pass.cells st
     ++ (if wantsRecentChange this || authorsEnabled this
         then [Functions.mkCell (BlameThunk.mk blame gitUri blameRange) None]
         else []).

(** The anchor of a lens lies on one line. *)
Definition singleLineAnchor (l : CodeLens.t) : Prop :=
  Position.line (Range.end_ (CodeLens.range l)) = anchorLine l.

(** The invariant of the walk over symbols in document order: no two lenses
    share kind and anchor line, every anchor lies on one line, no anchor is
    below line [m], and the last lens is anchored lowest. *)
Definition Ordered (m : Z) (lenses : list CodeLens.t) : Prop :=
  NoDup (map lensKey lenses)
  /\ Forall singleLineAnchor lenses
  /\ Forall (fun l => anchorLine l <= m) lenses
  /\ (forall lst, last lenses = Some lst ->
      Forall (fun l => anchorLine l <= anchorLine lst) lenses).

(** [locations.length === 1 && locations.includes(CodeLensLocations.Document)]:
    only the lens for the whole document is asked for. *)
Definition documentOnly (languageLocations : ICodeLensLanguageLocation.t) : bool :=
  (List.length (ICodeLensLanguageLocation.locations languageLocations) =? 1)%nat
  && includes (ICodeLensLanguageLocation.locations languageLocations)
       CodeLensLocations.Document.

Definition isRecentChange (l : CodeLens.t) : Prop :=
  CodeLens.class l = LensClass.GitRecentChangeCodeLens.

(** A lens made by [_provideCodeLens] for [symbol]: what it holds. *)
Definition lensOf (gitUri : GitUri.t) (symbol : SymbolInformation.t)
  (blameRange : Range.t) (cell : nat) (l : CodeLens.t) : Prop :=
  CodeLens.blame l = cell
  /\ CodeLens.uri l = gitUri
  /\ CodeLens.symbolKind l = SymbolInformation.kind symbol
  /\ CodeLens.blameRange l = blameRange
  /\ CodeLens.isFullRange l = false
  /\ onLine (CodeLens.range l) (symbolLine symbol)
  /\ CodeLens.command l = None.

(** The lens holds a function that [Functions.once] made around the blame of
    the lens's own range, and that function has not run yet. *)
Definition Memoized (blame : GitBlame.t) (cells : list BlameCell) (l : CodeLens.t)
  : Prop :=
  cells !! CodeLens.blame l
  = Some (Functions.mkCell
            (BlameThunk.mk blame (CodeLens.uri l) (CodeLens.blameRange l)) None).

(** A store in which a cell that holds no result has never run. *)
Definition RunsOnce {T R W} (st : Functions.Store T R W) : Prop :=
  NoDup (Functions.runs st)
  /\ forall id c, Functions.cells st !! id = Some c ->
                  Functions.result c = None -> ~ In id (Functions.runs st).

(** The command identifier that each builder gives when nothing is disabled:
    [_applyBlameAnnotateCommand], [_applyShowBlameHistoryCommand],
    [_applyShowFileHistoryCommand] and [_applyDiffWithPreviousCommand] name a
    member of [Commands], the others the configured [CodeLensCommand]. *)
Definition normalCommand (configured : CodeLensCommand.t) : CommandName :=
  match configured with
  | CodeLensCommand.BlameAnnotate => CommandOf Commands.ToggleFileBlame
  | CodeLensCommand.ShowBlameHistory => CommandOf Commands.ShowBlameHistory
  | CodeLensCommand.ShowFileHistory => CommandOf Commands.ShowFileHistory
  | CodeLensCommand.DiffWithPrevious => CommandOf Commands.DiffWithPrevious
  | other => CodeLensCommandOf other
  end.

(** The two quick commit details actions. *)
Definition quickCommitDetails (configured : CodeLensCommand.t) : bool :=
  match configured with
  | CodeLensCommand.ShowQuickCommitDetails
  | CodeLensCommand.ShowQuickCommitFileDetails => true
  | _ => false
  end.

(** The [command] field of the command of a lens. *)
Definition commandName (lens : CodeLens.t) : option CommandName :=
  c ← CodeLens.command lens; Command.command c.

(** The kinds of the two groups of the eligibility [switch], and the test of
    the custom allow-list for a kind. *)
Definition containerKinds : list SymbolKind.t :=
  [SymbolKind.File; SymbolKind.Package; SymbolKind.Class; SymbolKind.Interface;
   SymbolKind.Module_; SymbolKind.Namespace; SymbolKind.Struct].

Definition blockKinds : list SymbolKind.t :=
  [SymbolKind.Constructor; SymbolKind.Enum; SymbolKind.Function;
   SymbolKind.Method; SymbolKind.Property].

Definition customAllows (languageLocation : ICodeLensLanguageLocation.t)
  (kind : SymbolKind.t) : bool :=
  existsb (fun s => String.eqb (toLowerCase s) (toLowerCase (SymbolKind.name kind)))
    (default [] (ICodeLensLanguageLocation.customSymbols languageLocation)).

(** A lens made for one of the symbols: it is not a lens of the whole
    document, and it has the kind, the starting line and the blame range of an
    eligible symbol of the list. *)
Definition fromSymbol (document : TextDocument.t)
  (languageLocation : ICodeLensLanguageLocation.t)
  (symbols : list SymbolInformation.t) (l : CodeLens.t) : Prop :=
  CodeLens.isFullRange l = false
  /\ exists symbol,
       In symbol symbols
       /\ CodeLens.symbolKind l = SymbolInformation.kind symbol
       /\ anchorLine l = symbolLine symbol
       /\ _validateSymbolAndGetBlameRange document symbol languageLocation
          = Some (CodeLens.blameRange l).

(** A lens made for the whole document. *)
Definition forDocument (document : TextDocument.t) (l : CodeLens.t) : Prop :=
  CodeLens.isFullRange l = true
  /\ CodeLens.symbolKind l = SymbolKind.File
  /\ CodeLens.blameRange l = wholeDocumentRange document
  /\ anchorLine l = 0.

(** Two lenses that differ at most in their command. *)
Definition sameButCommand (l l' : CodeLens.t) : Prop :=
  CodeLens.class l' = CodeLens.class l
  /\ CodeLens.blame l' = CodeLens.blame l
  /\ CodeLens.uri l' = CodeLens.uri l
  /\ CodeLens.symbolKind l' = CodeLens.symbolKind l
  /\ CodeLens.blameRange l' = CodeLens.blameRange l
  /\ CodeLens.isFullRange l' = CodeLens.isFullRange l
  /\ CodeLens.range l' = CodeLens.range l.

(** A command as the builders make it: a command identifier and arguments
    that begin with the file of the lens. *)
Definition actsOnFileOf (lens : CodeLens.t) (c : Command.t) : Prop :=
  is_Some (Command.command c)
  /\ exists rest,
       Command.arguments c = Some (UriFile (GitUri.fsPath (CodeLens.uri lens)) :: rest).

(** A command that is a title and nothing else. *)
Definition titleOnly (c : Command.t) : Prop :=
  Command.command c = None /\ Command.arguments c = None.

(** [`${decoration}\n${text}`] when there is a decoration, else the text. *)
Definition decorated (data : IGitUriData.t) (text : string) : string :=
  match IGitUriData.decoration data with
  | Some d =>
    if String.eqb d "" then text
    else String.append d (String.append newline text)
  | None => text
  end.

(** The anchor of a lens lies on one line, not above line 0, and, for a lens
    made for a symbol, on a line of the document. *)
Definition anchoredInDocument (document : TextDocument.t) (l : CodeLens.t) : Prop :=
  singleLineAnchor l
  /\ 0 <= anchorLine l
  /\ (CodeLens.isFullRange l = false ->
      anchorLine l < TextDocument.lineCount document).

(** The lenses that hold the memoized function of index [i]. *)
Definition holders (i : nat) (lenses : list CodeLens.t) : nat :=
  List.length (List.filter (fun l => Nat.eqb (CodeLens.blame l) i) lenses).

(** Every lens holds a memoized function of the pass, and every memoized
    function of the pass is held by one lens or by two. *)
Definition Held (p : Pass.t) : Prop :=
  List.Forall (fun l => (CodeLens.blame l < List.length (Pass.cells p))%nat)
    (Pass.lenses p)
  /\ forall i, (i < List.length (Pass.cells p))%nat ->
               (1 <= holders i (Pass.lenses p) <= 2)%nat.

(** ** Ranges and lines *)

Lemma Range_new_onLine (a b : Position.t) (n : Z) :
  Position.line a = n -> Position.line b = n -> onLine (Range.new a b) n.
Proof.
  intros Ha Hb. unfold Range.new, onLine.
  destruct (Position.isBefore a b); simpl; auto.
Qed.

Lemma Position_new_Some (l c : Z) (p : Position.t) :
  Position.new l c = Some p -> p = Position.mk l c /\ 0 <= l /\ 0 <= c.
Proof.
  unfold Position.new. intros H.
  destruct (l <? 0) eqn:El; destruct (c <? 0) eqn:Ec; simpl in H; try discriminate.
  inversion H. repeat split; lia.
Qed.

Lemma Position_new_nonneg (l c : Z) :
  0 <= l -> 0 <= c -> Position.new l c = Some (Position.mk l c).
Proof.
  intros Hl Hc. unfold Position.new.
  destruct (l <? 0) eqn:El; destruct (c <? 0) eqn:Ec; simpl; try reflexivity; lia.
Qed.

Lemma with_start_onLine (r : Range.t) (p : Position.t) (n : Z) :
  onLine r n -> Position.line p = n -> onLine (Range.with_start r p) n.
Proof.
  intros [_ He] Hp. unfold Range.with_start. now apply Range_new_onLine.
Qed.

Lemma lineAt_Some (d : TextDocument.t) (p : Position.t) (line : TextLine.t) :
  TextDocument.lineAt d p = Some line ->
  TextLine.lineNumber line = Position.line p
  /\ 0 <= Position.line p < TextDocument.lineCount d
  /\ onLine (TextLine.range line) (Position.line p)
  /\ Position.character (Range.end_ (TextLine.range line))
     = TextDocument.lineLength d (Position.line p).
Proof.
  unfold TextDocument.lineAt. intros H.
  destruct (Position.line p <? 0) eqn:E0;
    destruct (TextDocument.lineCount d <=? Position.line p) eqn:E1;
    simpl in H; try discriminate.
  inversion H; subst; clear H. simpl.
  split; [reflexivity|]. split; [lia|]. split.
  - now apply Range_new_onLine.
  - unfold Range.new4, Range.new, Position.isBefore. simpl.
    assert (Hlen : 0 <= TextDocument.lineLength d (Position.line p))
      by (unfold TextDocument.lineLength; lia).
    destruct (Position.line p <? Position.line p) eqn:Ea; [lia|].
    rewrite Z.eqb_refl. simpl.
    destruct (0 <? TextDocument.lineLength d (Position.line p)) eqn:Eb; simpl; lia.
Qed.

Lemma lineAt_in_document (d : TextDocument.t) (p : Position.t) :
  0 <= Position.line p < TextDocument.lineCount d ->
  exists line, TextDocument.lineAt d p = Some line.
Proof.
  intros H. unfold TextDocument.lineAt.
  destruct (Position.line p <? 0) eqn:E0; [lia|].
  destruct (TextDocument.lineCount d <=? Position.line p) eqn:E1; [lia|].
  simpl. eauto.
Qed.

(** ** One call of [_provideCodeLens] *)

Lemma provideCodeLens_not_valid this gitUri document symbol languageLocation blame st :
  _validateSymbolAndGetBlameRange document symbol languageLocation = None ->
  _provideCodeLens this gitUri document symbol languageLocation blame st = Some st.
Proof. intros H. unfold _provideCodeLens. now rewrite H. Qed.

Lemma provideCodeLens_same_line this gitUri document symbol languageLocation blame st
      blameRange line :
  _validateSymbolAndGetBlameRange document symbol languageLocation = Some blameRange ->
  TextDocument.lineAt document (Range.start (symbolRange symbol)) = Some line ->
  lastLensStartsAtLine (Pass.lenses st) (TextLine.lineNumber line) = true ->
  _provideCodeLens this gitUri document symbol languageLocation blame st = Some st.
Proof.
  intros Hv Hl Hlast. unfold _provideCodeLens, symbolRange in *.
  rewrite Hv, Hl. simpl. now rewrite Hlast.
Qed.

Lemma provideCodeLens_emits this gitUri document symbol languageLocation blame st st'
      blameRange line :
  _validateSymbolAndGetBlameRange document symbol languageLocation = Some blameRange ->
  TextDocument.lineAt document (Range.start (symbolRange symbol)) = Some line ->
  lastLensStartsAtLine (Pass.lenses st) (TextLine.lineNumber line) = false ->
  _provideCodeLens this gitUri document symbol languageLocation blame st = Some st' ->
  Emits this gitUri document symbol blame st st' blameRange.
Proof.
  intros Hv Hl Hlast Hstep. unfold Emits.
  set (kind := SymbolInformation.kind symbol).
  set (multiline := authorsMultiline document kind blameRange).
  destruct (lineAt_Some _ _ _ Hl) as (Hnum & Hin & Hon & Hend).
  fold (symbolLine symbol) in Hnum, Hin, Hon, Hend.
  unfold _provideCodeLens, symbolRange in *.
  rewrite Hv, Hl in Hstep. simpl in Hstep. rewrite Hlast in Hstep.
  fold kind in Hstep. fold multiline in Hstep.
  unfold wantsRecentChange, authorsEnabled.
  destruct st as [ls cs]. simpl in *.
  assert (Hs : Position.line (Range.start (TextLine.range line)) = symbolLine symbol)
    by apply Hon.
  rewrite Hs in Hstep.
  destruct (GitCodeLensProvider._documentIsDirty this) eqn:Ed;
    destruct (ICodeLensConfig.enabled (IConfig.recentChange (GitCodeLensProvider._config this))) eqn:Er;
    destruct (ICodeLensConfig.enabled (IConfig.authors (GitCodeLensProvider._config this))) eqn:Ea;
    destruct multiline eqn:Em; simpl in Hstep |- *;
    repeat match type of Hstep with
    | context [Position.new ?l ?c] =>
      let E := fresh "E" in
      destruct (Position.new l c) eqn:E; simpl in Hstep; [|discriminate];
      apply Position_new_Some in E; destruct E as (-> & _ & _)
    end;
    inversion Hstep; subst; clear Hstep; simpl;
    eexists _, _;
    (split; [rewrite <- ?app_assoc, ?app_nil_r; simpl; reflexivity|]);
    (split; [rewrite ?app_nil_r; reflexivity|]);
    split;
    first [ apply with_start_onLine; [exact Hon | reflexivity] | exact Hon ].
Qed.

Lemma provideCodeLens_cases this gitUri document symbol languageLocation blame st st' :
  _provideCodeLens this gitUri document symbol languageLocation blame st = Some st' ->
  (_validateSymbolAndGetBlameRange document symbol languageLocation = None /\ st' = st)
  \/ exists blameRange line,
       _validateSymbolAndGetBlameRange document symbol languageLocation = Some blameRange
       /\ TextDocument.lineAt document (Range.start (symbolRange symbol)) = Some line
       /\ ((lastLensStartsAtLine (Pass.lenses st) (symbolLine symbol) = true /\ st' = st)
           \/ (lastLensStartsAtLine (Pass.lenses st) (symbolLine symbol) = false
               /\ Emits this gitUri document symbol blame st st' blameRange)).
Proof.
  intros Hstep.
  destruct (_validateSymbolAndGetBlameRange document symbol languageLocation)
    as [blameRange|] eqn:Hv.
  2: { rewrite provideCodeLens_not_valid in Hstep by assumption.
       left. split; congruence. }
  destruct (TextDocument.lineAt document (Range.start (symbolRange symbol)))
    as [line|] eqn:Hl.
  2: { unfold _provideCodeLens, symbolRange in *. rewrite Hv, Hl in Hstep.
       discriminate. }
  right. exists blameRange, line.
  destruct (lineAt_Some _ _ _ Hl) as (Hnum & _).
  fold (symbolLine symbol) in Hnum. rewrite <- Hnum.
  split; [reflexivity|]. split; [reflexivity|].
  destruct (lastLensStartsAtLine (Pass.lenses st) (TextLine.lineNumber line)) eqn:Hlast.
  - rewrite (provideCodeLens_same_line _ _ _ _ _ _ _ _ _ Hv Hl Hlast) in Hstep.
    left. split; congruence.
  - right. split; [reflexivity|].
    eapply provideCodeLens_emits; eassumption.
Qed.

(** A call returns whenever the symbol's line can carry an anchor. *)
Lemma provideCodeLens_returns this gitUri document symbol languageLocation blame st :
  anchorable document symbol ->
  exists st', _provideCodeLens this gitUri document symbol languageLocation blame st
              = Some st'.
Proof.
  intros [Hin Hlen]. unfold _provideCodeLens.
  change (Location.range (SymbolInformation.location symbol))
    with (symbolRange symbol).
  destruct (_validateSymbolAndGetBlameRange document symbol languageLocation)
    as [blameRange|]; [|eauto].
  destruct (lineAt_in_document document (Range.start (symbolRange symbol)) Hin)
    as [line Hl].
  rewrite Hl. simpl.
  destruct (lastLensStartsAtLine _ _); [eauto|].
  destruct (lineAt_Some _ _ _ Hl) as (_ & _ & [Hs _] & Hend).
  fold (symbolLine symbol) in Hs, Hend. rewrite Hs, Hend.
  rewrite !Position_new_nonneg by lia.
  destruct (GitCodeLensProvider._documentIsDirty this),
    (ICodeLensConfig.enabled (IConfig.recentChange (GitCodeLensProvider._config this))),
    (ICodeLensConfig.enabled (IConfig.authors (GitCodeLensProvider._config this))),
    (authorsMultiline document (SymbolInformation.kind symbol) blameRange);
    simpl; rewrite ?Position_new_nonneg by lia; simpl; eauto.
Qed.

Lemma forEachSymbol_returns this gitUri document languageLocation blame symbols :
  Forall (anchorable document) symbols ->
  forall st, exists st',
    forEachSymbol this gitUri document languageLocation blame symbols st = Some st'.
Proof.
  induction 1 as [|sym rest Hsym _ IH]; intros st; simpl; [eauto|].
  destruct (provideCodeLens_returns this gitUri document sym languageLocation blame st Hsym)
    as [st1 ->].
  simpl. apply IH.
Qed.

(** ** The lens for the whole document *)

Lemma provideDocumentLens_cases this gitUri document languageLocations blame st :
  let st' := provideDocumentLens this gitUri document languageLocations blame st in
  (wantsDocumentLens languageLocations = false /\ st' = st)
  \/ (wantsDocumentLens languageLocations = true
      /\ existsb onLineZero (Pass.lenses st) = true /\ st' = st)
  \/ (wantsDocumentLens languageLocations = true
      /\ existsb onLineZero (Pass.lenses st) = false
      /\ EmitsDocument this gitUri document blame st st').
Proof.
  unfold provideDocumentLens, EmitsDocument.
  fold (wantsDocumentLens languageLocations).
  change (fun l : CodeLens.t =>
            (Position.line (Range.start (CodeLens.range l)) =? 0)
            && (Position.line (Range.end_ (CodeLens.range l)) =? 0))
    with onLineZero.
  unfold wantsRecentChange, authorsEnabled.
  destruct (wantsDocumentLens languageLocations); [|now left].
  destruct (existsb onLineZero (Pass.lenses st)); [right; left; now repeat split|].
  right. right. split; [reflexivity|]. split; [reflexivity|].
  destruct st as [ls cs]. simpl.
  destruct (GitCodeLensProvider._documentIsDirty this),
    (ICodeLensConfig.enabled (IConfig.recentChange (GitCodeLensProvider._config this))),
    (ICodeLensConfig.enabled (IConfig.authors (GitCodeLensProvider._config this)));
    simpl; rewrite <- ?app_assoc, ?app_nil_r; simpl; split; reflexivity.
Qed.

Lemma new4_anchor_zero (a c : Z) :
  onLine (Range.new4 0 a 0 c) 0.
Proof. unfold Range.new4. now apply Range_new_onLine. Qed.

(** ** One lens of a kind on a line *)

Lemma keys_append (old new : list CodeLens.t) (n : Z) :
  NoDup (map lensKey old) ->
  Forall (fun l => anchorLine l <> n) old ->
  NoDup (map CodeLens.class new) ->
  Forall (fun l => anchorLine l = n) new ->
  NoDup (map lensKey (old ++ new)).
Proof.
  intros Hold Hne Hnew Hn. rewrite map_app.
  apply NoDup_app. split; [assumption|]. split.
  - intros k Hk1 Hk2.
    apply list_elem_of_In, in_map_iff in Hk1. destruct Hk1 as (l1 & <- & Hl1).
    apply list_elem_of_In, in_map_iff in Hk2. destruct Hk2 as (l2 & Hk & Hl2).
    rewrite Forall_forall in Hne, Hn.
    apply list_elem_of_In in Hl1, Hl2.
    specialize (Hne _ Hl1). specialize (Hn _ Hl2).
    unfold lensKey in Hk. congruence.
  - clear Hold Hne. induction new as [|l new IH]; simpl; [constructor|].
    inversion Hnew; subst. inversion Hn; subst. constructor; [|auto].
    intros Hin. apply H1.
    apply list_elem_of_In, in_map_iff in Hin. destruct Hin as (l' & Hk & Hl').
    apply list_elem_of_In, in_map_iff. exists l'. split; [|assumption].
    unfold lensKey in Hk. congruence.
Qed.

Lemma emitted_pair (a b : bool) (l1 l2 : CodeLens.t) (n : Z) :
  CodeLens.class l1 = LensClass.GitRecentChangeCodeLens ->
  CodeLens.class l2 = LensClass.GitAuthorsCodeLens ->
  onLine (CodeLens.range l1) n -> onLine (CodeLens.range l2) n ->
  let new := (if a then [l1] else []) ++ (if b then [l2] else []) in
  Forall (fun l => anchorLine l = n /\ singleLineAnchor l) new
  /\ NoDup (map CodeLens.class new).
Proof.
  intros H1 H2 [Hs1 He1] [Hs2 He2].
  assert (anchorLine l1 = n /\ singleLineAnchor l1)
    by (unfold singleLineAnchor, anchorLine; split; congruence).
  assert (anchorLine l2 = n /\ singleLineAnchor l2)
    by (unfold singleLineAnchor, anchorLine; split; congruence).
  destruct a, b; simpl; rewrite ?H1, ?H2; split;
    repeat first [ apply Forall_cons_2 | apply Forall_nil_2 ]; auto;
    repeat constructor; rewrite ?elem_of_cons, ?elem_of_nil; intuition discriminate.
Qed.

Lemma ordered_extend (old new : list CodeLens.t) (m n : Z) :
  Ordered m old -> m <= n ->
  Forall (fun l => anchorLine l < n) old ->
  Forall (fun l => anchorLine l = n /\ singleLineAnchor l) new ->
  NoDup (map CodeLens.class new) ->
  Ordered n (old ++ new).
Proof.
  intros (Hnd & Hsl & Hle & Hlast) Hmn Hlt Hnew Hcls.
  assert (Hnew1 : Forall (fun l => anchorLine l = n) new)
    by (eapply Forall_impl; [exact Hnew|]; simpl; tauto).
  assert (Hnew2 : Forall singleLineAnchor new)
    by (eapply Forall_impl; [exact Hnew|]; simpl; tauto).
  split; [|split; [|split]].
  - apply keys_append with (n := n); auto.
    eapply Forall_impl; [exact Hlt|]. simpl. intros; lia.
  - apply Forall_app. now split.
  - apply Forall_app. split.
    + eapply Forall_impl; [exact Hle|]. simpl. intros; lia.
    + eapply Forall_impl; [exact Hnew1|]. simpl. intros; lia.
  - intros lst Hl. rewrite last_app in Hl.
    destruct (last new) as [y|] eqn:Ey.
    + inversion Hl; subst y; clear Hl.
      apply last_Some in Ey. destruct Ey as [new' ->].
      assert (Hn : anchorLine lst = n).
      { apply Forall_app in Hnew1. destruct Hnew1 as [_ H1].
        now inversion H1. }
      apply Forall_app. split.
      * eapply Forall_impl; [exact Hlt|]. simpl. intros; lia.
      * eapply Forall_impl; [exact Hnew1|]. simpl. intros; lia.
    + apply last_None in Ey. subst new. rewrite app_nil_r in *.
      specialize (Hlast _ Hl).
      eapply Forall_impl; [exact Hlast|]. simpl. intros; lia.
Qed.

Lemma ordered_weaken (lenses : list CodeLens.t) (m n : Z) :
  Ordered m lenses -> m <= n -> Ordered n lenses.
Proof.
  intros (Hnd & Hsl & Hle & Hlast) Hmn. repeat split; auto.
  eapply Forall_impl; [exact Hle|]. simpl. intros; lia.
Qed.

Lemma below_last (lenses : list CodeLens.t) (m n : Z) :
  Ordered m lenses -> m <= n ->
  lastLensStartsAtLine lenses n = false ->
  Forall (fun l => anchorLine l < n) lenses.
Proof.
  intros (Hnd & Hsl & Hle & Hlast) Hmn Hll.
  unfold lastLensStartsAtLine in Hll.
  destruct (last lenses) as [lst|] eqn:El.
  - specialize (Hlast _ eq_refl).
    fold (anchorLine lst) in Hll. apply Z.eqb_neq in Hll.
    assert (Hm : anchorLine lst <= m).
    { apply last_Some in El. destruct El as [l' ->].
      apply Forall_app in Hle. destruct Hle as [_ H1]. now inversion H1. }
    eapply Forall_impl; [exact Hlast|]. simpl. intros; lia.
  - apply last_None in El. subst. constructor.
Qed.

Lemma ordered_step this gitUri document symbol languageLocation blame st st' m :
  Ordered m (Pass.lenses st) -> m <= symbolLine symbol ->
  _provideCodeLens this gitUri document symbol languageLocation blame st = Some st' ->
  Ordered (symbolLine symbol) (Pass.lenses st').
Proof.
  intros Hord Hm Hstep.
  destruct (provideCodeLens_cases _ _ _ _ _ _ _ _ Hstep)
    as [(_ & ->) | (r & line & Hv & Hl &
                    [(_ & ->) | (Hll & rRC & rAU & Hlenses & _ & HonRC & HonAU)])].
  - eapply ordered_weaken; eassumption.
  - eapply ordered_weaken; eassumption.
  - rewrite Hlenses.
    destruct (emitted_pair (wantsRecentChange this)
                (authorsEnabled this
                 && authorsMultiline document (SymbolInformation.kind symbol) r
                 && negb (GitCodeLensProvider._documentIsDirty this))
                (GitRecentChangeCodeLens (List.length (Pass.cells st)) gitUri
                   (SymbolInformation.kind symbol) r false rRC)
                (GitAuthorsCodeLens (List.length (Pass.cells st)) gitUri
                   (SymbolInformation.kind symbol) r false rAU)
                (symbolLine symbol) eq_refl eq_refl HonRC HonAU) as [Hnew Hcls].
    eapply ordered_extend; try eassumption.
    eapply below_last; eassumption.
Qed.

Lemma ordered_forEach this gitUri document languageLocation blame symbols :
  StronglySorted Z.le (map symbolLine symbols) ->
  forall st st' m,
    Ordered m (Pass.lenses st) ->
    Forall (fun s => m <= symbolLine s) symbols ->
    forEachSymbol this gitUri document languageLocation blame symbols st = Some st' ->
    exists m', Ordered m' (Pass.lenses st').
Proof.
  induction symbols as [|sym rest IH]; intros Hsorted st st' m Hord Hall Hrun;
    simpl in Hrun.
  - inversion Hrun; subst. eauto.
  - destruct (_provideCodeLens this gitUri document sym languageLocation blame st)
      as [st1|] eqn:Hstep; simpl in Hrun; [|discriminate].
    simpl in Hsorted. inversion Hsorted as [|? ? Hs' Hle]; subst.
    inversion Hall as [|? ? Hm Hall']; subst.
    eapply IH; [exact Hs' | | | exact Hrun].
    + eapply ordered_step; eassumption.
    + rewrite Forall_forall in Hle. apply Forall_forall. intros s Hs.
      apply Hle. apply list_elem_of_In. apply in_map. now apply list_elem_of_In.
Qed.

Lemma ordered_nil (m : Z) : Ordered m [].
Proof.
  unfold Ordered. split; [constructor|]. split; [constructor|].
  split; [constructor|]. intros lst H. discriminate.
Qed.

Lemma document_lens_keys this gitUri document languageLocations blame st m :
  Ordered m (Pass.lenses st) ->
  NoDup (map lensKey
           (Pass.lenses (provideDocumentLens this gitUri document languageLocations
                           blame st))).
Proof.
  intros (Hnd & Hsl & _ & _).
  destruct (provideDocumentLens_cases this gitUri document languageLocations blame st)
    as [(_ & ->) | [(_ & _ & ->) | (_ & Hex & Hlenses & _)]];
    [assumption|assumption|].
  rewrite Hlenses.
  set (whole := wholeDocumentRange document) in *.
  set (c := Position.character (Range.start whole)) in *.
  destruct (emitted_pair (wantsRecentChange this)
              (authorsEnabled this && negb (GitCodeLensProvider._documentIsDirty this))
              (GitRecentChangeCodeLens (List.length (Pass.cells st)) gitUri
                 SymbolKind.File whole true (Range.new4 0 0 0 c))
              (GitAuthorsCodeLens (List.length (Pass.cells st)) gitUri
                 SymbolKind.File whole true (Range.new4 0 1 0 c))
              0 eq_refl eq_refl (new4_anchor_zero 0 c) (new4_anchor_zero 1 c))
    as [Hnew Hcls].
  apply keys_append with (n := 0); auto.
  - apply Forall_forall. intros l Hl Hzero.
    assert (Hz : onLineZero l = true).
    { unfold onLineZero. rewrite Forall_forall in Hsl. specialize (Hsl _ Hl).
      unfold singleLineAnchor in Hsl. unfold anchorLine in *.
      rewrite Hsl, Hzero. reflexivity. }
    assert (Ht : existsb onLineZero (Pass.lenses st) = true).
    { apply existsb_exists. exists l. split; [now apply list_elem_of_In|assumption]. }
    congruence.
  - eapply Forall_impl; [exact Hnew|]. simpl. tauto.
Qed.

(** ** The whole pass *)

(** [provideCodeLenses] is the walk over the symbols followed by the lens for
    the whole document, or nothing at all. *)
Lemma provideCodeLenses_cases this document gitUri blame symbols this' p :
  provideCodeLenses this document gitUri blame symbols = (this', Some p) ->
  let languageLocations :=
    languageLocationsOf (GitCodeLensProvider._config this) document in
  this' = GitCodeLensProvider.mk (GitCodeLensProvider._config this)
            (TextDocument.isDirty document)
  /\ ((blameIsMissing blame = true /\ p = Pass.mk [] [])
      \/ exists b st,
           blame = Some b /\ blameIsMissing blame = false
           /\ p = provideDocumentLens this' gitUri document languageLocations b st
           /\ ((documentOnly languageLocations = true /\ st = Pass.mk [] [])
               \/ (documentOnly languageLocations = false
                   /\ forEachSymbol this' gitUri document languageLocations b symbols
                        (Pass.mk [] []) = Some st))).
Proof.
  unfold provideCodeLenses. simpl. intros H. inversion H as [[Hthis Hp]]; clear H.
  split; [reflexivity|].
  set (ll := languageLocationsOf (GitCodeLensProvider._config this) document) in *.
  destruct blame as [b|].
  2: { left. split; [reflexivity|].
       destruct (_ && _) in Hp; congruence. }
  destruct (blameIsMissing (Some b)) eqn:Hmiss.
  { left. split; [reflexivity|]. destruct (_ && _) in Hp; congruence. }
  right. fold (documentOnly ll) in Hp.
  destruct (documentOnly ll) eqn:Hdoc.
  - inversion Hp; subst p. exists b, (Pass.mk [] []).
    repeat split; try reflexivity. left. now split.
  - destruct (forEachSymbol _ gitUri document ll b symbols (Pass.mk [] []))
      as [st|] eqn:Hrun; simpl in Hp; [|discriminate].
    inversion Hp; subst p. exists b, st. repeat split; try reflexivity.
    right. now split.
Qed.

(** The pass returns whenever every symbol starts on a line of the document
    that holds a character. *)
Lemma provideCodeLenses_returns this document gitUri blame symbols :
  Forall (anchorable document) symbols ->
  exists p, snd (provideCodeLenses this document gitUri blame symbols) = Some p.
Proof.
  intros Hall. unfold provideCodeLenses. cbn [snd].
  destruct (_ && _); destruct blame as [b|]; try (eexists; reflexivity);
    destruct (blameIsMissing (Some b)); try (eexists; reflexivity).
  match goal with
  | |- context [forEachSymbol ?t ?u ?d ?l ?b ?s ?st] =>
    destruct (forEachSymbol_returns t u d l b s Hall st) as [st' ->]
  end.
  simpl. eexists. reflexivity.
Qed.

(** X20.  When the symbols come in document order, that is by non-decreasing
    starting line, the lenses that [provideCodeLenses] returns never hold two
    lenses of the same kind (recent change or authors) whose anchor ranges
    start at the same line. *)
Theorem one_lens_of_a_kind_per_line_in_document_order
  this document gitUri blame symbols this' p :
  StronglySorted Z.le (map symbolLine symbols) ->
  provideCodeLenses this document gitUri blame symbols = (this', Some p) ->
  NoDup (map lensKey (Pass.lenses p)).
Proof.
  intros Hsorted Hrun.
  destruct (provideCodeLenses_cases _ _ _ _ _ _ _ Hrun)
    as (_ & [(_ & ->) | (b & st & _ & _ & -> & Hst)]).
  - simpl. constructor.
  - destruct Hst as [(_ & ->) | (_ & Hwalk)].
    + apply document_lens_keys with (m := 0). apply ordered_nil.
    + set (m := match symbols with [] => 0 | s :: _ => symbolLine s end).
      assert (Hall : Forall (fun s => m <= symbolLine s) symbols).
      { subst m. destruct symbols as [|s rest]; [constructor|].
        simpl in Hsorted. inversion Hsorted as [|? ? _ Hle]; subst.
        constructor; [lia|].
        rewrite Forall_forall in Hle. apply Forall_forall. intros s' Hs'.
        apply Hle. apply list_elem_of_In. apply in_map. now apply list_elem_of_In. }
      destruct (ordered_forEach _ _ _ _ _ _ Hsorted (Pass.mk [] []) st m
                  (ordered_nil m) Hall Hwalk) as [m' Hord].
      eapply document_lens_keys. exact Hord.
Qed.

Lemma one_lens_of_a_kind_per_line_in_document_order_witness :
  exists p,
    snd (provideCodeLenses
           (Samples.provider (Samples.config true true [CodeLensLocations.Blocks]))
           (Samples.doc "typescript" false) Samples.uri (Some Samples.blame)
           Samples.inOrder) = Some p
    /\ List.length (Pass.lenses p) = 5%nat
    /\ NoDup (map lensKey (Pass.lenses p)).
Proof.
  eexists. split; [vm_compute; reflexivity|]. split; [reflexivity|].
  eapply (one_lens_of_a_kind_per_line_in_document_order
            (Samples.provider (Samples.config true true [CodeLensLocations.Blocks]))
            (Samples.doc "typescript" false) Samples.uri (Some Samples.blame)
            Samples.inOrder).
  - repeat constructor; vm_compute; discriminate.
  - vm_compute. reflexivity.
Defined.


(** ** A document with unsaved changes *)

Lemma documentOnly_not_valid document symbol languageLocations :
  documentOnly languageLocations = true ->
  _validateSymbolAndGetBlameRange document symbol languageLocations = None.
Proof.
  unfold documentOnly. intros H. apply andb_true_iff in H. destruct H as [Hlen Hin].
  unfold _validateSymbolAndGetBlameRange.
  destruct (ICodeLensLanguageLocation.locations languageLocations) as [|x [|y rest]];
    simpl in Hlen; try discriminate.
  unfold includes in Hin. apply bool_decide_eq_true in Hin.
  apply list_elem_of_singleton in Hin. subst x.
  destruct (SymbolInformation.kind symbol); reflexivity.
Qed.

Lemma last_lens_on_line (lenses : list CodeLens.t) (n : Z) :
  lastLensStartsAtLine lenses n = true ->
  exists l, In l lenses /\ anchorLine l = n.
Proof.
  unfold lastLensStartsAtLine. destruct (last lenses) as [l|] eqn:El; [|discriminate].
  intros H. apply Z.eqb_eq in H. exists l. split; [|exact H].
  apply last_Some in El. destruct El as [l' ->]. apply in_or_app. right. now left.
Qed.

Lemma dirty_step this gitUri document symbol languageLocation blame st st' :
  GitCodeLensProvider._documentIsDirty this = true ->
  _provideCodeLens this gitUri document symbol languageLocation blame st = Some st' ->
  (exists new, Pass.lenses st' = Pass.lenses st ++ new /\ List.Forall isRecentChange new)
  /\ (forall r,
        _validateSymbolAndGetBlameRange document symbol languageLocation = Some r ->
        List.Forall isRecentChange (Pass.lenses st) ->
        exists l, In l (Pass.lenses st') /\ isRecentChange l
                  /\ anchorLine l = symbolLine symbol).
Proof.
  intros Hdirty Hstep.
  destruct (provideCodeLens_cases _ _ _ _ _ _ _ _ Hstep)
    as [(Hv & ->) | (r & line & Hv & Hl &
                     [(Hll & ->) | (Hll & rRC & rAU & Hlenses & _ & HonRC & _)])].
  - split.
    + exists []. rewrite app_nil_r. split; [reflexivity|constructor].
    + intros r Hr. congruence.
  - split.
    + exists []. rewrite app_nil_r. split; [reflexivity|constructor].
    + intros _ _ Hall. destruct (last_lens_on_line _ _ Hll) as (l & Hin & Hline).
      exists l. repeat split; try assumption.
      rewrite List.Forall_forall in Hall. now apply Hall.
  - unfold wantsRecentChange in Hlenses. rewrite Hdirty in Hlenses.
    rewrite andb_false_r in Hlenses. simpl in Hlenses.
    split.
    + eexists. split; [exact Hlenses|]. repeat constructor.
    + intros _ _ _. eexists. split; [|split].
      * rewrite Hlenses. apply in_or_app. right. left. reflexivity.
      * reflexivity.
      * apply HonRC.
Qed.

Lemma dirty_walk this gitUri document languageLocation blame symbols :
  GitCodeLensProvider._documentIsDirty this = true ->
  forall st st',
    forEachSymbol this gitUri document languageLocation blame symbols st = Some st' ->
    List.Forall isRecentChange (Pass.lenses st) ->
    (exists more, Pass.lenses st' = Pass.lenses st ++ more)
    /\ List.Forall isRecentChange (Pass.lenses st')
    /\ (forall symbol r,
          In symbol symbols ->
          _validateSymbolAndGetBlameRange document symbol languageLocation = Some r ->
          exists l, In l (Pass.lenses st') /\ isRecentChange l
                    /\ anchorLine l = symbolLine symbol).
Proof.
  intros Hdirty. induction symbols as [|sym rest IH]; intros st st' Hrun Hall;
    simpl in Hrun.
  - inversion Hrun; subst. split; [exists []; now rewrite app_nil_r|].
    split; [assumption|]. intros symbol r [].
  - destruct (_provideCodeLens this gitUri document sym languageLocation blame st)
      as [st1|] eqn:Hstep; simpl in Hrun; [|discriminate].
    destruct (dirty_step _ _ _ _ _ _ _ _ Hdirty Hstep) as ((new & Hnew & Hrc) & Hcov).
    assert (Hall1 : List.Forall isRecentChange (Pass.lenses st1)).
    { rewrite Hnew. apply List.Forall_app. now split. }
    destruct (IH _ _ Hrun Hall1) as ((more & Hmore) & Hall' & Hcov').
    split; [|split].
    + exists (new ++ more). rewrite Hmore, Hnew. now rewrite app_assoc.
    + assumption.
    + intros symbol r [<- | Hin] Hv.
      * destruct (Hcov r Hv Hall) as (l & Hl & Hk & Hline).
        exists l. repeat split; try assumption.
        rewrite Hmore. apply in_or_app. now left.
      * eapply Hcov'; eassumption.
Qed.

Lemma dirty_document_lens this gitUri document languageLocations blame st :
  GitCodeLensProvider._documentIsDirty this = true ->
  exists more,
    Pass.lenses (provideDocumentLens this gitUri document languageLocations blame st)
    = Pass.lenses st ++ more
    /\ List.Forall isRecentChange more.
Proof.
  intros Hdirty.
  destruct (provideDocumentLens_cases this gitUri document languageLocations blame st)
    as [(_ & ->) | [(_ & _ & ->) | (_ & _ & Hlenses & _)]].
  1, 2: (exists []; rewrite app_nil_r; split; [reflexivity|constructor]).
  - unfold wantsRecentChange in Hlenses. rewrite Hdirty in Hlenses.
    rewrite andb_false_r in Hlenses. simpl in Hlenses.
    eexists. split; [exact Hlenses|]. repeat constructor.
Qed.

Lemma dirty_pass this document gitUri blame symbols this' p :
  TextDocument.isDirty document = true ->
  provideCodeLenses this document gitUri blame symbols = (this', Some p) ->
  List.Forall isRecentChange (Pass.lenses p)
  /\ (blameIsMissing blame = false ->
      forall symbol r,
        In symbol symbols ->
        _validateSymbolAndGetBlameRange document symbol
          (languageLocationsOf (GitCodeLensProvider._config this) document) = Some r ->
        exists l, In l (Pass.lenses p) /\ isRecentChange l
                  /\ anchorLine l = symbolLine symbol).
Proof.
  intros Hdirty Hrun.
  destruct (provideCodeLenses_cases _ _ _ _ _ _ _ Hrun)
    as (Hthis & [(Hmiss & ->) | (b & st & _ & _ & -> & Hst)]).
  - split; [constructor|]. congruence.
  - assert (Hd : GitCodeLensProvider._documentIsDirty this' = true)
      by (rewrite Hthis; exact Hdirty).
    destruct (dirty_document_lens this' gitUri document
                (languageLocationsOf (GitCodeLensProvider._config this) document)
                b st Hd) as (more & Hmore & Hrc).
    destruct Hst as [(Hdoc & ->) | (_ & Hwalk)].
    + split.
      * rewrite Hmore. simpl. exact Hrc.
      * intros _ symbol r _ Hv.
        rewrite (documentOnly_not_valid _ _ _ Hdoc) in Hv. discriminate.
    + destruct (dirty_walk _ _ _ _ _ _ Hd _ _ Hwalk ltac:(constructor))
        as (_ & Hall & Hcov).
      split.
      * rewrite Hmore. apply List.Forall_app. now split.
      * intros _ symbol r Hin Hv.
        destruct (Hcov symbol r Hin Hv) as (l & Hl & Hk & Hline).
        exists l. repeat split; try assumption.
        rewrite Hmore. apply in_or_app. now left.
Qed.

(** C2.  When the document is dirty, the pass returns no authors lens at all,
    neither for a symbol nor for the whole document, and every eligible symbol
    still has a recent change lens anchored at its line (its own, or the one of
    the symbol just before it on that line). *)
Theorem dirty_document_gets_recent_change_lenses_only
  this document gitUri blame symbols this' p :
  TextDocument.isDirty document = true ->
  provideCodeLenses this document gitUri blame symbols = (this', Some p) ->
  List.Forall (fun l => CodeLens.class l = LensClass.GitRecentChangeCodeLens
                        /\ CodeLens.class l <> LensClass.GitAuthorsCodeLens)
    (Pass.lenses p)
  /\ (blameIsMissing blame = false ->
      forall symbol r,
        In symbol symbols ->
        _validateSymbolAndGetBlameRange document symbol
          (languageLocationsOf (GitCodeLensProvider._config this) document) = Some r ->
        exists l, In l (Pass.lenses p)
                  /\ CodeLens.class l = LensClass.GitRecentChangeCodeLens
                  /\ anchorLine l = symbolLine symbol).
Proof.
  intros Hdirty Hrun.
  destruct (dirty_pass _ _ _ _ _ _ _ Hdirty Hrun) as [Hall Hcov].
  split; [|exact Hcov].
  eapply List.Forall_impl; [|exact Hall].
  unfold isRecentChange. intros l Hl. split; [exact Hl|]. rewrite Hl. discriminate.
Qed.

Lemma dirty_document_gets_recent_change_lenses_only_witness :
  exists p,
    snd (provideCodeLenses
           (Samples.provider (Samples.config true true [CodeLensLocations.Blocks]))
           (Samples.doc "typescript" true) Samples.uri (Some Samples.blame)
           Samples.inOrder) = Some p
    /\ List.Forall (fun l => CodeLens.class l = LensClass.GitRecentChangeCodeLens
                             /\ CodeLens.class l <> LensClass.GitAuthorsCodeLens)
         (Pass.lenses p)
    /\ exists l, In l (Pass.lenses p)
                 /\ CodeLens.class l = LensClass.GitRecentChangeCodeLens
                 /\ anchorLine l = 6.
Proof.
  eexists. split; [vm_compute; reflexivity|].
  destruct (dirty_document_gets_recent_change_lenses_only
              (Samples.provider (Samples.config true true [CodeLensLocations.Blocks]))
              (Samples.doc "typescript" true) Samples.uri (Some Samples.blame)
              Samples.inOrder _ _ eq_refl eq_refl) as [Hall Hcov].
  split; [exact Hall|].
  apply (Hcov eq_refl (Samples.symbolAt SymbolKind.Method 6 7)
           (symbolRange (Samples.symbolAt SymbolKind.Method 6 7))).
  - simpl. auto.
  - vm_compute. reflexivity.
Defined.

(** ** The blame range of a lens *)

Lemma added_app (st st' : Pass.t) (new : list CodeLens.t) :
  Pass.lenses st' = Pass.lenses st ++ new -> added st st' = new.
Proof.
  intros H. unfold added. rewrite H. apply drop_app_length.
Qed.

Lemma added_same (st : Pass.t) : added st st = [].
Proof. apply (added_app st st []). now rewrite app_nil_r. Qed.

Lemma provideCodeLens_added this gitUri document symbol languageLocation blame st st' r :
  _provideCodeLens this gitUri document symbol languageLocation blame st = Some st' ->
  _validateSymbolAndGetBlameRange document symbol languageLocation = Some r ->
  Pass.lenses st' = Pass.lenses st ++ added st st'
  /\ List.Forall (lensOf gitUri symbol r (List.length (Pass.cells st))) (added st st').
Proof.
  intros Hstep Hv.
  destruct (provideCodeLens_cases _ _ _ _ _ _ _ _ Hstep)
    as [(Hv' & ->) | (r' & line & Hv' & Hl &
                      [(Hll & ->) | (Hll & rRC & rAU & Hlenses & _ & HonRC & HonAU)])].
  - congruence.
  - rewrite added_same, app_nil_r. split; [reflexivity|constructor].
  - assert (r' = r) by congruence. subst r'.
    rewrite (added_app _ _ _ Hlenses). split; [exact Hlenses|].
    apply List.Forall_app. split.
    + destruct (wantsRecentChange this); repeat constructor; assumption || apply HonRC.
    + destruct (_ && _); repeat constructor; assumption || apply HonAU.
Qed.

Lemma wholeDocumentRange_lines (document : TextDocument.t) :
  0 < TextDocument.lineCount document <= 1000001 ->
  Position.line (Range.start (wholeDocumentRange document)) = 0
  /\ Position.line (Range.end_ (wholeDocumentRange document))
     = TextDocument.lineCount document - 1.
Proof.
  intros Hn. unfold wholeDocumentRange, TextDocument.validateRange.
  change (Range.new4 0 1000000 1000000 1000000)
    with (Range.mk (Position.mk 0 1000000) (Position.mk 1000000 1000000)).
  cbn [Range.start Range.end_].
  set (a := TextDocument.validatePosition document (Position.mk 0 1000000)).
  set (b := TextDocument.validatePosition document (Position.mk 1000000 1000000)).
  assert (Ha : Position.line a = 0).
  { subst a. unfold TextDocument.validatePosition. cbn [Position.line Position.character].
    destruct (0 <? 0) eqn:E0; [lia|].
    destruct (TextDocument.lineCount document <=? 0) eqn:E1; [lia|]. reflexivity. }
  assert (Hb : Position.line b = TextDocument.lineCount document - 1).
  { subst b. unfold TextDocument.validatePosition. cbn [Position.line Position.character].
    destruct (1000000 <? 0) eqn:E0; [lia|].
    destruct (TextDocument.lineCount document <=? 1000000) eqn:E1; simpl; lia. }
  unfold Range.new.
  destruct (Position.isBefore a b) eqn:E; cbn [Range.start Range.end_];
    rewrite Ha, Hb.
  - split; reflexivity.
  - unfold Position.isBefore in E. rewrite Ha, Hb in E.
    apply orb_false_iff in E. destruct E as [E _]. apply Z.ltb_ge in E.
    split; lia.
Qed.

(** C3 (amended).  For an eligible symbol of kind File the blame range of its
    lenses is the range of the whole document.  For an eligible symbol of kind
    Package it is the range of the whole document only when the symbol's own
    range starts and ends at line 0; otherwise it is the symbol's own range.
    The range of the whole document is the editor's clamping of
    (0,1000000)-(1000000,1000000): in a document of at most 1000001 lines it
    runs from line 0 to the last line. *)
Theorem file_and_top_package_blame_the_whole_document
  document symbol languageLocation r :
  _validateSymbolAndGetBlameRange document symbol languageLocation = Some r ->
  (SymbolInformation.kind symbol = SymbolKind.File -> r = wholeDocumentRange document)
  /\ (SymbolInformation.kind symbol = SymbolKind.Package ->
      r = if (Position.line (Range.start (symbolRange symbol)) =? 0)
             && (Position.line (Range.end_ (symbolRange symbol)) =? 0)
          then wholeDocumentRange document else symbolRange symbol)
  /\ (forall this gitUri blame st st',
        _provideCodeLens this gitUri document symbol languageLocation blame st = Some st' ->
        List.Forall (fun l => CodeLens.blameRange l = r) (added st st'))
  /\ (0 < TextDocument.lineCount document <= 1000001 ->
      Position.line (Range.start (wholeDocumentRange document)) = 0
      /\ Position.line (Range.end_ (wholeDocumentRange document))
         = TextDocument.lineCount document - 1).
Proof.
  intros Hv. split; [|split; [|split]].
  - intros Hk. unfold _validateSymbolAndGetBlameRange in Hv. rewrite Hk in Hv.
    destruct (includes _ CodeLensLocations.Containers);
      destruct (includes _ CodeLensLocations.Custom);
      destruct (truthy _); simpl in Hv; congruence.
  - intros Hk. unfold _validateSymbolAndGetBlameRange in Hv. rewrite Hk in Hv.
    fold (symbolRange symbol) in Hv.
    destruct (includes _ CodeLensLocations.Containers);
      destruct (includes _ CodeLensLocations.Custom);
      destruct (truthy _);
      destruct ((Position.line (Range.start (symbolRange symbol)) =? 0)
                && (Position.line (Range.end_ (symbolRange symbol)) =? 0));
      simpl in Hv; congruence.
  - intros this gitUri blame st st' Hstep.
    destruct (provideCodeLens_added _ _ _ _ _ _ _ _ _ Hstep Hv) as [_ Hall].
    eapply List.Forall_impl; [|exact Hall].
    intros l Hl. apply Hl.
  - apply wholeDocumentRange_lines.
Qed.

Lemma file_and_top_package_blame_the_whole_document_witness :
  _validateSymbolAndGetBlameRange (Samples.doc "go" false) Samples.packageOnTop
    Samples.containers
  = Some (wholeDocumentRange (Samples.doc "go" false))
  /\ wholeDocumentRange (Samples.doc "go" false) = Range.new4 0 15 9 1.
Proof.
  split; [|vm_compute; reflexivity].
  destruct (file_and_top_package_blame_the_whole_document
              (Samples.doc "go" false) Samples.packageOnTop Samples.containers
              (wholeDocumentRange (Samples.doc "go" false)))
    as (_ & Hpackage & _).
  - vm_compute. reflexivity.
  - rewrite (Hpackage eq_refl). vm_compute. reflexivity.
Defined.

(** C3, as stated, fails for a package that is not on line 0: its lenses keep
    the symbol's own range. *)
Lemma package_below_the_top_keeps_its_own_range :
  _validateSymbolAndGetBlameRange (Samples.doc "go" false) Samples.packageBelow
    Samples.containers
  = Some (symbolRange Samples.packageBelow)
  /\ symbolRange Samples.packageBelow <> wholeDocumentRange (Samples.doc "go" false)
  /\ (fun p => map CodeLens.blameRange (Pass.lenses p))
       <$> snd (provideCodeLenses
                  (Samples.provider
                     (Samples.config true true [CodeLensLocations.Containers]))
                  (Samples.doc "go" false) Samples.uri (Some Samples.blame)
                  [Samples.packageBelow])
     = Some [Range.new4 3 4 5 5; Range.new4 3 4 5 5].
Proof.
  split; [vm_compute; reflexivity|].
  split; [vm_compute; discriminate|].
  vm_compute. reflexivity.
Qed.

(** ** The authors lens and multi-line ranges *)

Lemma authorsMultiline_iff document kind r :
  authorsMultiline document kind r = true <->
  Range.isSingleLine r = false
  \/ (TextDocument.languageId document = "csharp" /\ In kind csharpKinds).
Proof.
  unfold authorsMultiline.
  destruct (Range.isSingleLine r); simpl.
  - destruct (String.eqb (TextDocument.languageId document) "csharp") eqn:El.
    + apply String.eqb_eq in El. rewrite El.
      destruct kind; simpl; split; intros H; try reflexivity; try discriminate;
        try (right; split; [reflexivity|tauto]);
        destruct H as [H|[_ H]]; try discriminate;
        repeat (destruct H as [H|H]; [discriminate|]); destruct H.
    + apply String.eqb_neq in El.
      split; [discriminate|]. intros [H|[H _]]; [discriminate|contradiction].
  - split; [now left|reflexivity].
Qed.

(** C4 (amended).  For a symbol that gets past the eligibility test and the
    one-lens-per-line test, an authors lens is added exactly when the authors
    kind is enabled, the document is not dirty, and the blame range spans more
    than one line or the document's language is csharp and the symbol kind is
    one of Package, Module, Namespace, Class, Interface, Constructor, Method,
    Function, Enum.  A recent change lens is added exactly when the document is
    dirty or the recent change kind is enabled; so a single-line Function in
    another language gets no authors lens and keeps its recent change lens. *)
Theorem authors_lens_needs_multiline_or_listed_csharp_kind
  this gitUri document symbol languageLocation blame st st' r :
  _validateSymbolAndGetBlameRange document symbol languageLocation = Some r ->
  lastLensStartsAtLine (Pass.lenses st) (symbolLine symbol) = false ->
  _provideCodeLens this gitUri document symbol languageLocation blame st = Some st' ->
  ((exists l, In l (added st st') /\ CodeLens.class l = LensClass.GitAuthorsCodeLens)
   <-> authorsEnabled this = true
       /\ GitCodeLensProvider._documentIsDirty this = false
       /\ (Range.isSingleLine r = false
           \/ (TextDocument.languageId document = "csharp"
               /\ In (SymbolInformation.kind symbol) csharpKinds)))
  /\ ((exists l, In l (added st st')
                 /\ CodeLens.class l = LensClass.GitRecentChangeCodeLens)
      <-> GitCodeLensProvider._documentIsDirty this = true
          \/ ICodeLensConfig.enabled
               (IConfig.recentChange (GitCodeLensProvider._config this)) = true)
  /\ (SymbolInformation.kind symbol = SymbolKind.Function ->
      Range.isSingleLine r = true ->
      TextDocument.languageId document <> "csharp" ->
      ~ (exists l, In l (added st st')
                   /\ CodeLens.class l = LensClass.GitAuthorsCodeLens)).
Proof.
  intros Hv Hll Hstep.
  destruct (provideCodeLens_cases _ _ _ _ _ _ _ _ Hstep)
    as [(Hv' & _) | (r' & line & Hv' & Hl &
                     [(Hll' & _) | (_ & rRC & rAU & Hlenses & _ & _ & _)])];
    try congruence.
  assert (r' = r) by congruence. subst r'.
  rewrite (added_app _ _ _ Hlenses).
  pose proof (authorsMultiline_iff document (SymbolInformation.kind symbol) r) as Hm.
  assert (Hauthors :
    (exists l, In l ((if wantsRecentChange this
                      then [GitRecentChangeCodeLens (List.length (Pass.cells st)) gitUri
                              (SymbolInformation.kind symbol) r false rRC]
                      else [])
                     ++ (if authorsEnabled this
                            && authorsMultiline document (SymbolInformation.kind symbol) r
                            && negb (GitCodeLensProvider._documentIsDirty this)
                         then [GitAuthorsCodeLens (List.length (Pass.cells st)) gitUri
                                 (SymbolInformation.kind symbol) r false rAU]
                         else []))
               /\ CodeLens.class l = LensClass.GitAuthorsCodeLens)
    <-> authorsEnabled this = true
        /\ GitCodeLensProvider._documentIsDirty this = false
        /\ (Range.isSingleLine r = false
            \/ (TextDocument.languageId document = "csharp"
                /\ In (SymbolInformation.kind symbol) csharpKinds))).
  { rewrite <- Hm.
    destruct (wantsRecentChange this), (authorsEnabled this),
      (authorsMultiline document (SymbolInformation.kind symbol) r),
      (GitCodeLensProvider._documentIsDirty this); simpl;
      (split; [intros (l & Hin & Hk); repeat (destruct Hin as [<-|Hin]; try discriminate);
               try contradiction; auto
              | intros (? & ? & ?);
                first [ discriminate
                      | eexists (GitAuthorsCodeLens _ _ _ _ _ _);
                        split; [|reflexivity]; simpl; auto ]]). }
  split; [exact Hauthors|]. split.
  - unfold wantsRecentChange.
    destruct (GitCodeLensProvider._documentIsDirty this),
      (ICodeLensConfig.enabled (IConfig.recentChange (GitCodeLensProvider._config this))),
      (authorsEnabled this && _ && _); simpl;
      (split; [intros (l & Hin & Hk); repeat (destruct Hin as [<-|Hin]; try discriminate);
               try contradiction; auto
              | intros [?|?];
                first [ discriminate
                      | eexists (GitRecentChangeCodeLens _ _ _ _ _ _);
                        split; [|reflexivity]; simpl; auto ]]).
  - intros Hk Hsingle Hlang Hex. apply Hauthors in Hex.
    destruct Hex as (_ & _ & [H|[H _]]); congruence.
Qed.

Lemma authors_lens_needs_multiline_or_listed_csharp_kind_witness :
  exists st',
    _provideCodeLens
      (Samples.provider (Samples.config true true [CodeLensLocations.Blocks]))
      Samples.uri (Samples.doc "typescript" false)
      (Samples.symbolAt SymbolKind.Function 5 5) Samples.blocks Samples.blame
      Samples.emptyPass = Some st'
    /\ ~ (exists l, In l (added Samples.emptyPass st')
                    /\ CodeLens.class l = LensClass.GitAuthorsCodeLens)
    /\ (exists l, In l (added Samples.emptyPass st')
                  /\ CodeLens.class l = LensClass.GitRecentChangeCodeLens).
Proof.
  eexists. split; [vm_compute; reflexivity|].
  destruct (authors_lens_needs_multiline_or_listed_csharp_kind
              (Samples.provider (Samples.config true true [CodeLensLocations.Blocks]))
              Samples.uri (Samples.doc "typescript" false)
              (Samples.symbolAt SymbolKind.Function 5 5) Samples.blocks Samples.blame
              Samples.emptyPass _
              (symbolRange (Samples.symbolAt SymbolKind.Function 5 5))
              eq_refl eq_refl eq_refl) as (_ & Hrc & Hfunction).
  split.
  - apply Hfunction; [reflexivity | reflexivity | discriminate].
  - apply Hrc. right. reflexivity.
Defined.

(** C4, as stated, fails for the kinds that the workaround does not list: in a
    csharp document a single-line Struct, which is a container like Class,
    gets no authors lens where a single-line Class gets one (and likewise a
    single-line Property among the blocks). *)
Lemma csharp_single_line_struct_gets_no_authors_lens :
  Samples.summary
    (snd (provideCodeLenses
            (Samples.provider (Samples.config true true [CodeLensLocations.Containers]))
            (Samples.doc "csharp" false) Samples.uri (Some Samples.blame)
            [Samples.symbolAt SymbolKind.Struct 1 1]))
  = Some [(LensClass.GitRecentChangeCodeLens, 1)]
  /\ Samples.summary
       (snd (provideCodeLenses
               (Samples.provider (Samples.config true true [CodeLensLocations.Containers]))
               (Samples.doc "csharp" false) Samples.uri (Some Samples.blame)
               [Samples.symbolAt SymbolKind.Class 1 1]))
     = Some [(LensClass.GitRecentChangeCodeLens, 1); (LensClass.GitAuthorsCodeLens, 1)]
  /\ Samples.summary
       (snd (provideCodeLenses
               (Samples.provider (Samples.config true true [CodeLensLocations.Blocks]))
               (Samples.doc "csharp" false) Samples.uri (Some Samples.blame)
               [Samples.symbolAt SymbolKind.Property 4 4]))
     = Some [(LensClass.GitRecentChangeCodeLens, 4)]
  /\ authorsMultiline (Samples.doc "csharp" false) SymbolKind.Struct
       (symbolRange (Samples.symbolAt SymbolKind.Struct 1 1)) = false.
Proof.
  repeat split; vm_compute; reflexivity.
Qed.

(** ** Memoized functions *)

Section Once.
Context {T R W : Type}.
Variable run : T -> W -> R * W.

Lemma call_defined (id : nat) (st : Functions.Store T R W) :
  (id < List.length (Functions.cells st))%nat ->
  exists v st', Functions.call run id st = Some (v, st')
                /\ List.length (Functions.cells st') = List.length (Functions.cells st).
Proof.
  intros Hlt. unfold Functions.call.
  destruct (lookup_lt_is_Some_2 _ _ Hlt) as [c Hc]. rewrite Hc.
  destruct (Functions.result c) as [v|].
  - eauto.
  - destruct (run (Functions.fn c) (Functions.world st)) as [v w'].
    eexists _, _. split; [reflexivity|]. simpl. apply length_insert.
Qed.

Lemma call_idempotent (id : nat) (st st' : Functions.Store T R W) (v : R) :
  Functions.call run id st = Some (v, st') ->
  Functions.call run id st' = Some (v, st').
Proof.
  unfold Functions.call. intros H.
  destruct (Functions.cells st !! id) as [c|] eqn:Hc; [|discriminate].
  destruct (Functions.result c) as [v0|] eqn:Hr.
  - inversion H; subst. now rewrite Hc, Hr.
  - destruct (run (Functions.fn c) (Functions.world st)) as [v1 w'].
    inversion H; subst; clear H. simpl.
    rewrite list_lookup_insert_eq by (eapply lookup_lt_Some; exact Hc).
    reflexivity.
Qed.

Lemma call_first (id : nat) (st : Functions.Store T R W) (f : T) :
  Functions.cells st !! id = Some (Functions.mkCell f None) ->
  exists st',
    Functions.call run id st = Some (fst (run f (Functions.world st)), st')
    /\ Functions.runs st' = Functions.runs st ++ [id]
    /\ Functions.world st' = snd (run f (Functions.world st)).
Proof.
  intros Hc. unfold Functions.call. rewrite Hc. simpl.
  destruct (run f (Functions.world st)) as [v w']. eexists. repeat split.
Qed.

Lemma call_runs_once (id : nat) (st st' : Functions.Store T R W) (v : R) :
  RunsOnce st -> Functions.call run id st = Some (v, st') -> RunsOnce st'.
Proof.
  intros [Hnd Hfresh]. unfold Functions.call. intros H.
  destruct (Functions.cells st !! id) as [c|] eqn:Hc; [|discriminate].
  destruct (Functions.result c) as [v0|] eqn:Hr.
  - inversion H; subst. now split.
  - destruct (run (Functions.fn c) (Functions.world st)) as [v1 w'].
    inversion H; subst; clear H. split; simpl.
    + apply NoDup_app. split; [assumption|]. split; [|apply NoDup_singleton].
      intros x Hx Hx'. apply list_elem_of_singleton in Hx'. subst x.
      apply (Hfresh id c Hc Hr). now apply list_elem_of_In.
    + intros id' c' Hc' Hr' Hin.
      destruct (decide (id' = id)) as [->|Hne].
      * rewrite list_lookup_insert_eq in Hc' by (eapply lookup_lt_Some; exact Hc).
        inversion Hc'; subst c'. discriminate.
      * rewrite list_lookup_insert_ne in Hc' by congruence.
        apply in_app_or in Hin. destruct Hin as [Hin|[Hin|[]]].
        -- exact (Hfresh id' c' Hc' Hr' Hin).
        -- congruence.
Qed.

End Once.

Section Blames.
Context {W : Type}.
Variable getBlameForRangeSync :
  GitBlame.t -> GitUri.t -> Range.t -> W -> option GitBlameLines.t * W.

Lemma getBlames_run_once (lenses : list CodeLens.t) :
  forall st : ResolveState (W := W),
    RunsOnce st ->
    List.Forall (fun l => (CodeLens.blame l < List.length (Functions.cells st))%nat)
      lenses ->
    exists rs st',
      getBlames getBlameForRangeSync lenses st = Some (rs, st')
      /\ List.length rs = List.length lenses
      /\ RunsOnce st'.
Proof.
  induction lenses as [|l rest IH]; intros st Hst Hall; simpl.
  - exists [], st. split; [reflexivity|]. split; [reflexivity|assumption].
  - inversion Hall as [|? ? Hl Hrest]; subst.
    unfold getBlame at 1.
    destruct (call_defined (runBlameThunk getBlameForRangeSync) _ _ Hl)
      as (v & st1 & Hcall & Hlen).
    rewrite Hcall. simpl.
    assert (Hst1 : RunsOnce st1) by (eapply call_runs_once; eassumption).
    destruct (IH st1 Hst1) as (rs & st' & Hrun & Hlen' & Hst').
    { rewrite Hlen. exact Hrest. }
    rewrite Hrun. simpl. exists (v :: rs), st'.
    split; [reflexivity|]. split; [|assumption].
    simpl. now rewrite Hlen'.
Qed.

End Blames.

(** ** The lenses of a pass and their memoized functions *)

Lemma memoized_extend b (cells extra : list BlameCell) (lenses : list CodeLens.t) :
  List.Forall (Memoized b cells) lenses ->
  List.Forall (Memoized b (cells ++ extra)) lenses.
Proof.
  intros H. eapply List.Forall_impl; [|exact H].
  unfold Memoized. intros l Hl. now apply lookup_app_l_Some.
Qed.

Lemma memoized_step this gitUri document symbol languageLocation b st st' :
  _provideCodeLens this gitUri document symbol languageLocation b st = Some st' ->
  List.Forall (Memoized b (Pass.cells st)) (Pass.lenses st) ->
  List.Forall (Memoized b (Pass.cells st')) (Pass.lenses st')
  /\ List.Forall (fun l => CodeLens.blame l = List.length (Pass.cells st)) (added st st')
  /\ (List.length (Pass.cells st') <= List.length (Pass.cells st) + 1)%nat.
Proof.
  intros Hstep Hinv.
  destruct (provideCodeLens_cases _ _ _ _ _ _ _ _ Hstep)
    as [(_ & ->) | (r & line & Hv & Hl &
                    [(_ & ->) | (_ & rRC & rAU & Hlenses & Hcells & _ & _)])].
  - rewrite added_same. repeat split; [assumption|constructor|lia].
  - rewrite added_same. repeat split; [assumption|constructor|lia].
  - rewrite (added_app _ _ _ Hlenses). rewrite Hlenses, Hcells.
    split; [|split].
    + apply List.Forall_app. split; [now apply memoized_extend|].
      destruct (wantsRecentChange this), (authorsEnabled this),
        (authorsMultiline document (SymbolInformation.kind symbol) r),
        (GitCodeLensProvider._documentIsDirty this); simpl;
        repeat constructor; unfold Memoized; simpl;
        now apply list_lookup_middle.
    + destruct (wantsRecentChange this), (_ && _); simpl; repeat constructor.
    + rewrite length_app. destruct (_ || _); simpl; lia.
Qed.

Lemma memoized_walk this gitUri document languageLocation b symbols :
  forall st st',
    forEachSymbol this gitUri document languageLocation b symbols st = Some st' ->
    List.Forall (Memoized b (Pass.cells st)) (Pass.lenses st) ->
    List.Forall (Memoized b (Pass.cells st')) (Pass.lenses st').
Proof.
  induction symbols as [|sym rest IH]; intros st st' Hrun Hinv; simpl in Hrun.
  - inversion Hrun; subst. assumption.
  - destruct (_provideCodeLens this gitUri document sym languageLocation b st)
      as [st1|] eqn:Hstep; simpl in Hrun; [|discriminate].
    eapply IH; [exact Hrun|].
    eapply memoized_step; eassumption.
Qed.

Lemma memoized_document this gitUri document languageLocations b st :
  let st' := provideDocumentLens this gitUri document languageLocations b st in
  List.Forall (Memoized b (Pass.cells st)) (Pass.lenses st) ->
  List.Forall (Memoized b (Pass.cells st')) (Pass.lenses st')
  /\ List.Forall (fun l => CodeLens.blame l = List.length (Pass.cells st)) (added st st')
  /\ (List.length (Pass.cells st') <= List.length (Pass.cells st) + 1)%nat.
Proof.
  intros st' Hinv. subst st'.
  destruct (provideDocumentLens_cases this gitUri document languageLocations b st)
    as [(_ & ->) | [(_ & _ & ->) | (_ & _ & Hlenses & Hcells)]].
  1, 2: (rewrite added_same; repeat split; [assumption|constructor|lia]).
  - rewrite (added_app _ _ _ Hlenses). rewrite Hlenses, Hcells.
    split; [|split].
    + apply List.Forall_app. split; [now apply memoized_extend|].
      destruct (wantsRecentChange this), (authorsEnabled this),
        (GitCodeLensProvider._documentIsDirty this); simpl;
        repeat constructor; unfold Memoized; simpl;
        now apply list_lookup_middle.
    + destruct (wantsRecentChange this), (_ && _); simpl; repeat constructor.
    + rewrite length_app. destruct (_ || _); simpl; lia.
Qed.

Lemma memoized_pass this document gitUri blame symbols this' p :
  provideCodeLenses this document gitUri blame symbols = (this', Some p) ->
  Pass.lenses p = []
  \/ exists b, blame = Some b
               /\ List.Forall (Memoized b (Pass.cells p)) (Pass.lenses p).
Proof.
  intros Hrun.
  destruct (provideCodeLenses_cases _ _ _ _ _ _ _ Hrun)
    as (_ & [(_ & ->) | (b & st & Hb & _ & -> & Hst)]); [now left|].
  right. exists b. split; [assumption|].
  apply memoized_document.
  destruct Hst as [(_ & ->) | (_ & Hwalk)]; [constructor|].
  eapply memoized_walk; [exact Hwalk|]. constructor.
Qed.

Lemma memoized_in_range b (cells : list BlameCell) (lenses : list CodeLens.t) :
  List.Forall (Memoized b cells) lenses ->
  List.Forall (fun l => (CodeLens.blame l < List.length cells)%nat) lenses.
Proof.
  intros H. eapply List.Forall_impl; [|exact H].
  unfold Memoized. intros l Hl. eapply lookup_lt_Some. exact Hl.
Qed.

Lemma added_share_cell this gitUri document symbol languageLocation b st st' :
  _provideCodeLens this gitUri document symbol languageLocation b st = Some st' ->
  List.Forall (fun l => CodeLens.blame l = List.length (Pass.cells st)) (added st st').
Proof.
  intros Hstep.
  destruct (provideCodeLens_cases _ _ _ _ _ _ _ _ Hstep)
    as [(_ & ->) | (r & line & Hv & Hl &
                    [(_ & ->) | (_ & rRC & rAU & Hlenses & _ & _ & _)])].
  - rewrite added_same. constructor.
  - rewrite added_same. constructor.
  - rewrite (added_app _ _ _ Hlenses).
    destruct (wantsRecentChange this), (_ && _); simpl; repeat constructor.
Qed.

Lemma added_share_document_cell this gitUri document languageLocations b st :
  List.Forall (fun l => CodeLens.blame l = List.length (Pass.cells st))
    (added st (provideDocumentLens this gitUri document languageLocations b st)).
Proof.
  destruct (provideDocumentLens_cases this gitUri document languageLocations b st)
    as [(_ & ->) | [(_ & _ & ->) | (_ & _ & Hlenses & _)]].
  1, 2: (rewrite added_same; constructor).
  - rewrite (added_app _ _ _ Hlenses).
    destruct (wantsRecentChange this), (_ && _); simpl; repeat constructor.
Qed.

Lemma afterPass_runs_once {W : Type} (p : Pass.t) (w : W) : RunsOnce (afterPass p w).
Proof. split; simpl; [constructor|]. intros id c _ _ []. Qed.

(** C5.  Every lens of a pass holds a function made by [Functions.once]
    around the blame of the lens's own range, and that function has not run
    when the pass returns; the lenses that one call adds for a symbol (and the
    lenses added for the whole document) hold the same function; the first
    [getBlame] on a lens runs the blame for its range; whatever lenses
    [getBlame] is called on afterwards and however often, no function runs
    twice; and [getBlame] repeated on a lens gives the same result again
    without changing anything. *)
Theorem blame_for_range_is_computed_at_most_once
  {W : Type}
  (getBlameForRangeSync : GitBlame.t -> GitUri.t -> Range.t -> W -> option GitBlameLines.t * W)
  this document gitUri blame symbols this' p :
  provideCodeLenses this document gitUri blame symbols = (this', Some p) ->
  (forall l, In l (Pass.lenses p) ->
     exists b, blame = Some b /\ Memoized b (Pass.cells p) l)
  /\ (forall b symbol languageLocation st st' l1 l2,
        _provideCodeLens this' gitUri document symbol languageLocation b st = Some st' ->
        In l1 (added st st') -> In l2 (added st st') ->
        CodeLens.blame l1 = CodeLens.blame l2)
  /\ (forall b languageLocations st l1 l2,
        let st' := provideDocumentLens this' gitUri document languageLocations b st in
        In l1 (added st st') -> In l2 (added st st') ->
        CodeLens.blame l1 = CodeLens.blame l2)
  /\ (forall w l, In l (Pass.lenses p) ->
        exists b st,
          blame = Some b
          /\ getBlame getBlameForRangeSync l (afterPass p w)
             = Some (fst (getBlameForRangeSync b (CodeLens.uri l)
                            (CodeLens.blameRange l) w), st)
          /\ Functions.runs st = [CodeLens.blame l])
  /\ (forall w calls,
        (forall l, In l calls -> In l (Pass.lenses p)) ->
        exists results st,
          getBlames getBlameForRangeSync calls (afterPass p w) = Some (results, st)
          /\ List.length results = List.length calls
          /\ NoDup (Functions.runs st))
  /\ (forall l st r st1,
        getBlame getBlameForRangeSync l st = Some (r, st1) ->
        getBlame getBlameForRangeSync l st1 = Some (r, st1)).
Proof.
  intros Hrun.
  assert (Hmem : forall l, In l (Pass.lenses p) ->
                   exists b, blame = Some b /\ Memoized b (Pass.cells p) l
                             /\ List.Forall (Memoized b (Pass.cells p)) (Pass.lenses p)).
  { intros l Hl. destruct (memoized_pass _ _ _ _ _ _ _ Hrun) as [Hnil | (b & Hb & Hall)].
    - rewrite Hnil in Hl. destruct Hl.
    - exists b. split; [assumption|]. split; [|assumption].
      rewrite List.Forall_forall in Hall. now apply Hall. }
  split; [|split; [|split; [|split; [|split]]]].
  - intros l Hl. destruct (Hmem l Hl) as (b & Hb & Hm & _). eauto.
  - intros b symbol languageLocation st st' l1 l2 Hstep H1 H2.
    pose proof (added_share_cell _ _ _ _ _ _ _ _ Hstep) as Hall.
    rewrite List.Forall_forall in Hall.
    rewrite (Hall _ H1), (Hall _ H2). reflexivity.
  - intros b languageLocations st l1 l2 st' H1 H2.
    pose proof (added_share_document_cell this' gitUri document languageLocations b st)
      as Hall.
    rewrite List.Forall_forall in Hall.
    rewrite (Hall _ H1), (Hall _ H2). reflexivity.
  - intros w l Hl. destruct (Hmem l Hl) as (b & Hb & Hm & _).
    destruct (call_first (runBlameThunk getBlameForRangeSync) (CodeLens.blame l)
                (afterPass p w) _ Hm) as (st & Hcall & Hruns & _).
    exists b, st. split; [assumption|]. split; [exact Hcall|exact Hruns].
  - intros w calls Hcalls.
    destruct calls as [|l0 rest] eqn:Ecalls.
    + exists [], (afterPass p w). repeat split. constructor.
    + destruct (Hmem l0 (Hcalls l0 ltac:(now left))) as (b & _ & _ & Hall).
      rewrite <- Ecalls in *.
      destruct (getBlames_run_once getBlameForRangeSync calls (afterPass p w)
                  (afterPass_runs_once p w)) as (rs & st & Hget & Hlen & Honce & _).
      * apply List.Forall_forall. intros l Hl.
        pose proof (memoized_in_range _ _ _ Hall) as Hrange.
        rewrite List.Forall_forall in Hrange. apply Hrange. now apply Hcalls.
      * exists rs, st. repeat split; assumption.
  - intros l st r st1. apply call_idempotent.
Qed.

Lemma blame_for_range_is_computed_at_most_once_witness :
  exists p,
    snd (provideCodeLenses
           (Samples.provider (Samples.config true true [CodeLensLocations.Blocks]))
           (Samples.doc "typescript" false) Samples.uri (Some Samples.blame)
           Samples.inOrder) = Some p
    /\ map CodeLens.blame (Pass.lenses p) = [0; 0; 1; 2; 2]%nat
    /\ exists results st,
         getBlames Samples.countingBlame (Pass.lenses p ++ Pass.lenses p)
           (afterPass p 0%nat) = Some (results, st)
         /\ List.length results = List.length (Pass.lenses p ++ Pass.lenses p)
         /\ NoDup (Functions.runs st).
Proof.
  eexists. split; [vm_compute; reflexivity|]. split; [vm_compute; reflexivity|].
  destruct (blame_for_range_is_computed_at_most_once Samples.countingBlame
              (Samples.provider (Samples.config true true [CodeLensLocations.Blocks]))
              (Samples.doc "typescript" false) Samples.uri (Some Samples.blame)
              Samples.inOrder _ _ eq_refl) as (_ & _ & _ & _ & Honce & _).
  apply (Honce 0%nat).
  intros l Hl. apply in_app_or in Hl. tauto.
Defined.

(** ** No blame, no lens *)

(** C6.  When the fetched blame is undefined or holds no line,
    [provideCodeLenses] returns the empty array whatever the symbols are:
    nothing is memoized, no symbol is looked at (not even one whose line is
    outside the document, on which [_provideCodeLens] would throw). *)
Theorem missing_blame_returns_no_lens this document gitUri blame symbols :
  blame = None \/ (exists b, blame = Some b /\ GitBlame.lines b = []) ->
  provideCodeLenses this document gitUri blame symbols
  = (GitCodeLensProvider.mk (GitCodeLensProvider._config this)
       (TextDocument.isDirty document),
     Some (Pass.mk [] [])).
Proof.
  intros H.
  assert (Hmiss : blameIsMissing blame = true).
  { destruct H as [-> | (b & -> & Hb)]; [reflexivity|]. simpl. now rewrite Hb. }
  unfold provideCodeLenses. cbn zeta. f_equal.
  destruct blame as [b|]; rewrite ?Hmiss; destruct (_ && _); reflexivity.
Qed.

Lemma missing_blame_returns_no_lens_witness :
  provideCodeLenses
    (Samples.provider (Samples.config true true [CodeLensLocations.Blocks]))
    (Samples.doc "typescript" false) Samples.uri (Some Samples.noLines)
    [Samples.beyondTheEnd]
  = (Samples.provider (Samples.config true true [CodeLensLocations.Blocks]),
     Some (Pass.mk [] []))
  /\ snd (provideCodeLenses
            (Samples.provider (Samples.config true true [CodeLensLocations.Blocks]))
            (Samples.doc "typescript" false) Samples.uri (Some Samples.blame)
            [Samples.beyondTheEnd]) = None.
Proof.
  split; [|vm_compute; reflexivity].
  apply (missing_blame_returns_no_lens
           (Samples.provider (Samples.config true true [CodeLensLocations.Blocks]))
           (Samples.doc "typescript" false) Samples.uri (Some Samples.noLines)
           [Samples.beyondTheEnd]).
  right. exists Samples.noLines. split; reflexivity.
Defined.

(** ** Resolving a lens *)

(** C7.  While the document is dirty, resolving a recent change lens returns
    a lens whose [command] field is a title only, with no [command] and no
    [arguments], whose other fields are those of the lens resolved, and runs
    no blame; the title is the combined text when both kinds are enabled, the
    recent change text when only that kind is, and the authors text
    otherwise. *)
Theorem dirty_recent_change_lens_gets_a_title_only
  {W : Type}
  (getBlameForRangeSync : GitBlame.t -> GitUri.t -> Range.t -> W -> option GitBlameLines.t * W)
  this lens (st : ResolveState) :
  GitCodeLensProvider._documentIsDirty this = true ->
  let config := GitCodeLensProvider._config this in
  let recentChange := ICodeLensConfig.enabled (IConfig.recentChange config) in
  let authors := ICodeLensConfig.enabled (IConfig.authors config) in
  let strings := IConfig.unsavedChanges config in
  exists title lens',
    _resolveGitRecentChangeCodeLens getBlameForRangeSync this lens st
    = Some (lens', st)
    /\ CodeLens.command lens' = Some (Command.mk title None None)
    /\ sameButCommand lens lens'
    /\ (recentChange = true -> authors = true ->
        title = UnsavedChanges.recentChangeAndAuthors strings)
    /\ (recentChange = true -> authors = false ->
        title = UnsavedChanges.recentChangeOnly strings)
    /\ (recentChange = false -> title = UnsavedChanges.authorsOnly strings).
Proof.
  intros Hdirty config recentChange authors strings.
  exists (unsavedChangesTitle config).
  exists (CodeLens.setCommand lens
            (Command.mk (unsavedChangesTitle config) None None)).
  unfold _resolveGitRecentChangeCodeLens. rewrite Hdirty.
  split; [reflexivity|].
  split; [reflexivity|].
  split; [unfold sameButCommand; repeat split|].
  unfold unsavedChangesTitle. fold recentChange authors strings.
  destruct recentChange, authors; simpl; repeat split; intros; congruence.
Qed.

Lemma dirty_recent_change_lens_gets_a_title_only_witness :
  exists lens',
    _resolveGitRecentChangeCodeLens Samples.countingBlame
      (GitCodeLensProvider.mk (Samples.config true true [CodeLensLocations.Blocks]) true)
      Samples.methodLens (Samples.computed (Samples.commit Samples.shaA "Ann" false))
    = Some (lens', Samples.computed (Samples.commit Samples.shaA "Ann" false))
    /\ CodeLens.command lens'
       = Some (Command.mk "Cannot determine recent change or authors (unsaved changes)"
                 None None)
    /\ CodeLens.command Samples.methodLens = None
    /\ CodeLens.range lens' = CodeLens.range Samples.methodLens
    /\ CodeLens.blame lens' = CodeLens.blame Samples.methodLens.
Proof.
  destruct (dirty_recent_change_lens_gets_a_title_only Samples.countingBlame
              (GitCodeLensProvider.mk
                 (Samples.config true true [CodeLensLocations.Blocks]) true)
              Samples.methodLens
              (Samples.computed (Samples.commit Samples.shaA "Ann" false)) eq_refl)
    as (title & lens' & Hresolve & Hcommand & Hsame & Hboth & _).
  exists lens'. rewrite (Hboth eq_refl eq_refl) in Hcommand.
  split; [exact Hresolve|]. split; [exact Hcommand|]. split; [reflexivity|].
  unfold sameButCommand in Hsame. intuition congruence.
Defined.

Lemma applyConfiguredCommand_name configured title lens blame commit :
  exists lens',
    applyConfiguredCommand (Some configured) title lens blame (Some commit) = Some lens'
    /\ commandName lens'
       = Some (if GitBlameCommit.isUncommitted commit && quickCommitDetails configured
               then CommandEmpty else normalCommand configured).
Proof.
  destruct configured; simpl; eexists; (split; [reflexivity|]);
    unfold commandName; simpl; rewrite ?andb_false_r; try reflexivity;
    destruct (GitBlameCommit.isUncommitted commit); reflexivity.
Qed.

(** C8.  When a recent change lens is resolved and the commit handed to the
    builders, the first commit of the blame, is flagged uncommitted, the
    [command] field is the empty string for the show quick commit details and
    the show quick commit file details actions; for every other configured
    action it is the action's normal identifier, whatever the flag is.  (The
    authors lens hands no commit to the builders.) *)
Theorem uncommitted_commit_disables_quick_commit_details
  {W : Type}
  (getBlameForRangeSync : GitBlame.t -> GitUri.t -> Range.t -> W -> option GitBlameLines.t * W)
  this lens (st st1 : ResolveState) blame commit configured :
  GitCodeLensProvider._documentIsDirty this = false ->
  getBlame getBlameForRangeSync lens st = Some (Some blame, st1) ->
  Iterables.first (JsMap_values (GitBlameLines.commits blame)) = Some commit ->
  ICodeLensConfig.command (IConfig.recentChange (GitCodeLensProvider._config this))
  = Some configured ->
  exists lens',
    _resolveGitRecentChangeCodeLens getBlameForRangeSync this lens st = Some (lens', st1)
    /\ (GitBlameCommit.isUncommitted commit = true ->
        configured = CodeLensCommand.ShowQuickCommitDetails
        \/ configured = CodeLensCommand.ShowQuickCommitFileDetails ->
        commandName lens' = Some CommandEmpty)
    /\ (configured <> CodeLensCommand.ShowQuickCommitDetails ->
        configured <> CodeLensCommand.ShowQuickCommitFileDetails ->
        commandName lens' = Some (normalCommand configured))
    /\ (GitBlameCommit.isUncommitted commit = false ->
        commandName lens' = Some (normalCommand configured)).
Proof.
  intros Hdirty Hblame Hfirst Hcmd.
  unfold _resolveGitRecentChangeCodeLens. rewrite Hdirty, Hblame. simpl.
  rewrite Hfirst. simpl. rewrite Hcmd.
  match goal with
  | |- context [applyConfiguredCommand _ ?t _ _ _] =>
    destruct (applyConfiguredCommand_name configured t lens blame commit)
      as (lens' & Happly & Hname)
  end.
  rewrite Happly. simpl. exists lens'. split; [reflexivity|].
  rewrite Hname. split; [|split].
  - intros -> [-> | ->]; reflexivity.
  - intros H1 H2. destruct configured; try congruence;
      now rewrite andb_false_r.
  - intros ->. reflexivity.
Qed.

Lemma uncommitted_commit_disables_quick_commit_details_witness :
  exists lens',
    _resolveGitRecentChangeCodeLens Samples.countingBlame
      (Samples.provider (Samples.config true true [CodeLensLocations.Blocks]))
      Samples.methodLens
      (Samples.computed (Samples.commit Samples.shaZero "You" true))
    = Some (lens', Samples.computed (Samples.commit Samples.shaZero "You" true))
    /\ commandName lens' = Some CommandEmpty.
Proof.
  destruct (uncommitted_commit_disables_quick_commit_details Samples.countingBlame
              (Samples.provider (Samples.config true true [CodeLensLocations.Blocks]))
              Samples.methodLens
              (Samples.computed (Samples.commit Samples.shaZero "You" true))
              (Samples.computed (Samples.commit Samples.shaZero "You" true))
              (Samples.blameLines (Samples.commit Samples.shaZero "You" true))
              (Samples.commit Samples.shaZero "You" true)
              CodeLensCommand.ShowQuickCommitFileDetails
              eq_refl eq_refl eq_refl eq_refl)
    as (lens' & Hresolve & Hempty & _).
  exists lens'. split; [exact Hresolve|].
  apply Hempty; [reflexivity|]. now right.
Defined.

(** ** The content provider *)

(** C9.  When the fetch of the file's text at a revision fails,
    [provideTextDocumentContent] asks once, logs the exception, shows one
    error message that names the shortened revision and the relative file
    path, and resolves to [undefined]; and whatever the decoded uri and the
    fetch are, its promise resolves. *)
Theorem failing_content_fetch_is_reported_once
  {Exn F : Type} (fakeSha : string) (shortenSha : string -> string)
  (path_relative : string -> string -> string)
  (getVersionedFileText : string -> string -> string -> F -> (Exn + string) * F)
  (data : IGitUriData.t) (git git' : F) (ex : Exn) :
  let fileName :=
    orElse (IGitUriData.originalFileName data) (IGitUriData.fileName data) in
  IGitUriData.sha data <> fakeSha ->
  getVersionedFileText (IGitUriData.repoPath data) fileName (IGitUriData.sha data) git
  = (inl ex, git') ->
  provideTextDocumentContent fakeSha shortenSha path_relative getVersionedFileText
    data git
  = (Resolved None,
     [FetchVersionedFileText (IGitUriData.repoPath data) fileName (IGitUriData.sha data);
      LoggerError ex "GitContentProvider" "getVersionedFileText";
      ShowErrorMessage
        (template ["Unable to show Git revision "; shortenSha (IGitUriData.sha data);
                   " of '"; path_relative (IGitUriData.repoPath data) fileName; "'"])],
     git')
  /\ forall data0 git0,
       exists text effects git1,
         provideTextDocumentContent fakeSha shortenSha path_relative
           getVersionedFileText data0 git0
         = (Resolved text, effects, git1).
Proof.
  intros fileName Hsha Hfetch. split.
  - unfold provideTextDocumentContent. fold fileName.
    apply String.eqb_neq in Hsha. rewrite Hsha. simpl. rewrite Hfetch. reflexivity.
  - intros data0 git0. unfold provideTextDocumentContent.
    destruct (negb _).
    + destruct (getVersionedFileText _ _ _ git0) as [[ex0|text] git1];
        eexists _, _, _; reflexivity.
    + eexists _, _, _; reflexivity.
Qed.

Lemma failing_content_fetch_is_reported_once_witness :
  provideTextDocumentContent Samples.fakeSha Samples.firstEight Samples.keepFileName
    Samples.failingFetch Samples.uriData 0%nat
  = (Resolved None,
     [FetchVersionedFileText "/repo" "src/old.ts" Samples.shaA;
      LoggerError "fatal: bad revision" "GitContentProvider" "getVersionedFileText";
      ShowErrorMessage "Unable to show Git revision 3f2a9c1e of 'src/old.ts'"],
     1%nat).
Proof.
  destruct (failing_content_fetch_is_reported_once Samples.fakeSha Samples.firstEight
              Samples.keepFileName Samples.failingFetch Samples.uriData 0%nat 1%nat
              "fatal: bad revision") as [Hfail _].
  - vm_compute. discriminate.
  - reflexivity.
  - rewrite Hfail. reflexivity.
Defined.

(** ** Unsaved changes with the recent change kind disabled *)

Lemma lens_on_line_zero (lenses : list CodeLens.t) :
  existsb onLineZero lenses = true ->
  exists l, In l lenses /\ anchorLine l = 0.
Proof.
  intros H. apply existsb_exists in H. destruct H as (l & Hin & Hz).
  exists l. split; [assumption|].
  unfold onLineZero in Hz. apply andb_true_iff in Hz. destruct Hz as [Hz _].
  now apply Z.eqb_eq in Hz.
Qed.

(** C10.  When the document is dirty and the recent change kind is disabled,
    the pass still gives every eligible symbol a recent change lens on its
    line, and one on line 0 when the lens for the whole document is asked for;
    a call that gets past the eligibility test and the one-lens-per-line test
    adds exactly the recent change lens of its symbol; the step for the whole
    document, when that lens is asked for and no lens is anchored on line 0
    yet, adds exactly the recent change lens of the whole file at the start
    of line 0; and every lens of the pass resolves to a lens whose [command]
    field is the authors-only unsaved changes title, with no command to run
    and no arguments, the other fields unchanged. *)
Theorem dirty_document_gets_recent_change_lens_even_when_disabled
  {W : Type}
  (getBlameForRangeSync : GitBlame.t -> GitUri.t -> Range.t -> W -> option GitBlameLines.t * W)
  this document gitUri blame symbols this' p :
  TextDocument.isDirty document = true ->
  ICodeLensConfig.enabled (IConfig.recentChange (GitCodeLensProvider._config this))
  = false ->
  blameIsMissing blame = false ->
  provideCodeLenses this document gitUri blame symbols = (this', Some p) ->
  let languageLocations :=
    languageLocationsOf (GitCodeLensProvider._config this) document in
  (forall symbol r,
     In symbol symbols ->
     _validateSymbolAndGetBlameRange document symbol languageLocations = Some r ->
     exists l, In l (Pass.lenses p)
               /\ CodeLens.class l = LensClass.GitRecentChangeCodeLens
               /\ anchorLine l = symbolLine symbol)
  /\ (wantsDocumentLens languageLocations = true ->
      exists l, In l (Pass.lenses p)
                /\ CodeLens.class l = LensClass.GitRecentChangeCodeLens
                /\ anchorLine l = 0)
  /\ (forall symbol r b st st',
        _validateSymbolAndGetBlameRange document symbol languageLocations = Some r ->
        lastLensStartsAtLine (Pass.lenses st) (symbolLine symbol) = false ->
        _provideCodeLens this' gitUri document symbol languageLocations b st = Some st' ->
        exists range,
          added st st'
          = [GitRecentChangeCodeLens (List.length (Pass.cells st)) gitUri
               (SymbolInformation.kind symbol) r false range]
          /\ onLine range (symbolLine symbol))
  /\ (forall b st,
        wantsDocumentLens languageLocations = true ->
        existsb onLineZero (Pass.lenses st) = false ->
        added st (provideDocumentLens this' gitUri document languageLocations b st)
        = [GitRecentChangeCodeLens (List.length (Pass.cells st)) gitUri
             SymbolKind.File (wholeDocumentRange document) true
             (Range.new4 0 0 0
                (Position.character (Range.start (wholeDocumentRange document))))])
  /\ (forall l (st : ResolveState),
        In l (Pass.lenses p) ->
        exists lens',
          resolveCodeLens getBlameForRangeSync this' l st = Some (lens', st)
          /\ CodeLens.command lens'
             = Some (Command.mk
                       (UnsavedChanges.authorsOnly
                          (IConfig.unsavedChanges (GitCodeLensProvider._config this)))
                       None None)
          /\ sameButCommand l lens').
Proof.
  intros Hdirty Hdisabled Hblame Hrun languageLocations.
  destruct (dirty_pass _ _ _ _ _ _ _ Hdirty Hrun) as [Hall Hcov].
  destruct (provideCodeLenses_cases _ _ _ _ _ _ _ Hrun)
    as (Hthis & [(Hmiss & _) | (b & st0 & _ & _ & Hp & Hst)]); [congruence|].
  assert (Hd : GitCodeLensProvider._documentIsDirty this' = true)
    by (rewrite Hthis; exact Hdirty).
  assert (Hcfg : GitCodeLensProvider._config this' = GitCodeLensProvider._config this)
    by (rewrite Hthis; reflexivity).
  split; [|split; [|split; [|split]]].
  - intros symbol r Hin Hv. exact (Hcov Hblame symbol r Hin Hv).
  - intros Hwants. fold languageLocations in Hp.
    destruct (provideDocumentLens_cases this' gitUri document languageLocations b st0)
      as [(Hno & _) | [(_ & Hex & Hsame) | (_ & _ & Hlenses & _)]].
    + congruence.
    + destruct (lens_on_line_zero _ Hex) as (l & Hl & Hz).
      rewrite <- Hp in Hsame. subst st0.
      exists l. split; [assumption|]. split; [|assumption].
      rewrite List.Forall_forall in Hall. now apply Hall.
    + rewrite <- Hp in Hlenses. unfold wantsRecentChange in Hlenses.
      rewrite Hd in Hlenses. simpl in Hlenses.
      eexists. split; [|split].
      * rewrite Hlenses. apply in_or_app. right. left. reflexivity.
      * reflexivity.
      * apply (new4_anchor_zero 0).
  - intros symbol r b' st st' Hv Hll Hstep.
    destruct (provideCodeLens_cases _ _ _ _ _ _ _ _ Hstep)
      as [(Hv' & _) | (r' & line & Hv' & Hl &
                       [(Hll' & _) | (_ & rRC & rAU & Hlenses & _ & HonRC & _)])];
      try congruence.
    assert (r' = r) by congruence. subst r'.
    unfold wantsRecentChange in Hlenses. rewrite Hd in Hlenses.
    rewrite andb_false_r in Hlenses. simpl in Hlenses.
    exists rRC. split; [|exact HonRC].
    apply added_app. exact Hlenses.
  - intros b' st Hwants Hfree.
    destruct (provideDocumentLens_cases this' gitUri document languageLocations b' st)
      as [(Hno & _) | [(_ & Hex & _) | (_ & _ & Hlenses & _)]]; try congruence.
    unfold wantsRecentChange in Hlenses. rewrite Hd in Hlenses.
    rewrite andb_false_r in Hlenses. simpl in Hlenses.
    apply added_app. exact Hlenses.
  - intros l st Hin.
    rewrite List.Forall_forall in Hall. specialize (Hall l Hin).
    exists (CodeLens.setCommand l
              (Command.mk
                 (UnsavedChanges.authorsOnly
                    (IConfig.unsavedChanges (GitCodeLensProvider._config this)))
                 None None)).
    split; [|split; [reflexivity|unfold sameButCommand; repeat split]].
    unfold resolveCodeLens. rewrite Hall.
    unfold _resolveGitRecentChangeCodeLens. rewrite Hd, Hcfg.
    unfold unsavedChangesTitle. rewrite Hdisabled. reflexivity.
Qed.

Lemma dirty_document_gets_recent_change_lens_even_when_disabled_witness :
  exists p,
    snd (provideCodeLenses
           (Samples.provider
              (Samples.config false true
                 [CodeLensLocations.Document; CodeLensLocations.Blocks]))
           (Samples.doc "typescript" true) Samples.uri (Some Samples.blame)
           Samples.inOrder) = Some p
    /\ Samples.summary (Some p)
       = Some [(LensClass.GitRecentChangeCodeLens, 2);
               (LensClass.GitRecentChangeCodeLens, 5);
               (LensClass.GitRecentChangeCodeLens, 6);
               (LensClass.GitRecentChangeCodeLens, 0)]
    /\ (exists l, In l (Pass.lenses p)
                  /\ CodeLens.class l = LensClass.GitRecentChangeCodeLens
                  /\ anchorLine l = 0)
    /\ forall l, In l (Pass.lenses p) ->
         exists lens',
           resolveCodeLens Samples.countingBlame
             (GitCodeLensProvider.mk
                (Samples.config false true
                   [CodeLensLocations.Document; CodeLensLocations.Blocks]) true)
             l (afterPass p 0%nat)
           = Some (lens', afterPass p 0%nat)
           /\ CodeLens.command lens'
              = Some (Command.mk "Cannot determine authors (unsaved changes)"
                        None None)
           /\ sameButCommand l lens'.
Proof.
  eexists. split; [vm_compute; reflexivity|]. split; [vm_compute; reflexivity|].
  destruct (dirty_document_gets_recent_change_lens_even_when_disabled
              Samples.countingBlame
              (Samples.provider
                 (Samples.config false true
                    [CodeLensLocations.Document; CodeLensLocations.Blocks]))
              (Samples.doc "typescript" true) Samples.uri (Some Samples.blame)
              Samples.inOrder _ _ eq_refl eq_refl eq_refl eq_refl)
    as (_ & Hzero & _ & _ & Hresolve).
  split.
  - apply Hzero. vm_compute. reflexivity.
  - intros l Hl. apply (Hresolve l (afterPass _ 0%nat) Hl).
Defined.

(** ** The scenarios of the specification on sample inputs *)

(** Only the whole document asked for, one blamed line by "A": the pass
    returns one recent change lens, anchored at line 0, for the whole
    document, and it resolves to the title "A, yesterday". *)
Example whole_file_scenario :
  let this := Samples.provider (Samples.config true false [CodeLensLocations.Document]) in
  exists lens cells,
    provideCodeLenses this Samples.oneLineDoc Samples.uri (Some Samples.oneLineBlame) []
    = (this, Some (Pass.mk [lens] cells))
    /\ lens = GitRecentChangeCodeLens 0 Samples.uri SymbolKind.File
                (Range.new4 0 5 0 5) true (Range.new4 0 0 0 5)
    /\ (fun r => Command.title <$> CodeLens.command (fst r))
         <$> resolveCodeLens Samples.blameByA this lens
               (afterPass (Pass.mk [lens] cells) 0%nat)
       = Some (Some "A, yesterday").
Proof.
  eexists _, _. split; [vm_compute; reflexivity|].
  split; vm_compute; reflexivity.
Qed.

(** Two authors in the range, "A" seen first: the authors title. *)
Example two_authors_scenario :
  let this := Samples.provider (Samples.config true true [CodeLensLocations.Blocks]) in
  let lens := GitAuthorsCodeLens 0 Samples.uri SymbolKind.Method (Range.new4 6 4 7 5)
                false (Range.new4 6 11 6 11) in
  (fun r => Command.title <$> CodeLens.command (fst r))
    <$> resolveCodeLens Samples.blameByTwo this lens
          (Functions.mkStore
             [Functions.mkCell
                (BlameThunk.mk Samples.blame Samples.uri (Range.new4 6 4 7 5)) None]
             0%nat [])
  = Some (Some "2 authors (A and others)").
Proof. vm_compute. reflexivity. Qed.

(** A single-line function with both kinds enabled in a language without the
    workaround: the recent change lens only. *)
Example single_line_function_scenario :
  Samples.summary
    (snd (provideCodeLenses
            (Samples.provider (Samples.config true true [CodeLensLocations.Blocks]))
            (Samples.doc "typescript" false) Samples.uri (Some Samples.blame)
            [Samples.symbolAt SymbolKind.Function 5 5]))
  = Some [(LensClass.GitRecentChangeCodeLens, 5)].
Proof. vm_compute. reflexivity. Qed.

(** The walk over symbols returns when every symbol starts on a line of the
    document that holds a character. *)
Example sample_symbols_are_anchorable :
  Forall (anchorable (Samples.doc "typescript" false)) Samples.inOrder
  /\ Forall (anchorable (Samples.doc "typescript" false)) Samples.outOfOrder.
Proof.
  split; repeat constructor; vm_compute; congruence.
Qed.

(** ** Which symbols are eligible *)

Lemma includes_In {A} `{EqDecision A} (l : list A) (x : A) :
  includes l x = true <-> In x l.
Proof.
  unfold includes. rewrite bool_decide_eq_true. apply list_elem_of_In.
Qed.

Lemma kind_name_not_empty (kind : SymbolKind.t) :
  toLowerCase (SymbolKind.name kind) <> "".
Proof. destruct kind; discriminate. Qed.

Lemma toLowerCase_empty (s : string) : toLowerCase s = "" -> s = "".
Proof. destruct s; [reflexivity|discriminate]. Qed.

Lemma truthy_find (customSymbols : option (list string)) (lowered : string) :
  lowered <> "" ->
  truthy (customSymbolsFind customSymbols lowered)
  = existsb (fun s => String.eqb (toLowerCase s) lowered) (default [] customSymbols).
Proof.
  intros Hne. unfold customSymbolsFind.
  induction (default [] customSymbols) as [|s rest IH]; simpl; [reflexivity|].
  destruct (String.eqb (toLowerCase s) lowered) eqn:E; [|exact IH].
  simpl. apply String.eqb_eq in E.
  destruct (String.eqb s "") eqn:Es; [|reflexivity].
  apply String.eqb_eq in Es. subst s. simpl in E. congruence.
Qed.

Lemma validate_custom languageLocation kind :
  truthy (customSymbolsFind (ICodeLensLanguageLocation.customSymbols languageLocation)
            (toLowerCase (SymbolKind.name kind)))
  = customAllows languageLocation kind.
Proof. apply truthy_find, kind_name_not_empty. Qed.

Lemma validate_is_Some document symbol languageLocation :
  let locations := ICodeLensLanguageLocation.locations languageLocation in
  let kind := SymbolInformation.kind symbol in
  is_Some (_validateSymbolAndGetBlameRange document symbol languageLocation)
  <-> (bool_decide (kind ∈ containerKinds)
         && includes locations CodeLensLocations.Containers)
      || (bool_decide (kind ∈ blockKinds)
            && includes locations CodeLensLocations.Blocks)
      || (includes locations CodeLensLocations.Custom
            && customAllows languageLocation kind) = true.
Proof.
  intros locations kind. unfold _validateSymbolAndGetBlameRange.
  rewrite validate_custom. fold locations kind.
  destruct (includes locations CodeLensLocations.Containers),
    (includes locations CodeLensLocations.Blocks),
    (includes locations CodeLensLocations.Custom),
    (customAllows languageLocation kind);
    destruct kind; cbn;
    repeat match goal with
    | |- context [if ?b then _ else _] => destruct b
    end;
    split; intros H; try reflexivity; try discriminate;
    try (eexists; reflexivity); try (destruct H; discriminate).
Qed.

(** X1.  With an allow-list of ASCII names, a symbol is eligible exactly
    when its kind is one of File, Package, Class, Interface, Module,
    Namespace, Struct and the locations hold Containers, or its kind is one
    of Constructor, Enum, Function, Method, Property and the locations hold
    Blocks, or the locations hold Custom and the allow-list holds the name of
    its kind, compared without the case of the letters A to Z.  For a kind
    other than File and Package the blame range is the symbol's own range. *)
Theorem eligible_by_containers_blocks_or_custom document symbol languageLocation :
  forallb isAscii
    (default [] (ICodeLensLanguageLocation.customSymbols languageLocation)) = true ->
  let locations := ICodeLensLanguageLocation.locations languageLocation in
  let kind := SymbolInformation.kind symbol in
  (is_Some (_validateSymbolAndGetBlameRange document symbol languageLocation)
   <-> (In kind containerKinds /\ In CodeLensLocations.Containers locations)
       \/ (In kind blockKinds /\ In CodeLensLocations.Blocks locations)
       \/ (In CodeLensLocations.Custom locations
           /\ exists s,
                In s (default [] (ICodeLensLanguageLocation.customSymbols
                                    languageLocation))
                /\ toLowerCase s = toLowerCase (SymbolKind.name kind)))
  /\ (kind <> SymbolKind.File -> kind <> SymbolKind.Package ->
      forall r,
        _validateSymbolAndGetBlameRange document symbol languageLocation = Some r ->
        r = symbolRange symbol).
Proof.
  intros _ locations kind. split.
  - rewrite validate_is_Some. fold locations kind.
    rewrite !orb_true_iff, !andb_true_iff, !bool_decide_eq_true, !includes_In.
    rewrite <- !list_elem_of_In.
    unfold customAllows. rewrite existsb_exists.
    assert (Hex : (exists s, In s (default [] (ICodeLensLanguageLocation.customSymbols
                                               languageLocation))
                             /\ String.eqb (toLowerCase s)
                                  (toLowerCase (SymbolKind.name kind)) = true)
                  <-> (exists s, In s (default [] (ICodeLensLanguageLocation.customSymbols
                                                     languageLocation))
                                 /\ toLowerCase s = toLowerCase (SymbolKind.name kind))).
    { split; intros (s & Hs & He); exists s; split; try assumption;
        now apply String.eqb_eq. }
    rewrite Hex. tauto.
  - intros HF HP r Hv. unfold _validateSymbolAndGetBlameRange in Hv.
    fold kind in Hv. fold (symbolRange symbol) in Hv.
    destruct kind; try congruence; cbn in Hv;
      repeat match type of Hv with
      | context [if ?b then _ else _] => destruct b; cbn in Hv
      end; congruence.
Qed.

Lemma eligible_by_containers_blocks_or_custom_witness :
  is_Some (_validateSymbolAndGetBlameRange (Samples.doc "typescript" false)
             (Samples.symbolAt SymbolKind.Variable_ 4 4) Samples.customVariables)
  /\ _validateSymbolAndGetBlameRange (Samples.doc "typescript" false)
       (Samples.symbolAt SymbolKind.Variable_ 4 4) Samples.customVariables
     = Some (Range.new4 4 4 4 5)
  /\ ~ is_Some (_validateSymbolAndGetBlameRange (Samples.doc "typescript" false)
                  (Samples.symbolAt SymbolKind.Variable_ 4 4) Samples.blocks).
Proof.
  destruct (eligible_by_containers_blocks_or_custom (Samples.doc "typescript" false)
              (Samples.symbolAt SymbolKind.Variable_ 4 4) Samples.customVariables
              eq_refl)
    as [Hiff Hrange].
  destruct (eligible_by_containers_blocks_or_custom (Samples.doc "typescript" false)
              (Samples.symbolAt SymbolKind.Variable_ 4 4) Samples.blocks eq_refl)
    as [Hiff' _].
  assert (Hsome : is_Some (_validateSymbolAndGetBlameRange
                             (Samples.doc "typescript" false)
                             (Samples.symbolAt SymbolKind.Variable_ 4 4)
                             Samples.customVariables)).
  { apply Hiff. right. right. split; [simpl; auto|].
    exists "VARIABLE". split; [simpl; auto|reflexivity]. }
  split; [exact Hsome|]. split.
  - destruct Hsome as [r Hr]. rewrite Hr. f_equal.
    apply (Hrange ltac:(discriminate) ltac:(discriminate) r Hr).
  - intros H. apply Hiff' in H. simpl in H.
    destruct H as [[H _]|[[H _]|[H _]]];
      repeat (destruct H as [H|H]; [discriminate|]); exact H.
Defined.

Lemma customFind_by_lowered (customSymbols : option (list string)) (lowered : string) :
  lowered <> "" ->
  truthy (customSymbolsFind customSymbols lowered)
  = existsb (fun s => String.eqb s lowered)
      (map toLowerCase (default [] customSymbols)).
Proof.
  intros Hne. rewrite truthy_find by assumption.
  induction (default [] customSymbols) as [|s rest IH]; simpl; [reflexivity|].
  now rewrite IH.
Qed.

(** X2.  The custom allow-list is read without regard to case: two
    configurations with the same locations whose allow-lists agree once put
    in lower case make the same symbols eligible, with the same blame ranges,
    and ask alike for the lens of the whole document. *)
Theorem custom_symbols_are_matched_without_case document symbol l1 l2 :
  ICodeLensLanguageLocation.locations l1 = ICodeLensLanguageLocation.locations l2 ->
  map toLowerCase (default [] (ICodeLensLanguageLocation.customSymbols l1))
  = map toLowerCase (default [] (ICodeLensLanguageLocation.customSymbols l2)) ->
  _validateSymbolAndGetBlameRange document symbol l1
  = _validateSymbolAndGetBlameRange document symbol l2
  /\ wantsDocumentLens l1 = wantsDocumentLens l2.
Proof.
  intros Hloc Hlow. split.
  - unfold _validateSymbolAndGetBlameRange.
    rewrite !customFind_by_lowered by apply kind_name_not_empty.
    now rewrite Hloc, Hlow.
  - unfold wantsDocumentLens.
    rewrite !customFind_by_lowered by discriminate.
    now rewrite Hloc, Hlow.
Qed.

Lemma custom_symbols_are_matched_without_case_witness :
  _validateSymbolAndGetBlameRange (Samples.doc "typescript" false)
    (Samples.symbolAt SymbolKind.Variable_ 4 4) Samples.customVariables
  = _validateSymbolAndGetBlameRange (Samples.doc "typescript" false)
      (Samples.symbolAt SymbolKind.Variable_ 4 4) Samples.customVariablesMixed
  /\ wantsDocumentLens Samples.customVariables
     = wantsDocumentLens Samples.customVariablesMixed.
Proof.
  apply (custom_symbols_are_matched_without_case (Samples.doc "typescript" false)
           (Samples.symbolAt SymbolKind.Variable_ 4 4)
           Samples.customVariables Samples.customVariablesMixed);
    reflexivity.
Defined.

(** ** Only the whole document asked for *)

(** X3.  When the locations of the document's language are just the whole
    document and the blame holds a line, the symbols are not looked at: the
    pass returns the recent change lens of the whole document when the
    document is dirty or that kind is enabled, then the authors lens of the
    whole document when that kind is enabled and the document is not dirty,
    both of kind File, on line 0, holding the one function of the whole
    document's range. *)
Theorem document_only_policy_ignores_the_symbols this document gitUri b symbols :
  let languageLocations :=
    languageLocationsOf (GitCodeLensProvider._config this) document in
  let this' := GitCodeLensProvider.mk (GitCodeLensProvider._config this)
                 (TextDocument.isDirty document) in
  let whole := wholeDocumentRange document in
  let c := Position.character (Range.start whole) in
  documentOnly languageLocations = true ->
  GitBlame.lines b <> [] ->
  provideCodeLenses this document gitUri (Some b) symbols
  = (this',
     Some (Pass.mk
             ((if wantsRecentChange this'
               then [GitRecentChangeCodeLens 0 gitUri SymbolKind.File whole true
                       (Range.new4 0 0 0 c)]
               else [])
              ++ (if authorsEnabled this' && negb (TextDocument.isDirty document)
                  then [GitAuthorsCodeLens 0 gitUri SymbolKind.File whole true
                          (Range.new4 0 1 0 c)]
                  else []))
             (if wantsRecentChange this' || authorsEnabled this'
              then [Functions.mkCell (BlameThunk.mk b gitUri whole) None]
              else []))).
Proof.
  intros languageLocations this' whole c Hdoc Hlines.
  pose proof Hdoc as Hdoc'. unfold documentOnly in Hdoc'.
  unfold provideCodeLenses. cbn zeta. cbn [GitCodeLensProvider._config].
  fold languageLocations this'. rewrite Hdoc'.
  assert (Hmiss : blameIsMissing (Some b) = false).
  { simpl. destruct (GitBlame.lines b); [congruence|reflexivity]. }
  rewrite Hmiss. f_equal. f_equal.
  destruct (provideDocumentLens_cases this' gitUri document languageLocations b
              (Pass.mk [] []))
    as [(Hno & _) | [(_ & Hex & _) | (_ & _ & Hlenses & Hcells)]].
  - unfold documentOnly in Hdoc. apply andb_true_iff in Hdoc.
    unfold wantsDocumentLens in Hno. destruct Hdoc as [_ Hdoc].
    rewrite Hdoc in Hno. discriminate.
  - discriminate.
  - destruct (provideDocumentLens this' gitUri document languageLocations b
                (Pass.mk [] [])) as [ls cs].
    simpl in Hlenses, Hcells. now rewrite Hlenses, Hcells.
Qed.

Lemma document_only_policy_ignores_the_symbols_witness :
  Samples.summary
    (snd (provideCodeLenses
            (Samples.provider (Samples.config true true [CodeLensLocations.Document]))
            (Samples.doc "typescript" false) Samples.uri (Some Samples.blame)
            [Samples.beyondTheEnd]))
  = Some [(LensClass.GitRecentChangeCodeLens, 0); (LensClass.GitAuthorsCodeLens, 0)].
Proof.
  rewrite (document_only_policy_ignores_the_symbols
             (Samples.provider (Samples.config true true [CodeLensLocations.Document]))
             (Samples.doc "typescript" false) Samples.uri Samples.blame
             [Samples.beyondTheEnd]).
  - vm_compute. reflexivity.
  - reflexivity.
  - discriminate.
Defined.

(** ** Where the lenses of a symbol are anchored *)

Lemma lineAt_range (d : TextDocument.t) (p : Position.t) (line : TextLine.t) :
  TextDocument.lineAt d p = Some line ->
  TextLine.range line
  = Range.mk (Position.mk (Position.line p) 0)
      (Position.mk (Position.line p) (TextDocument.lineLength d (Position.line p))).
Proof.
  unfold TextDocument.lineAt. intros H.
  destruct ((Position.line p <? 0) || (TextDocument.lineCount d <=? Position.line p));
    [discriminate|].
  inversion H; subst; clear H. simpl.
  unfold Range.new4, Range.new, Position.isBefore. simpl.
  rewrite Z.ltb_irrefl, Z.eqb_refl. simpl.
  assert (Hlen : 0 <= TextDocument.lineLength d (Position.line p))
    by (unfold TextDocument.lineLength; lia).
  destruct (0 <? TextDocument.lineLength d (Position.line p)) eqn:E; [reflexivity|].
  apply Z.ltb_ge in E.
  replace (TextDocument.lineLength d (Position.line p)) with 0 by lia.
  reflexivity.
Qed.

Lemma with_start_before (n c len : Z) :
  c < len ->
  Range.with_start (Range.mk (Position.mk n 0) (Position.mk n len)) (Position.mk n c)
  = Range.mk (Position.mk n c) (Position.mk n len).
Proof.
  intros H. unfold Range.with_start, Range.new, Position.isBefore. simpl.
  rewrite Z.ltb_irrefl, Z.eqb_refl. simpl.
  destruct (c <? len) eqn:E; [reflexivity|]. apply Z.ltb_ge in E. lia.
Qed.

Lemma with_start_at_end (n len : Z) :
  Range.with_start (Range.mk (Position.mk n 0) (Position.mk n len)) (Position.mk n len)
  = Range.mk (Position.mk n len) (Position.mk n len).
Proof.
  unfold Range.with_start, Range.new, Position.isBefore. simpl.
  rewrite Z.ltb_irrefl, Z.eqb_refl. simpl. now rewrite Z.ltb_irrefl.
Qed.

(** X4.  The lenses that a call adds for a symbol are anchored at the end of
    the symbol's first line, of length [len] in the editor's columns (UTF-16
    code units): the recent change lens on the last column, from [len - 1] to
    [len]; the authors lens on the empty range at column [len] when the
    recent change lens comes before it, and on the last column otherwise. *)
Theorem lenses_are_anchored_at_the_end_of_the_line
  this gitUri document symbol languageLocation blame st st' r :
  _validateSymbolAndGetBlameRange document symbol languageLocation = Some r ->
  lastLensStartsAtLine (Pass.lenses st) (symbolLine symbol) = false ->
  _provideCodeLens this gitUri document symbol languageLocation blame st = Some st' ->
  let n := symbolLine symbol in
  let len := TextDocument.lineLength document n in
  let kind := SymbolInformation.kind symbol in
  let cell := List.length (Pass.cells st) in
  added st st'
  = (if wantsRecentChange this
     then [GitRecentChangeCodeLens cell gitUri kind r false
             (Range.mk (Position.mk n (len - 1)) (Position.mk n len))]
     else [])
    ++ (if authorsEnabled this && authorsMultiline document kind r
           && negb (GitCodeLensProvider._documentIsDirty this)
        then [GitAuthorsCodeLens cell gitUri kind r false
                (Range.mk
                   (Position.mk n (if wantsRecentChange this then len else len - 1))
                   (Position.mk n len))]
        else []).
Proof.
  intros Hv Hll Hstep n len kind cell.
  destruct (TextDocument.lineAt document (Range.start (symbolRange symbol)))
    as [line|] eqn:Hl.
  2: { unfold _provideCodeLens in Hstep.
       change (Location.range (SymbolInformation.location symbol))
         with (symbolRange symbol) in Hstep.
       rewrite Hv, Hl in Hstep. discriminate. }
  destruct (lineAt_Some _ _ _ Hl) as (Hnum & _).
  pose proof (lineAt_range _ _ _ Hl) as Hrange.
  fold (symbolLine symbol) in Hnum, Hrange. fold n in Hnum, Hrange.
  fold len in Hrange.
  unfold _provideCodeLens in Hstep.
  change (Location.range (SymbolInformation.location symbol))
    with (symbolRange symbol) in Hstep.
  rewrite Hv, Hl in Hstep. simpl in Hstep.
  rewrite Hnum in Hstep. fold n in Hll. rewrite Hll in Hstep.
  rewrite Hrange in Hstep. cbn [Range.start Range.end_ Position.line Position.character]
    in Hstep.
  fold kind in Hstep. unfold wantsRecentChange, authorsEnabled.
  destruct st as [ls cs]. unfold added. cbn [Pass.lenses Pass.cells] in *.
  destruct (GitCodeLensProvider._documentIsDirty this) eqn:Ed;
    destruct (ICodeLensConfig.enabled (IConfig.recentChange (GitCodeLensProvider._config this))) eqn:Er;
    destruct (ICodeLensConfig.enabled (IConfig.authors (GitCodeLensProvider._config this))) eqn:Ea;
    destruct (authorsMultiline document kind r) eqn:Em; simpl in Hstep |- *;
    repeat match type of Hstep with
    | context [Position.new ?l ?c] =>
      let E := fresh "E" in
      destruct (Position.new l c) eqn:E; simpl in Hstep; [|discriminate];
      apply Position_new_Some in E; destruct E as (-> & _ & ?)
    end;
    inversion Hstep; subst; clear Hstep; cbn [Pass.lenses];
    rewrite ?drop_app_length, <- ?app_assoc, ?drop_app_length;
    try (rewrite <- (app_nil_r ls) at 2; rewrite drop_app_length);
    rewrite ?Z.sub_add, ?with_start_at_end, ?with_start_before by lia;
    reflexivity.
Qed.

Lemma lenses_are_anchored_at_the_end_of_the_line_witness :
  (exists st',
     _provideCodeLens
       (Samples.provider (Samples.config true true [CodeLensLocations.Blocks]))
       Samples.uri (Samples.doc "typescript" false)
       (Samples.symbolAt SymbolKind.Method 6 7) Samples.blocks Samples.blame
       Samples.emptyPass = Some st'
     /\ map CodeLens.range (added Samples.emptyPass st')
        = [Range.new4 6 11 6 12; Range.new4 6 12 6 12])
  /\ String.length (TextDocument.lineText Samples.accentedDoc 0) = 13%nat
  /\ TextDocument.lineLength Samples.accentedDoc 0 = 12
  /\ (exists st',
        _provideCodeLens
          (Samples.provider (Samples.config true true [CodeLensLocations.Containers]))
          Samples.uri Samples.accentedDoc
          (Samples.symbolAt SymbolKind.Class 0 2) Samples.containers Samples.blame
          Samples.emptyPass = Some st'
        /\ map CodeLens.range (added Samples.emptyPass st')
           = [Range.new4 0 11 0 12; Range.new4 0 12 0 12]).
Proof.
  split; [|split; [reflexivity|split; [reflexivity|]]].
  - eexists. split; [vm_compute; reflexivity|].
    match goal with
    | |- context [added _ ?s] =>
      rewrite (lenses_are_anchored_at_the_end_of_the_line
                 (Samples.provider (Samples.config true true [CodeLensLocations.Blocks]))
                 Samples.uri (Samples.doc "typescript" false)
                 (Samples.symbolAt SymbolKind.Method 6 7) Samples.blocks Samples.blame
                 Samples.emptyPass s
                 (symbolRange (Samples.symbolAt SymbolKind.Method 6 7))
                 eq_refl eq_refl eq_refl)
    end.
    vm_compute. reflexivity.
  - eexists. split; [vm_compute; reflexivity|].
    match goal with
    | |- context [added _ ?s] =>
      rewrite (lenses_are_anchored_at_the_end_of_the_line
                 (Samples.provider
                    (Samples.config true true [CodeLensLocations.Containers]))
                 Samples.uri Samples.accentedDoc
                 (Samples.symbolAt SymbolKind.Class 0 2) Samples.containers
                 Samples.blame Samples.emptyPass s
                 (symbolRange (Samples.symbolAt SymbolKind.Class 0 2))
                 eq_refl eq_refl eq_refl)
    end.
    vm_compute. reflexivity.
Defined.

(** ** Symbols that cannot carry an anchor *)

Lemma provideCodeLens_outside this gitUri document symbol languageLocation blame st r :
  _validateSymbolAndGetBlameRange document symbol languageLocation = Some r ->
  ~ (0 <= symbolLine symbol < TextDocument.lineCount document) ->
  _provideCodeLens this gitUri document symbol languageLocation blame st = None.
Proof.
  intros Hv Hout. unfold _provideCodeLens.
  change (Location.range (SymbolInformation.location symbol))
    with (symbolRange symbol).
  rewrite Hv.
  destruct (TextDocument.lineAt document (Range.start (symbolRange symbol)))
    as [line|] eqn:Hl; [|reflexivity].
  destruct (lineAt_Some _ _ _ Hl) as (_ & Hin & _). contradiction.
Qed.

Lemma forEachSymbol_throws this gitUri document languageLocation blame symbols symbol :
  In symbol symbols ->
  (forall st, _provideCodeLens this gitUri document symbol languageLocation blame st
              = None) ->
  forall st, forEachSymbol this gitUri document languageLocation blame symbols st = None.
Proof.
  intros Hin Hthrow. induction symbols as [|s rest IH]; intros st; [destruct Hin|].
  simpl. destruct Hin as [-> | Hin].
  - now rewrite Hthrow.
  - destruct (_provideCodeLens this gitUri document s languageLocation blame st);
      simpl; [now apply IH|reflexivity].
Qed.

(** X5.  An eligible symbol that starts outside the lines of the document
    makes [_provideCodeLens] throw at [lineAt], and when the blame holds a
    line the whole pass fails with it: the lenses made for the symbols before
    it are not returned. *)
Theorem symbol_outside_the_document_fails_the_pass
  this document gitUri b symbols symbol r :
  let languageLocations :=
    languageLocationsOf (GitCodeLensProvider._config this) document in
  GitBlame.lines b <> [] ->
  In symbol symbols ->
  _validateSymbolAndGetBlameRange document symbol languageLocations = Some r ->
  ~ (0 <= symbolLine symbol < TextDocument.lineCount document) ->
  (forall this0 st,
     _provideCodeLens this0 gitUri document symbol languageLocations b st = None)
  /\ snd (provideCodeLenses this document gitUri (Some b) symbols) = None.
Proof.
  intros languageLocations Hlines Hin Hv Hout.
  assert (Hthrow : forall this0 st,
            _provideCodeLens this0 gitUri document symbol languageLocations b st = None)
    by (intros; eapply provideCodeLens_outside; eassumption).
  split; [exact Hthrow|].
  unfold provideCodeLenses. cbn [snd]. cbn zeta. cbn [GitCodeLensProvider._config].
  fold languageLocations. fold (documentOnly languageLocations).
  destruct (documentOnly languageLocations) eqn:Hdoc.
  { rewrite (documentOnly_not_valid _ _ _ Hdoc) in Hv. discriminate. }
  assert (Hmiss : blameIsMissing (Some b) = false).
  { simpl. destruct (GitBlame.lines b); [congruence|reflexivity]. }
  rewrite Hmiss.
  rewrite (forEachSymbol_throws _ _ _ _ _ _ _ Hin (Hthrow _)). reflexivity.
Qed.

Lemma symbol_outside_the_document_fails_the_pass_witness :
  snd (provideCodeLenses
         (Samples.provider (Samples.config true true [CodeLensLocations.Blocks]))
         (Samples.doc "typescript" false) Samples.uri (Some Samples.blame)
         (Samples.inOrder ++ [Samples.beyondTheEnd])) = None.
Proof.
  apply (symbol_outside_the_document_fails_the_pass
           (Samples.provider (Samples.config true true [CodeLensLocations.Blocks]))
           (Samples.doc "typescript" false) Samples.uri Samples.blame
           (Samples.inOrder ++ [Samples.beyondTheEnd]) Samples.beyondTheEnd
           (symbolRange Samples.beyondTheEnd)).
  - discriminate.
  - apply in_or_app. right. now left.
  - reflexivity.
  - vm_compute. intros [_ H]. discriminate.
Defined.

(** X6.  An eligible symbol that starts on an empty line of the document,
    with no lens on that line just before it: the call throws, at
    [new Position] with column -1, as soon as it has a lens to add, and
    returns without a change when it has none. *)
Theorem symbol_on_an_empty_line_throws
  this gitUri document symbol languageLocation blame st r :
  _validateSymbolAndGetBlameRange document symbol languageLocation = Some r ->
  0 <= symbolLine symbol < TextDocument.lineCount document ->
  TextDocument.lineLength document (symbolLine symbol) = 0 ->
  lastLensStartsAtLine (Pass.lenses st) (symbolLine symbol) = false ->
  _provideCodeLens this gitUri document symbol languageLocation blame st
  = if wantsRecentChange this
       || (authorsEnabled this
           && authorsMultiline document (SymbolInformation.kind symbol) r)
    then None else Some st.
Proof.
  intros Hv Hin Hlen Hll.
  destruct (lineAt_in_document document (Range.start (symbolRange symbol)) Hin)
    as [line Hl].
  destruct (lineAt_Some _ _ _ Hl) as (Hnum & _).
  pose proof (lineAt_range _ _ _ Hl) as Hrange.
  fold (symbolLine symbol) in Hnum, Hrange. rewrite Hlen in Hrange.
  unfold _provideCodeLens.
  change (Location.range (SymbolInformation.location symbol))
    with (symbolRange symbol).
  rewrite Hv, Hl. simpl. rewrite Hnum, Hll, Hrange.
  cbn [Range.start Range.end_ Position.line Position.character].
  assert (Hneg : forall l, Position.new l (0 - 1) = None).
  { intros l. unfold Position.new. now rewrite orb_true_r. }
  unfold wantsRecentChange, authorsEnabled. destruct st as [ls cs].
  destruct (GitCodeLensProvider._documentIsDirty this),
    (ICodeLensConfig.enabled (IConfig.recentChange (GitCodeLensProvider._config this))),
    (ICodeLensConfig.enabled (IConfig.authors (GitCodeLensProvider._config this))),
    (authorsMultiline document (SymbolInformation.kind symbol) r);
    simpl; rewrite ?Hneg; reflexivity.
Qed.

Lemma symbol_on_an_empty_line_throws_witness :
  _provideCodeLens
    (Samples.provider (Samples.config true true [CodeLensLocations.Blocks]))
    Samples.uri Samples.gapDoc (Samples.symbolAt SymbolKind.Method 1 2)
    Samples.blocks Samples.blame Samples.emptyPass = None.
Proof.
  rewrite (symbol_on_an_empty_line_throws
             (Samples.provider (Samples.config true true [CodeLensLocations.Blocks]))
             Samples.uri Samples.gapDoc (Samples.symbolAt SymbolKind.Method 1 2)
             Samples.blocks Samples.blame Samples.emptyPass
             (symbolRange (Samples.symbolAt SymbolKind.Method 1 2))).
  - reflexivity.
  - reflexivity.
  - vm_compute. split; congruence.
  - reflexivity.
  - reflexivity.
Defined.

(** ** Where the lenses of a pass come from *)

Lemma fromSymbol_more document languageLocation symbols more l :
  fromSymbol document languageLocation symbols l ->
  (forall s, In s symbols -> In s more) ->
  fromSymbol document languageLocation more l.
Proof.
  intros (Hfull & symbol & Hin & H) Hsub. split; [assumption|].
  exists symbol. split; [now apply Hsub|assumption].
Qed.

Lemma fromSymbol_step this gitUri document symbol languageLocation b st st' :
  _provideCodeLens this gitUri document symbol languageLocation b st = Some st' ->
  Pass.lenses st' = Pass.lenses st ++ added st st'
  /\ List.Forall (fromSymbol document languageLocation [symbol]) (added st st').
Proof.
  intros Hstep.
  destruct (_validateSymbolAndGetBlameRange document symbol languageLocation)
    as [r|] eqn:Hv.
  - destruct (provideCodeLens_added _ _ _ _ _ _ _ _ _ Hstep Hv) as [Happ Hall].
    split; [assumption|].
    eapply List.Forall_impl; [|exact Hall].
    intros l (_ & _ & Hkind & Hrange & Hfull & [Hline _] & _).
    split; [assumption|]. exists symbol.
    split; [now left|]. split; [assumption|]. split; [exact Hline|].
    now rewrite Hrange.
  - rewrite provideCodeLens_not_valid in Hstep by assumption.
    inversion Hstep; subst. rewrite added_same, app_nil_r.
    split; [reflexivity|constructor].
Qed.

Lemma fromSymbol_walk this gitUri document languageLocation b symbols :
  forall st st',
    forEachSymbol this gitUri document languageLocation b symbols st = Some st' ->
    exists new,
      Pass.lenses st' = Pass.lenses st ++ new
      /\ List.Forall (fromSymbol document languageLocation symbols) new.
Proof.
  induction symbols as [|sym rest IH]; intros st st' Hrun; simpl in Hrun.
  - inversion Hrun; subst. exists []. rewrite app_nil_r. split; [reflexivity|constructor].
  - destruct (_provideCodeLens this gitUri document sym languageLocation b st)
      as [st1|] eqn:Hstep; simpl in Hrun; [|discriminate].
    destruct (fromSymbol_step _ _ _ _ _ _ _ _ Hstep) as [Happ Hall].
    destruct (IH _ _ Hrun) as (new & Hnew & Hall').
    exists (added st st1 ++ new). split.
    + rewrite Hnew, Happ. now rewrite app_assoc.
    + apply List.Forall_app. split.
      * eapply List.Forall_impl; [|exact Hall].
        intros l Hl. eapply fromSymbol_more; [exact Hl|].
        intros s [<-|[]]. now left.
      * eapply List.Forall_impl; [|exact Hall'].
        intros l Hl. eapply fromSymbol_more; [exact Hl|].
        intros s Hs. now right.
Qed.

Lemma forDocument_added this gitUri document languageLocations b st :
  let st' := provideDocumentLens this gitUri document languageLocations b st in
  Pass.lenses st' = Pass.lenses st ++ added st st'
  /\ List.Forall (forDocument document) (added st st')
  /\ (List.length (added st st') <= 2)%nat
  /\ (existsb onLineZero (Pass.lenses st) = true -> added st st' = []).
Proof.
  intros st'. subst st'.
  destruct (provideDocumentLens_cases this gitUri document languageLocations b st)
    as [(_ & ->) | [(_ & _ & ->) | (_ & Hex & Hlenses & _)]].
  1, 2: (rewrite added_same, app_nil_r; repeat split; try constructor; simpl; lia).
  rewrite (added_app _ _ _ Hlenses). split; [exact Hlenses|].
  split; [|split].
  - destruct (wantsRecentChange this), (_ && _); simpl; repeat constructor;
      unfold anchorLine; simpl; apply new4_anchor_zero.
  - destruct (wantsRecentChange this), (_ && _); simpl; lia.
  - congruence.
Qed.

(** X7.  The lenses of a pass are the lenses made for symbols, followed by at
    most two lenses made for the whole document.
    Each lens made for a symbol has the kind, the starting line and the blame
    range of an eligible symbol of the list and is not marked as covering the
    whole document; each lens made for the document is of kind File, on line
    0, with the range of the whole document; and none is made for the
    document when a lens made for a symbol already lies on line 0. *)
Theorem lenses_come_from_eligible_symbols_then_the_document
  this document gitUri blame symbols this' p :
  provideCodeLenses this document gitUri blame symbols = (this', Some p) ->
  exists symbolLenses documentLenses,
    Pass.lenses p = symbolLenses ++ documentLenses
    /\ List.Forall
         (fromSymbol document
            (languageLocationsOf (GitCodeLensProvider._config this) document)
            symbols)
         symbolLenses
    /\ List.Forall (forDocument document) documentLenses
    /\ (List.length documentLenses <= 2)%nat
    /\ (existsb onLineZero symbolLenses = true -> documentLenses = []).
Proof.
  intros Hrun.
  destruct (provideCodeLenses_cases _ _ _ _ _ _ _ Hrun)
    as (_ & [(_ & ->) | (b & st & _ & _ & -> & Hst)]).
  - exists [], []. simpl. repeat split; try constructor. lia.
  - set (ll := languageLocationsOf (GitCodeLensProvider._config this) document) in *.
    destruct (forDocument_added this' gitUri document ll b st)
      as (Happ & Hall & Hlen & Hzero).
    assert (Hsym : List.Forall (fromSymbol document ll symbols) (Pass.lenses st)).
    { destruct Hst as [(_ & ->) | (_ & Hwalk)]; [constructor|].
      destruct (fromSymbol_walk _ _ _ _ _ _ _ _ Hwalk) as (new & Hnew & Hall').
      simpl in Hnew. now rewrite Hnew. }
    exists (Pass.lenses st), (added st (provideDocumentLens this' gitUri document ll b st)).
    repeat split; assumption.
Qed.

Lemma lenses_come_from_eligible_symbols_then_the_document_witness :
  exists symbolLenses documentLenses,
    (Pass.lenses <$>
       snd (provideCodeLenses
              (Samples.provider
                 (Samples.config true true
                    [CodeLensLocations.Document; CodeLensLocations.Blocks]))
              (Samples.doc "typescript" false) Samples.uri (Some Samples.blame)
              Samples.inOrder))
    = Some (symbolLenses ++ documentLenses)
    /\ List.Forall (forDocument (Samples.doc "typescript" false)) documentLenses
    /\ (List.length documentLenses <= 2)%nat.
Proof.
  destruct (lenses_come_from_eligible_symbols_then_the_document
              (Samples.provider
                 (Samples.config true true
                    [CodeLensLocations.Document; CodeLensLocations.Blocks]))
              (Samples.doc "typescript" false) Samples.uri (Some Samples.blame)
              Samples.inOrder _ _ eq_refl)
    as (symbolLenses & documentLenses & Hp & _ & Hdoc & Hlen & _).
  exists symbolLenses, documentLenses.
  split; [|split; assumption].
  simpl. f_equal. exact Hp.
Defined.

(** ** How many lenses and memoized functions *)

Lemma counts_step this gitUri document symbol languageLocation b st st' :
  _provideCodeLens this gitUri document symbol languageLocation b st = Some st' ->
  exists kl kc : nat,
    List.length (Pass.lenses st') = (List.length (Pass.lenses st) + kl)%nat
    /\ List.length (Pass.cells st') = (List.length (Pass.cells st) + kc)%nat
    /\ (kc <= kl <= 2 * kc)%nat /\ (kc <= 1)%nat.
Proof.
  intros Hstep.
  destruct (provideCodeLens_cases _ _ _ _ _ _ _ _ Hstep)
    as [(_ & ->) | (r & line & Hv & Hl &
                    [(_ & ->) | (_ & rRC & rAU & Hlenses & Hcells & _ & _)])].
  1, 2: (exists 0%nat, 0%nat; lia).
  rewrite Hlenses, Hcells, !length_app. unfold wantsRecentChange.
  destruct (GitCodeLensProvider._documentIsDirty this),
    (ICodeLensConfig.enabled (IConfig.recentChange (GitCodeLensProvider._config this))),
    (authorsEnabled this),
    (authorsMultiline document (SymbolInformation.kind symbol) r); simpl;
    first [ exists 0%nat, 0%nat; lia | exists 1%nat, 1%nat; lia
          | exists 2%nat, 1%nat; lia ].
Qed.

Lemma counts_walk this gitUri document languageLocation b symbols :
  forall st st',
    forEachSymbol this gitUri document languageLocation b symbols st = Some st' ->
    exists kl kc : nat,
      List.length (Pass.lenses st') = (List.length (Pass.lenses st) + kl)%nat
      /\ List.length (Pass.cells st') = (List.length (Pass.cells st) + kc)%nat
      /\ (kc <= kl <= 2 * kc)%nat /\ (kc <= List.length symbols)%nat.
Proof.
  induction symbols as [|sym rest IH]; intros st st' Hrun; simpl in Hrun.
  - inversion Hrun; subst. exists 0%nat, 0%nat. simpl. lia.
  - destruct (_provideCodeLens this gitUri document sym languageLocation b st)
      as [st1|] eqn:Hstep; simpl in Hrun; [|discriminate].
    destruct (counts_step _ _ _ _ _ _ _ _ Hstep) as (kl & kc & Hl & Hc & Hb & Hone).
    destruct (IH _ _ Hrun) as (kl' & kc' & Hl' & Hc' & Hb' & Hn).
    exists (kl + kl')%nat, (kc + kc')%nat. simpl. lia.
Qed.

Lemma counts_document this gitUri document languageLocations b st :
  let st' := provideDocumentLens this gitUri document languageLocations b st in
  exists kl kc : nat,
    List.length (Pass.lenses st') = (List.length (Pass.lenses st) + kl)%nat
    /\ List.length (Pass.cells st') = (List.length (Pass.cells st) + kc)%nat
    /\ (kc <= kl <= 2 * kc)%nat /\ (kc <= 1)%nat.
Proof.
  intros st'. subst st'.
  destruct (provideDocumentLens_cases this gitUri document languageLocations b st)
    as [(_ & ->) | [(_ & _ & ->) | (_ & _ & Hlenses & Hcells)]].
  1, 2: (exists 0%nat, 0%nat; lia).
  rewrite Hlenses, Hcells, !length_app. unfold wantsRecentChange.
  destruct (GitCodeLensProvider._documentIsDirty this),
    (ICodeLensConfig.enabled (IConfig.recentChange (GitCodeLensProvider._config this))),
    (authorsEnabled this); simpl;
    first [ exists 0%nat, 0%nat; lia | exists 1%nat, 1%nat; lia
          | exists 2%nat, 1%nat; lia ].
Qed.

Lemma holders_app (i : nat) (a b : list CodeLens.t) :
  holders i (a ++ b) = (holders i a + holders i b)%nat.
Proof. unfold holders. now rewrite List.filter_app, List.length_app. Qed.

Lemma holders_none (i : nat) (ls : list CodeLens.t) :
  List.Forall (fun l => CodeLens.blame l <> i) ls -> holders i ls = 0%nat.
Proof.
  unfold holders. induction 1 as [|l ls Hl _ IH]; [reflexivity|].
  simpl. apply Nat.eqb_neq in Hl. now rewrite Hl.
Qed.

Lemma holders_all (i : nat) (ls : list CodeLens.t) :
  List.Forall (fun l => CodeLens.blame l = i) ls -> holders i ls = List.length ls.
Proof.
  unfold holders. induction 1 as [|l ls Hl _ IH]; [reflexivity|].
  simpl. apply Nat.eqb_eq in Hl. rewrite Hl. simpl. now rewrite IH.
Qed.

(** Lenses that hold the function memoized last, one or two of them with one
    new function, or none of either. *)
Lemma held_extend (ls new : list CodeLens.t) (cs newc : list BlameCell) :
  Held (Pass.mk ls cs) ->
  List.Forall (fun l => CodeLens.blame l = List.length cs) new ->
  ((new = [] /\ newc = [])
   \/ (List.length newc = 1 /\ 1 <= List.length new <= 2)%nat) ->
  Held (Pass.mk (ls ++ new) (cs ++ newc)).
Proof.
  intros [Hlt Hheld] Hnew Hcase. simpl in Hlt, Hheld.
  rewrite List.Forall_forall in Hlt, Hnew.
  unfold Held. cbn [Pass.lenses Pass.cells]. rewrite List.length_app. split.
  - apply List.Forall_forall. intros l Hl. apply in_app_or in Hl.
    destruct Hl as [Hl|Hl].
    + specialize (Hlt l Hl). simpl in Hlt. lia.
    + destruct Hcase as [[-> _] | [Hc _]]; [contradiction|].
      rewrite (Hnew l Hl). lia.
  - intros i Hi. rewrite holders_app.
    destruct Hcase as [[-> ->] | [Hc Hn]].
    + simpl in Hi. rewrite Nat.add_0_r in Hi. specialize (Hheld i Hi).
      change (holders i []) with 0%nat. lia.
    + destruct (Nat.eq_dec i (List.length cs)) as [->|Hne].
      * rewrite (holders_none (List.length cs) ls), (holders_all (List.length cs) new).
        -- lia.
        -- apply List.Forall_forall. exact Hnew.
        -- apply List.Forall_forall. intros l Hl. specialize (Hlt l Hl).
           simpl in Hlt. lia.
      * rewrite (holders_none i new).
        -- assert (Hi' : (i < List.length cs)%nat) by lia.
           specialize (Hheld i Hi'). lia.
        -- apply List.Forall_forall. intros l Hl. rewrite (Hnew l Hl). lia.
Qed.

Lemma held_step this gitUri document symbol languageLocation b st st' :
  _provideCodeLens this gitUri document symbol languageLocation b st = Some st' ->
  Held st -> Held st'.
Proof.
  intros Hstep Hheld.
  destruct (provideCodeLens_cases _ _ _ _ _ _ _ _ Hstep)
    as [(_ & ->) | (r & line & Hv & Hl &
                    [(_ & ->) | (_ & rRC & rAU & Hlenses & Hcells & _ & _)])];
    try assumption.
  destruct st as [ls cs], st' as [ls' cs']. cbn [Pass.lenses Pass.cells] in *.
  subst ls' cs'. unfold wantsRecentChange.
  destruct (GitCodeLensProvider._documentIsDirty this),
    (ICodeLensConfig.enabled (IConfig.recentChange (GitCodeLensProvider._config this))),
    (authorsEnabled this),
    (authorsMultiline document (SymbolInformation.kind symbol) r);
    cbn [orb andb negb app];
    (apply held_extend;
     [ assumption
     | repeat constructor
     | first [ left; split; reflexivity | right; simpl; lia ] ]).
Qed.

Lemma held_walk this gitUri document languageLocation b symbols :
  forall st st',
    forEachSymbol this gitUri document languageLocation b symbols st = Some st' ->
    Held st -> Held st'.
Proof.
  induction symbols as [|sym rest IH]; intros st st' Hrun Hheld; simpl in Hrun.
  - inversion Hrun; subst. assumption.
  - destruct (_provideCodeLens this gitUri document sym languageLocation b st)
      as [st1|] eqn:Hstep; simpl in Hrun; [|discriminate].
    apply (IH _ _ Hrun). exact (held_step _ _ _ _ _ _ _ _ Hstep Hheld).
Qed.

Lemma held_document this gitUri document languageLocations b st :
  Held st -> Held (provideDocumentLens this gitUri document languageLocations b st).
Proof.
  intros Hheld.
  destruct (provideDocumentLens_cases this gitUri document languageLocations b st)
    as [(_ & ->) | [(_ & _ & ->) | (_ & _ & Hlenses & Hcells)]]; try assumption.
  destruct st as [ls cs],
    (provideDocumentLens this gitUri document languageLocations b (Pass.mk ls cs))
    as [ls' cs'].
  cbn [Pass.lenses Pass.cells] in *. subst ls' cs'. unfold wantsRecentChange.
  destruct (GitCodeLensProvider._documentIsDirty this),
    (ICodeLensConfig.enabled (IConfig.recentChange (GitCodeLensProvider._config this))),
    (authorsEnabled this);
    cbn [orb andb negb app];
    (apply held_extend;
     [ assumption
     | repeat constructor
     | first [ left; split; reflexivity | right; simpl; lia ] ]).
Qed.

Lemma held_nil : Held (Pass.mk [] []).
Proof. split; [constructor|]. simpl. intros i Hi. lia. Qed.

(** X8.  Every lens of a pass holds one of the functions the pass memoized,
    and every memoized function is held by one lens of the pass or by two (a
    function is memoized only together with a lens that holds it); so there
    are at least as many lenses as memoized functions and at most twice as
    many, and at most one function for each symbol and one for the whole
    document. *)
Theorem every_memoized_function_is_held_by_one_or_two_lenses
  this document gitUri blame symbols this' p :
  provideCodeLenses this document gitUri blame symbols = (this', Some p) ->
  (forall l, In l (Pass.lenses p) ->
             (CodeLens.blame l < List.length (Pass.cells p))%nat)
  /\ (forall i, (i < List.length (Pass.cells p))%nat ->
                (1 <= holders i (Pass.lenses p) <= 2)%nat)
  /\ (List.length (Pass.cells p) <= List.length (Pass.lenses p)
      <= 2 * List.length (Pass.cells p))%nat
  /\ (List.length (Pass.cells p) <= List.length symbols + 1)%nat.
Proof.
  intros Hrun.
  assert (Hheld : Held p).
  { destruct (provideCodeLenses_cases _ _ _ _ _ _ _ Hrun)
      as (_ & [(_ & ->) | (b & st & _ & _ & -> & Hst)]); [exact held_nil|].
    apply held_document.
    destruct Hst as [(_ & ->) | (_ & Hwalk)]; [exact held_nil|].
    exact (held_walk _ _ _ _ _ _ _ _ Hwalk held_nil). }
  destruct Hheld as [Hlt Hone].
  split; [rewrite List.Forall_forall in Hlt; exact Hlt|].
  split; [exact Hone|].
  destruct (provideCodeLenses_cases _ _ _ _ _ _ _ Hrun)
    as (_ & [(_ & ->) | (b & st & _ & _ & -> & Hst)]).
  - simpl. lia.
  - destruct (counts_document this' gitUri document
                (languageLocationsOf (GitCodeLensProvider._config this) document) b st)
      as (kl & kc & Hl & Hc & Hb & Hone').
    destruct Hst as [(_ & ->) | (_ & Hwalk)].
    + simpl in Hl, Hc. lia.
    + destruct (counts_walk _ _ _ _ _ _ _ _ Hwalk) as (kl' & kc' & Hl' & Hc' & Hb' & Hn).
      simpl in Hl', Hc'. lia.
Qed.

Lemma every_memoized_function_is_held_by_one_or_two_lenses_witness :
  exists p,
    snd (provideCodeLenses
           (Samples.provider (Samples.config true true [CodeLensLocations.Blocks]))
           (Samples.doc "typescript" false) Samples.uri (Some Samples.blame)
           Samples.inOrder) = Some p
    /\ map CodeLens.blame (Pass.lenses p) = [0; 0; 1; 2; 2]%nat
    /\ List.length (Pass.cells p) = 3%nat
    /\ (forall i, (i < 3)%nat -> (1 <= holders i (Pass.lenses p) <= 2)%nat)
    /\ (List.length (Pass.cells p) <= List.length (Pass.lenses p)
        <= 2 * List.length (Pass.cells p))%nat.
Proof.
  eexists. split; [vm_compute; reflexivity|].
  split; [vm_compute; reflexivity|]. split; [vm_compute; reflexivity|].
  match goal with
  | |- context [Pass.lenses ?p] =>
    destruct (every_memoized_function_is_held_by_one_or_two_lenses
                (Samples.provider (Samples.config true true [CodeLensLocations.Blocks]))
                (Samples.doc "typescript" false) Samples.uri (Some Samples.blame)
                Samples.inOrder
                (Samples.provider (Samples.config true true [CodeLensLocations.Blocks]))
                p ltac:(vm_compute; reflexivity))
      as (_ & Hone & Hcount & _)
  end.
  split; [exact Hone|exact Hcount].
Defined.

(** ** What resolution does to a lens *)

Lemma sameButCommand_refl (l : CodeLens.t) : sameButCommand l l.
Proof. repeat split. Qed.

Lemma sameButCommand_set (l : CodeLens.t) (c : Command.t) :
  sameButCommand l (CodeLens.setCommand l c).
Proof. repeat split. Qed.

Lemma applyConfiguredCommand_result configured title lens blame commit lens' :
  applyConfiguredCommand configured title lens blame commit = Some lens' ->
  sameButCommand lens lens'
  /\ ((configured = None /\ lens' = lens)
      \/ exists c, CodeLens.command lens' = Some c
                   /\ Command.title c = title /\ actsOnFileOf lens c).
Proof.
  intros H. destruct configured as [[]|]; simpl in H;
    try (inversion H; subst; clear H;
         split; [apply sameButCommand_set || apply sameButCommand_refl|];
         first [ left; split; reflexivity
               | right; eexists; split; [reflexivity|]; split; [reflexivity|];
                 split; [eexists; reflexivity | eexists; reflexivity] ]).
  unfold _applyDiffWithPreviousCommand in H.
  destruct commit as [c|]; simpl in H.
  - inversion H; subst; clear H. split; [apply sameButCommand_set|].
    right. eexists. split; [reflexivity|]. split; [reflexivity|].
    split; [eexists; reflexivity | eexists; reflexivity].
  - destruct (Position.line (Range.start (CodeLens.range lens)) <? 0); simpl in H;
      [discriminate|].
    destruct (GitBlameLines.allLines blame !! _); simpl in H; [|discriminate].
    inversion H; subst; clear H. split; [apply sameButCommand_set|].
    right. eexists. split; [reflexivity|]. split; [reflexivity|].
    split; [eexists; reflexivity | eexists; reflexivity].
Qed.

Section Resolution.
Context {W : Type}.
Variable getBlameForRangeSync :
  GitBlame.t -> GitUri.t -> Range.t -> W -> option GitBlameLines.t * W.

Lemma getBlame_store lens (st st' : ResolveState) r :
  getBlame getBlameForRangeSync lens st = Some (r, st') ->
  List.length (Functions.cells st') = List.length (Functions.cells st)
  /\ (st' = st \/ Functions.runs st' = Functions.runs st ++ [CodeLens.blame lens]).
Proof.
  unfold getBlame, Functions.call. intros H.
  destruct (Functions.cells st !! CodeLens.blame lens) as [c|]; [|discriminate].
  destruct (Functions.result c).
  - inversion H; subst. split; [reflexivity|now left].
  - destruct (runBlameThunk getBlameForRangeSync (Functions.fn c) (Functions.world st))
      as [v w'].
    inversion H; subst; clear H. simpl. split; [apply length_insert|now right].
Qed.

Lemma resolveRecentChange_cases this lens (st st' : ResolveState) lens' :
  _resolveGitRecentChangeCodeLens getBlameForRangeSync this lens st = Some (lens', st') ->
  (GitCodeLensProvider._documentIsDirty this = true /\ st' = st
   /\ exists title, lens' = CodeLens.setCommand lens (Command.mk title None None))
  \/ (GitCodeLensProvider._documentIsDirty this = false
      /\ getBlame getBlameForRangeSync lens st = Some (None, st') /\ lens' = lens)
  \/ (GitCodeLensProvider._documentIsDirty this = false
      /\ exists blame commit title,
           getBlame getBlameForRangeSync lens st = Some (Some blame, st')
           /\ Iterables.first (JsMap_values (GitBlameLines.commits blame)) = Some commit
           /\ applyConfiguredCommand
                (ICodeLensConfig.command
                   (IConfig.recentChange (GitCodeLensProvider._config this)))
                title lens blame (Some commit) = Some lens').
Proof.
  unfold _resolveGitRecentChangeCodeLens. intros H.
  destruct (GitCodeLensProvider._documentIsDirty this).
  - inversion H; subst. left. repeat split. eexists. reflexivity.
  - right.
    destruct (getBlame getBlameForRangeSync lens st) as [[[blame|] st1]|] eqn:Hg;
      simpl in H; try discriminate.
    + right. split; [reflexivity|].
      destruct (Iterables.first (JsMap_values (GitBlameLines.commits blame)))
        as [commit|] eqn:Hf; simpl in H; [|discriminate].
      match type of H with
      | context [applyConfiguredCommand ?c ?t ?l ?b ?k] =>
        destruct (applyConfiguredCommand c t l b k) as [lens1|] eqn:Ha;
          simpl in H; [|discriminate];
          inversion H; subst; clear H;
          exists blame, commit, t; split; [reflexivity|]; split; assumption
      end.
    + inversion H; subst. left. repeat split.
Qed.

Lemma resolveAuthors_cases this lens (st st' : ResolveState) lens' :
  _resolveGitAuthorsCodeLens getBlameForRangeSync this lens st = Some (lens', st') ->
  (getBlame getBlameForRangeSync lens st = Some (None, st') /\ lens' = lens)
  \/ exists blame author title,
       getBlame getBlameForRangeSync lens st = Some (Some blame, st')
       /\ Iterables.first (JsMap_values (GitBlameLines.authors blame)) = Some author
       /\ applyConfiguredCommand
            (ICodeLensConfig.command
               (IConfig.authors (GitCodeLensProvider._config this)))
            title lens blame None = Some lens'.
Proof.
  unfold _resolveGitAuthorsCodeLens. intros H.
  destruct (getBlame getBlameForRangeSync lens st) as [[[blame|] st1]|] eqn:Hg;
    simpl in H; try discriminate.
  - right.
    destruct (Iterables.first (JsMap_values (GitBlameLines.authors blame)))
      as [author|] eqn:Hf; simpl in H; [|discriminate].
    match type of H with
    | context [applyConfiguredCommand ?c ?t ?l ?b ?k] =>
      destruct (applyConfiguredCommand c t l b k) as [lens1|] eqn:Ha;
        simpl in H; [|discriminate];
        inversion H; subst; clear H;
        exists blame, author, t; split; [reflexivity|]; split; assumption
    end.
  - inversion H; subst. left. repeat split.
Qed.

End Resolution.

(** X9.  Resolving a lens changes nothing of it but its command, keeps the
    number of memoized functions, and runs at most the function of this
    lens. *)
Theorem resolution_changes_the_command_only
  {W : Type}
  (getBlameForRangeSync : GitBlame.t -> GitUri.t -> Range.t -> W -> option GitBlameLines.t * W)
  this lens (st st' : ResolveState) lens' :
  resolveCodeLens getBlameForRangeSync this lens st = Some (lens', st') ->
  sameButCommand lens lens'
  /\ List.length (Functions.cells st') = List.length (Functions.cells st)
  /\ (st' = st \/ Functions.runs st' = Functions.runs st ++ [CodeLens.blame lens]).
Proof.
  unfold resolveCodeLens. intros H.
  destruct (CodeLens.class lens).
  - destruct (resolveRecentChange_cases _ _ _ _ _ _ H)
      as [(_ & -> & title & ->) | [(_ & Hg & ->) | (_ & blame & commit & title & Hg & _ & Ha)]].
    + split; [apply sameButCommand_set|]. split; [reflexivity|now left].
    + split; [apply sameButCommand_refl|]. eapply getBlame_store; exact Hg.
    + split; [apply (applyConfiguredCommand_result _ _ _ _ _ _ Ha)|].
      eapply getBlame_store; exact Hg.
  - destruct (resolveAuthors_cases _ _ _ _ _ _ H)
      as [(Hg & ->) | (blame & author & title & Hg & _ & Ha)].
    + split; [apply sameButCommand_refl|]. eapply getBlame_store; exact Hg.
    + split; [apply (applyConfiguredCommand_result _ _ _ _ _ _ Ha)|].
      eapply getBlame_store; exact Hg.
Qed.

Lemma resolution_changes_the_command_only_witness :
  exists lens' st',
    resolveCodeLens Samples.blameByA
      (Samples.provider (Samples.config true true [CodeLensLocations.Blocks]))
      Samples.methodLens
      (Functions.mkStore
         [Functions.mkCell
            (BlameThunk.mk Samples.blame Samples.uri (Range.new4 6 4 7 5)) None]
         0%nat []) = Some (lens', st')
    /\ sameButCommand Samples.methodLens lens'
    /\ Functions.runs st' = [0%nat].
Proof.
  eexists _, _. split; [vm_compute; reflexivity|].
  match goal with
  | |- sameButCommand _ ?l /\ Functions.runs ?s = _ =>
    destruct (resolution_changes_the_command_only Samples.blameByA
                (Samples.provider (Samples.config true true [CodeLensLocations.Blocks]))
                Samples.methodLens
                (Functions.mkStore
                   [Functions.mkCell
                      (BlameThunk.mk Samples.blame Samples.uri (Range.new4 6 4 7 5))
                      None]
                   0%nat []) s l eq_refl) as (Hsame & _ & _)
  end.
  split; [exact Hsame|reflexivity].
Defined.

(** X10.  A lens that had no command has, once resolved, no command still
    (the blame is undefined, or the configured action is none of the known
    ones), or a command that is a title and nothing else (the document is
    dirty), or a command with a command identifier whose first argument is the
    file of the lens. *)
Theorem resolved_command_is_a_title_or_acts_on_the_file_of_the_lens
  {W : Type}
  (getBlameForRangeSync : GitBlame.t -> GitUri.t -> Range.t -> W -> option GitBlameLines.t * W)
  this lens (st st' : ResolveState) lens' :
  CodeLens.command lens = None ->
  resolveCodeLens getBlameForRangeSync this lens st = Some (lens', st') ->
  CodeLens.command lens' = None
  \/ (exists c, CodeLens.command lens' = Some c /\ titleOnly c
                /\ GitCodeLensProvider._documentIsDirty this = true)
  \/ (exists c, CodeLens.command lens' = Some c /\ actsOnFileOf lens c).
Proof.
  unfold resolveCodeLens. intros Hnone H.
  assert (Happly : forall configured title blame commit,
            applyConfiguredCommand configured title lens blame commit = Some lens' ->
            CodeLens.command lens' = None
            \/ (exists c, CodeLens.command lens' = Some c /\ titleOnly c
                          /\ GitCodeLensProvider._documentIsDirty this = true)
            \/ (exists c, CodeLens.command lens' = Some c /\ actsOnFileOf lens c)).
  { intros configured title blame commit Ha.
    destruct (applyConfiguredCommand_result _ _ _ _ _ _ Ha)
      as (_ & [(_ & ->) | (c & Hc & _ & Hact)]); [now left|].
    right. right. eauto. }
  destruct (CodeLens.class lens).
  - destruct (resolveRecentChange_cases _ _ _ _ _ _ H)
      as [(Hd & _ & title & ->) | [(_ & _ & ->) | (_ & blame & commit & title & _ & _ & Ha)]].
    + right. left. eexists. split; [reflexivity|]. split; [now split|assumption].
    + now left.
    + eapply Happly; exact Ha.
  - destruct (resolveAuthors_cases _ _ _ _ _ _ H)
      as [(_ & ->) | (blame & author & title & _ & _ & Ha)].
    + now left.
    + eapply Happly; exact Ha.
Qed.

Lemma resolved_command_is_a_title_or_acts_on_the_file_of_the_lens_witness :
  exists lens' st' c,
    resolveCodeLens Samples.blameByA
      (Samples.provider (Samples.config true true [CodeLensLocations.Blocks]))
      Samples.authorsLens
      (Functions.mkStore
         [Functions.mkCell
            (BlameThunk.mk Samples.blame Samples.uri (Range.new4 6 4 7 5)) None]
         0%nat []) = Some (lens', st')
    /\ CodeLens.command lens' = Some c
    /\ Command.arguments c = Some [UriFile "/repo/src/app.ts"]
    /\ (CodeLens.command lens' = None
        \/ (exists c, CodeLens.command lens' = Some c /\ titleOnly c
                      /\ false = true)
        \/ (exists c, CodeLens.command lens' = Some c
                      /\ actsOnFileOf Samples.authorsLens c)).
Proof.
  eexists _, _, _. split; [vm_compute; reflexivity|].
  split; [reflexivity|]. split; [reflexivity|].
  match goal with
  | |- CodeLens.command ?l = None \/ _ =>
    apply (resolved_command_is_a_title_or_acts_on_the_file_of_the_lens
             Samples.blameByA
             (Samples.provider (Samples.config true true [CodeLensLocations.Blocks]))
             Samples.authorsLens
             (Functions.mkStore
                [Functions.mkCell
                   (BlameThunk.mk Samples.blame Samples.uri (Range.new4 6 4 7 5)) None]
                0%nat [])
             (Functions.mkStore
                [Functions.mkCell
                   (BlameThunk.mk Samples.blame Samples.uri (Range.new4 6 4 7 5))
                   (Some (fst (Samples.blameByA Samples.blame Samples.uri
                                 (Range.new4 6 4 7 5) 0%nat)))]
                1%nat [0%nat]) l eq_refl)
  end.
  vm_compute. reflexivity.
Defined.

(** ** The authors lens and its command *)

Lemma applyConfiguredCommand_without_commit configured title lens blame lens' :
  applyConfiguredCommand (Some configured) title lens blame None = Some lens' ->
  commandName lens' = Some (normalCommand configured).
Proof.
  intros H. destruct configured; simpl in H;
    try (inversion H; subst; reflexivity).
  unfold _applyDiffWithPreviousCommand in H. simpl in H.
  destruct (Position.line (Range.start (CodeLens.range lens)) <? 0); simpl in H;
    [discriminate|].
  destruct (GitBlameLines.allLines blame !! _); simpl in H; [|discriminate].
  inversion H; subst. reflexivity.
Qed.

(** X11.  The authors lens hands no commit to the builders, so whenever its
    resolution gives it a command for a configured action, the command
    identifier is the action's normal one: the two quick commit details
    actions are never disabled on an authors lens, whatever the commits of the
    blame are flagged. *)
Theorem authors_lens_keeps_the_normal_command
  {W : Type}
  (getBlameForRangeSync : GitBlame.t -> GitUri.t -> Range.t -> W -> option GitBlameLines.t * W)
  this lens (st st' : ResolveState) lens' blame configured :
  getBlame getBlameForRangeSync lens st = Some (Some blame, st') ->
  ICodeLensConfig.command (IConfig.authors (GitCodeLensProvider._config this))
  = Some configured ->
  _resolveGitAuthorsCodeLens getBlameForRangeSync this lens st = Some (lens', st') ->
  commandName lens' = Some (normalCommand configured).
Proof.
  intros Hg Hcmd H.
  destruct (resolveAuthors_cases _ _ _ _ _ _ H)
    as [(Hg' & _) | (blame' & author & title & _ & _ & Ha)]; [congruence|].
  rewrite Hcmd in Ha. eapply applyConfiguredCommand_without_commit. exact Ha.
Qed.

Lemma authors_lens_keeps_the_normal_command_witness :
  exists lens',
    _resolveGitAuthorsCodeLens Samples.countingBlame
      (GitCodeLensProvider.mk
         (IConfig.mk false
            (Samples.lensConfig true (Some CodeLensCommand.ShowQuickCommitDetails))
            (Samples.lensConfig true (Some CodeLensCommand.ShowQuickCommitDetails))
            [CodeLensLocations.Blocks] None [] Samples.strings) false)
      Samples.authorsLens
      (Samples.computed (Samples.commit Samples.shaZero "You" true))
    = Some (lens', Samples.computed (Samples.commit Samples.shaZero "You" true))
    /\ commandName lens'
       = Some (CodeLensCommandOf CodeLensCommand.ShowQuickCommitDetails).
Proof.
  eexists. split; [vm_compute; reflexivity|].
  match goal with
  | |- commandName ?l = _ =>
    apply (authors_lens_keeps_the_normal_command Samples.countingBlame
             (GitCodeLensProvider.mk
                (IConfig.mk false
                   (Samples.lensConfig true (Some CodeLensCommand.ShowQuickCommitDetails))
                   (Samples.lensConfig true (Some CodeLensCommand.ShowQuickCommitDetails))
                   [CodeLensLocations.Blocks] None [] Samples.strings) false)
             Samples.authorsLens
             (Samples.computed (Samples.commit Samples.shaZero "You" true))
             (Samples.computed (Samples.commit Samples.shaZero "You" true)) l
             (Samples.blameLines (Samples.commit Samples.shaZero "You" true))
             CodeLensCommand.ShowQuickCommitDetails eq_refl eq_refl)
  end.
  vm_compute. reflexivity.
Defined.

(** X12.  With the diff with the previous revision configured for the authors
    lens, resolution looks the commit up from the blamed line at the lens's
    anchor line: it throws exactly when [allLines] has no entry at that line,
    and otherwise hands the builders the commit that the map of commits holds
    for that line's sha (none, when the map holds none), with the blame range
    unless the lens covers the whole document. *)
Theorem authors_diff_with_previous_reads_the_blamed_anchor_line
  {W : Type}
  (getBlameForRangeSync : GitBlame.t -> GitUri.t -> Range.t -> W -> option GitBlameLines.t * W)
  this lens (st st1 : ResolveState) blame author :
  getBlame getBlameForRangeSync lens st = Some (Some blame, st1) ->
  Iterables.first (JsMap_values (GitBlameLines.authors blame)) = Some author ->
  ICodeLensConfig.command (IConfig.authors (GitCodeLensProvider._config this))
  = Some CodeLensCommand.DiffWithPrevious ->
  (_resolveGitAuthorsCodeLens getBlameForRangeSync this lens st = None
   <-> ~ (0 <= anchorLine lens
          < Z.of_nat (List.length (GitBlameLines.allLines blame))))
  /\ (forall blameLine,
        0 <= anchorLine lens ->
        GitBlameLines.allLines blame !! Z.to_nat (anchorLine lens) = Some blameLine ->
        exists lens' c,
          _resolveGitAuthorsCodeLens getBlameForRangeSync this lens st
          = Some (lens', st1)
          /\ CodeLens.command lens' = Some c
          /\ Command.arguments c
             = Some [UriFile (GitUri.fsPath (CodeLens.uri lens));
                     DiffWithPreviousCommandArgs
                       (JsMap_get (GitBlameLines.commits blame)
                          (GitCommitLine.sha blameLine))
                       (if CodeLens.isFullRange lens then None
                        else Some (CodeLens.blameRange lens))]).
Proof.
  intros Hg Hf Hcmd.
  unfold _resolveGitAuthorsCodeLens. rewrite Hg. simpl. rewrite Hf. simpl.
  rewrite Hcmd. simpl. unfold _applyDiffWithPreviousCommand. simpl.
  fold (anchorLine lens).
  destruct (anchorLine lens <? 0) eqn:Eneg; simpl.
  - apply Z.ltb_lt in Eneg. split.
    + split; [intros _; lia|reflexivity].
    + intros blameLine Hpos. lia.
  - apply Z.ltb_ge in Eneg.
    destruct (GitBlameLines.allLines blame !! Z.to_nat (anchorLine lens))
      as [blameLine|] eqn:El; simpl.
    + apply lookup_lt_Some in El. split.
      * split; [discriminate|]. intros Hout. exfalso. apply Hout. lia.
      * intros blameLine' _ Heq. inversion Heq; subst.
        eexists _, _. split; [reflexivity|]. split; reflexivity.
    + apply lookup_ge_None in El. split.
      * split; [intros _; lia|reflexivity].
      * intros blameLine _ Heq. discriminate.
Qed.

Lemma authors_diff_with_previous_reads_the_blamed_anchor_line_witness :
  _resolveGitAuthorsCodeLens Samples.countingBlame
    (GitCodeLensProvider.mk Samples.diffConfig false) Samples.authorsLens
    (Samples.computed (Samples.commit Samples.shaA "Ann" false)) = None.
Proof.
  apply (authors_diff_with_previous_reads_the_blamed_anchor_line Samples.countingBlame
           (GitCodeLensProvider.mk Samples.diffConfig false) Samples.authorsLens
           (Samples.computed (Samples.commit Samples.shaA "Ann" false))
           (Samples.computed (Samples.commit Samples.shaA "Ann" false))
           (Samples.blameLines (Samples.commit Samples.shaA "Ann" false))
           (GitAuthor.mk "Ann" 10) eq_refl eq_refl eq_refl).
  vm_compute. intros [_ H]. discriminate.
Defined.

(** ** Lenses that hold the same function *)

(** X13.  Two lenses of a pass that hold the same memoized function have the
    same file and the same blame range; the first [getBlame] on one of them
    runs the blame for that range, and [getBlame] on the other one then gives
    the same result again without running anything. *)
Theorem lenses_of_a_symbol_share_the_computed_blame
  {W : Type}
  (getBlameForRangeSync : GitBlame.t -> GitUri.t -> Range.t -> W -> option GitBlameLines.t * W)
  this document gitUri blame symbols this' p l1 l2 (w : W) :
  provideCodeLenses this document gitUri blame symbols = (this', Some p) ->
  In l1 (Pass.lenses p) -> In l2 (Pass.lenses p) ->
  CodeLens.blame l1 = CodeLens.blame l2 ->
  CodeLens.uri l1 = CodeLens.uri l2
  /\ CodeLens.blameRange l1 = CodeLens.blameRange l2
  /\ exists b st1,
       blame = Some b
       /\ getBlame getBlameForRangeSync l1 (afterPass p w)
          = Some (fst (getBlameForRangeSync b (CodeLens.uri l2)
                         (CodeLens.blameRange l2) w), st1)
       /\ getBlame getBlameForRangeSync l2 st1
          = Some (fst (getBlameForRangeSync b (CodeLens.uri l2)
                         (CodeLens.blameRange l2) w), st1)
       /\ Functions.runs st1 = [CodeLens.blame l1].
Proof.
  intros Hrun H1 H2 Hsame.
  destruct (memoized_pass _ _ _ _ _ _ _ Hrun) as [Hnil | (b & Hb & Hall)].
  { rewrite Hnil in H1. destruct H1. }
  rewrite List.Forall_forall in Hall.
  pose proof (Hall _ H1) as M1. pose proof (Hall _ H2) as M2.
  unfold Memoized in M1, M2. rewrite <- Hsame in M2.
  assert (Heq : BlameThunk.mk b (CodeLens.uri l1) (CodeLens.blameRange l1)
                = BlameThunk.mk b (CodeLens.uri l2) (CodeLens.blameRange l2))
    by congruence.
  injection Heq as Huri Hrange.
  split; [assumption|]. split; [assumption|].
  destruct (call_first (runBlameThunk getBlameForRangeSync) (CodeLens.blame l1)
              (afterPass p w) _ M1) as (st1 & Hcall & Hruns & _).
  exists b, st1. split; [assumption|].
  unfold runBlameThunk in Hcall. simpl in Hcall. rewrite Huri, Hrange in Hcall.
  split; [exact Hcall|]. split; [|exact Hruns].
  unfold getBlame. rewrite <- Hsame.
  apply (call_idempotent (runBlameThunk getBlameForRangeSync)) with (st := afterPass p w).
  exact Hcall.
Qed.

Lemma lenses_of_a_symbol_share_the_computed_blame_witness :
  CodeLens.uri Samples.methodRecentChange = CodeLens.uri Samples.methodAuthors
  /\ CodeLens.blameRange Samples.methodRecentChange
     = CodeLens.blameRange Samples.methodAuthors
  /\ exists b st1,
       Some Samples.blame = Some b
       /\ getBlame Samples.countingBlame Samples.methodRecentChange
            (afterPass Samples.methodPass 0%nat)
          = Some (fst (Samples.countingBlame b (CodeLens.uri Samples.methodAuthors)
                         (CodeLens.blameRange Samples.methodAuthors) 0%nat), st1)
       /\ getBlame Samples.countingBlame Samples.methodAuthors st1
          = Some (fst (Samples.countingBlame b (CodeLens.uri Samples.methodAuthors)
                         (CodeLens.blameRange Samples.methodAuthors) 0%nat), st1)
       /\ Functions.runs st1 = [CodeLens.blame Samples.methodRecentChange].
Proof.
  apply (lenses_of_a_symbol_share_the_computed_blame Samples.countingBlame
           (Samples.provider (Samples.config true true [CodeLensLocations.Blocks]))
           (Samples.doc "typescript" false) Samples.uri (Some Samples.blame)
           [Samples.symbolAt SymbolKind.Method 6 7]
           (Samples.provider (Samples.config true true [CodeLensLocations.Blocks]))
           Samples.methodPass Samples.methodRecentChange Samples.methodAuthors 0%nat).
  - vm_compute. reflexivity.
  - simpl. auto.
  - simpl. auto.
  - reflexivity.
Defined.

(** ** The content of a revision *)

Lemma template_decorated (data : IGitUriData.t) (text : string) :
  match IGitUriData.decoration data with
  | Some d => if String.eqb d "" then text else template [d; newline; text]
  | None => text
  end = decorated data text.
Proof.
  unfold decorated. destruct (IGitUriData.decoration data) as [d|]; [|reflexivity].
  destruct (String.eqb d ""); reflexivity.
Qed.

(** X14.  For the fake revision nothing is fetched: the content is the
    decoration followed by a line break, or the empty text when there is no
    decoration, nothing is logged or shown, and the git service is left as it
    was. *)
Theorem fake_revision_is_not_fetched
  {Exn F : Type} (fakeSha : string) (shortenSha : string -> string)
  (path_relative : string -> string -> string)
  (getVersionedFileText : string -> string -> string -> F -> (Exn + string) * F)
  (data : IGitUriData.t) (git : F) :
  IGitUriData.sha data = fakeSha ->
  provideTextDocumentContent fakeSha shortenSha path_relative getVersionedFileText
    data git
  = (Resolved (Some (decorated data "")), [], git).
Proof.
  intros Hsha. unfold provideTextDocumentContent.
  apply String.eqb_eq in Hsha. rewrite Hsha. simpl.
  now rewrite template_decorated.
Qed.

Lemma fake_revision_is_not_fetched_witness :
  provideTextDocumentContent Samples.fakeSha Samples.firstEight Samples.keepFileName
    Samples.failingFetch Samples.fakeData 0%nat
  = (Resolved (Some (String.append "// not committed" newline)), [], 0%nat).
Proof.
  rewrite (fake_revision_is_not_fetched Samples.fakeSha Samples.firstEight
             Samples.keepFileName Samples.failingFetch Samples.fakeData 0%nat eq_refl).
  reflexivity.
Defined.

(** X15.  For a real revision whose fetch succeeds, the text is fetched once,
    under the original file name when the uri gives a non-empty one and under
    the file name otherwise; the content is the fetched text, after the
    decoration and a line break when there is a non-empty decoration; nothing
    is logged or shown. *)
Theorem fetched_revision_is_returned_with_its_decoration
  {Exn F : Type} (fakeSha : string) (shortenSha : string -> string)
  (path_relative : string -> string -> string)
  (getVersionedFileText : string -> string -> string -> F -> (Exn + string) * F)
  (data : IGitUriData.t) (git git' : F) (text : string) :
  let fileName :=
    match IGitUriData.originalFileName data with
    | Some original => if String.eqb original "" then IGitUriData.fileName data
                       else original
    | None => IGitUriData.fileName data
    end in
  IGitUriData.sha data <> fakeSha ->
  getVersionedFileText (IGitUriData.repoPath data) fileName (IGitUriData.sha data) git
  = (inr text, git') ->
  provideTextDocumentContent fakeSha shortenSha path_relative getVersionedFileText
    data git
  = (Resolved (Some (decorated data text)),
     [FetchVersionedFileText (IGitUriData.repoPath data) fileName (IGitUriData.sha data)],
     git').
Proof.
  intros fileName Hsha Hfetch. unfold provideTextDocumentContent.
  change (orElse (IGitUriData.originalFileName data) (IGitUriData.fileName data))
    with fileName.
  apply String.eqb_neq in Hsha. rewrite Hsha. simpl. rewrite Hfetch.
  now rewrite template_decorated.
Qed.

Lemma fetched_revision_is_returned_with_its_decoration_witness :
  provideTextDocumentContent Samples.fakeSha Samples.firstEight Samples.keepFileName
    Samples.echoFetch Samples.decoratedData 0%nat
  = (Resolved (Some (String.append "// 3f2a9c1e"
                       (String.append newline "text of src/app.ts"))),
     [FetchVersionedFileText "/repo" "src/app.ts" Samples.shaA],
     1%nat).
Proof.
  rewrite (fetched_revision_is_returned_with_its_decoration Samples.fakeSha
             Samples.firstEight Samples.keepFileName Samples.echoFetch
             Samples.decoratedData 0%nat 1%nat "text of src/app.ts").
  - reflexivity.
  - vm_compute. discriminate.
  - reflexivity.
Defined.

(** X16.  Whatever the uri and the fetch are: at most one fetch is made;
    an error is logged and the message is shown exactly when the content
    resolves to [undefined]; and that happens only for a real revision whose
    fetch failed. *)
Theorem undefined_content_only_after_a_failed_fetch
  {Exn F : Type} (fakeSha : string) (shortenSha : string -> string)
  (path_relative : string -> string -> string)
  (getVersionedFileText : string -> string -> string -> F -> (Exn + string) * F)
  (data : IGitUriData.t) (git git' : F) (result : Settled (Exn := Exn))
  (effects : list Effect) :
  provideTextDocumentContent fakeSha shortenSha path_relative getVersionedFileText
    data git = (result, effects, git') ->
  let fetch :=
    getVersionedFileText (IGitUriData.repoPath data)
      (orElse (IGitUriData.originalFileName data) (IGitUriData.fileName data))
      (IGitUriData.sha data) git in
  (result = Resolved None
   <-> IGitUriData.sha data <> fakeSha /\ exists ex, fst fetch = inl ex)
  /\ (result = Resolved None
      <-> exists message, In (ShowErrorMessage message) effects)
  /\ (result = Resolved None
      <-> exists ex classOrMethod method,
            In (LoggerError ex classOrMethod method) effects)
  /\ (exists fetches rest,
        effects = fetches ++ rest
        /\ (List.length fetches <= 1)%nat
        /\ List.Forall (fun e => exists a b c, e = FetchVersionedFileText a b c) fetches
        /\ List.Forall (fun e => forall a b c, e <> FetchVersionedFileText a b c) rest).
Proof.
  intros H fetch. unfold provideTextDocumentContent in H. cbn zeta in H.
  fold fetch in H.
  destruct (String.eqb (IGitUriData.sha data) fakeSha) eqn:Es; simpl in H.
  - apply String.eqb_eq in Es. inversion H; subst result effects git'; clear H.
    split; [|split; [|split]].
    + split; [discriminate|]. intros [Hne _]. contradiction.
    + split; [discriminate|]. intros (m & []).
    + split; [discriminate|]. intros (ex & c & m & []).
    + exists [], []. repeat split; try constructor. simpl. lia.
  - apply String.eqb_neq in Es.
    destruct fetch as [[ex|text] git1] eqn:Ef;
      inversion H; subst result effects git'; clear H.
    + split; [|split; [|split]].
      * split; [intros _; split; [assumption|eauto]|reflexivity].
      * split; [|reflexivity]. intros _. eexists. simpl. right. right. left.
        reflexivity.
      * split; [|reflexivity]. intros _. eexists _, _, _. simpl. right. left.
        reflexivity.
      * eexists [_], [_; _]. split; [reflexivity|]. split; [simpl; lia|].
        split; repeat constructor; try (eexists _, _, _; reflexivity);
          intros; discriminate.
    + split; [|split; [|split]].
      * split; [discriminate|]. intros (_ & ex & Hex). discriminate.
      * split; [discriminate|]. intros (m & [Hm|[]]). discriminate.
      * split; [discriminate|]. intros (ex & c & m & [Hm|[]]). discriminate.
      * eexists [_], []. split; [reflexivity|]. split; [simpl; lia|].
        split; repeat constructor. eexists _, _, _. reflexivity.
Qed.

Lemma undefined_content_only_after_a_failed_fetch_witness :
  Samples.shaA <> Samples.fakeSha
  /\ exists ex,
       fst (Samples.failingFetch "/repo" "src/old.ts" Samples.shaA 0%nat) = inl ex.
Proof.
  apply (undefined_content_only_after_a_failed_fetch Samples.fakeSha Samples.firstEight
           Samples.keepFileName Samples.failingFetch Samples.uriData 0%nat 1%nat
           (Resolved None)
           [FetchVersionedFileText "/repo" "src/old.ts" Samples.shaA;
            LoggerError "fatal: bad revision" "GitContentProvider" "getVersionedFileText";
            ShowErrorMessage "Unable to show Git revision 3f2a9c1e of 'src/old.ts'"]
           eq_refl).
  reflexivity.
Defined.

(** ** Resolution without blame *)

(** When the memoized function of a lens gives [undefined], the
    authors resolver, and the recent change resolver for a document that is
    not dirty, return the lens as it is: no title, no command. *)
Theorem resolution_without_blame_leaves_the_lens
  {W : Type}
  (getBlameForRangeSync : GitBlame.t -> GitUri.t -> Range.t -> W -> option GitBlameLines.t * W)
  this lens (st st1 : ResolveState) :
  getBlame getBlameForRangeSync lens st = Some (None, st1) ->
  _resolveGitAuthorsCodeLens getBlameForRangeSync this lens st = Some (lens, st1)
  /\ (GitCodeLensProvider._documentIsDirty this = false ->
      _resolveGitRecentChangeCodeLens getBlameForRangeSync this lens st
      = Some (lens, st1)).
Proof.
  intros Hg. split.
  - unfold _resolveGitAuthorsCodeLens. now rewrite Hg.
  - intros Hd. unfold _resolveGitRecentChangeCodeLens. now rewrite Hd, Hg.
Qed.

Lemma resolution_without_blame_leaves_the_lens_witness :
  _resolveGitAuthorsCodeLens Samples.noBlame
    (Samples.provider (Samples.config true true [CodeLensLocations.Blocks]))
    Samples.methodAuthors (afterPass Samples.methodPass 0%nat)
  = Some (Samples.methodAuthors,
          Functions.mkStore
            [Functions.mkCell
               (BlameThunk.mk Samples.blame Samples.uri (Range.new4 6 4 7 5))
               (Some None)]
            1%nat [0%nat]).
Proof.
  destruct (resolution_without_blame_leaves_the_lens Samples.noBlame
              (Samples.provider (Samples.config true true [CodeLensLocations.Blocks]))
              Samples.methodAuthors (afterPass Samples.methodPass 0%nat)
              (Functions.mkStore
                 [Functions.mkCell
                    (BlameThunk.mk Samples.blame Samples.uri (Range.new4 6 4 7 5))
                    (Some None)]
                 1%nat [0%nat]) eq_refl) as [Hauthors _].
  exact Hauthors.
Defined.

(** A blame that holds no commit makes the recent change resolver
    throw for a document that is not dirty, and a blame that holds no author
    makes the authors resolver throw: both read a property of the first
    element, which is [undefined]. *)
Theorem resolution_throws_on_a_blame_without_commits_or_authors
  {W : Type}
  (getBlameForRangeSync : GitBlame.t -> GitUri.t -> Range.t -> W -> option GitBlameLines.t * W)
  this lens (st st1 : ResolveState) blame :
  getBlame getBlameForRangeSync lens st = Some (Some blame, st1) ->
  (GitBlameLines.commits blame = [] ->
   GitCodeLensProvider._documentIsDirty this = false ->
   _resolveGitRecentChangeCodeLens getBlameForRangeSync this lens st = None)
  /\ (GitBlameLines.authors blame = [] ->
      _resolveGitAuthorsCodeLens getBlameForRangeSync this lens st = None).
Proof.
  intros Hg. split.
  - intros Hc Hd. unfold _resolveGitRecentChangeCodeLens.
    rewrite Hd, Hg. simpl. now rewrite Hc.
  - intros Ha. unfold _resolveGitAuthorsCodeLens. rewrite Hg. simpl. now rewrite Ha.
Qed.

Lemma resolution_throws_on_a_blame_without_commits_or_authors_witness :
  _resolveGitRecentChangeCodeLens Samples.countingBlame
    (Samples.provider (Samples.config true true [CodeLensLocations.Blocks]))
    Samples.methodRecentChange Samples.computedEmpty = None
  /\ _resolveGitAuthorsCodeLens Samples.countingBlame
       (Samples.provider (Samples.config true true [CodeLensLocations.Blocks]))
       Samples.methodAuthors Samples.computedEmpty = None.
Proof.
  split.
  - apply (resolution_throws_on_a_blame_without_commits_or_authors
             Samples.countingBlame
             (Samples.provider (Samples.config true true [CodeLensLocations.Blocks]))
             Samples.methodRecentChange Samples.computedEmpty Samples.computedEmpty
             (GitBlameLines.mk [] [] [] []) eq_refl); reflexivity.
  - apply (resolution_throws_on_a_blame_without_commits_or_authors
             Samples.countingBlame
             (Samples.provider (Samples.config true true [CodeLensLocations.Blocks]))
             Samples.methodAuthors Samples.computedEmpty Samples.computedEmpty
             (GitBlameLines.mk [] [] [] []) eq_refl); reflexivity.
Defined.

(** ** What the pass reads of the configuration *)

Lemma provideCodeLens_flags this1 this2 gitUri document symbol languageLocation b st :
  wantsRecentChange this1 = wantsRecentChange this2 ->
  authorsEnabled this1 = authorsEnabled this2 ->
  GitCodeLensProvider._documentIsDirty this1 = GitCodeLensProvider._documentIsDirty this2 ->
  _provideCodeLens this1 gitUri document symbol languageLocation b st
  = _provideCodeLens this2 gitUri document symbol languageLocation b st.
Proof.
  unfold wantsRecentChange, authorsEnabled, _provideCodeLens.
  intros Hrc Hau Hd. rewrite Hrc, Hau, Hd. reflexivity.
Qed.

Lemma forEachSymbol_flags this1 this2 gitUri document languageLocation b symbols :
  wantsRecentChange this1 = wantsRecentChange this2 ->
  authorsEnabled this1 = authorsEnabled this2 ->
  GitCodeLensProvider._documentIsDirty this1 = GitCodeLensProvider._documentIsDirty this2 ->
  forall st,
    forEachSymbol this1 gitUri document languageLocation b symbols st
    = forEachSymbol this2 gitUri document languageLocation b symbols st.
Proof.
  intros Hrc Hau Hd. induction symbols as [|sym rest IH]; intros st; simpl;
    [reflexivity|].
  rewrite (provideCodeLens_flags this1 this2) by assumption.
  destruct (_provideCodeLens this2 gitUri document sym languageLocation b st);
    simpl; [apply IH|reflexivity].
Qed.

Lemma provideDocumentLens_flags this1 this2 gitUri document languageLocations b st :
  wantsRecentChange this1 = wantsRecentChange this2 ->
  authorsEnabled this1 = authorsEnabled this2 ->
  GitCodeLensProvider._documentIsDirty this1 = GitCodeLensProvider._documentIsDirty this2 ->
  provideDocumentLens this1 gitUri document languageLocations b st
  = provideDocumentLens this2 gitUri document languageLocations b st.
Proof.
  unfold wantsRecentChange, authorsEnabled, provideDocumentLens.
  intros Hrc Hau Hd. rewrite Hrc, Hau, Hd. reflexivity.
Qed.

(** X17.  Of the configuration the pass reads the two enable flags and the
    locations of the document's language, nothing else: two providers that
    agree on the flags and on those locations (the entry of
    [perLanguageLocations] whose language, in lower case, is the document's
    language, or else the general locations) return the same lenses, whatever
    their debug flag, their commands, their texts, and the dirty flag left by
    an earlier pass. *)
Theorem pass_reads_the_enable_flags_and_the_language_locations
  this1 this2 document gitUri blame symbols :
  ICodeLensConfig.enabled (IConfig.recentChange (GitCodeLensProvider._config this1))
  = ICodeLensConfig.enabled (IConfig.recentChange (GitCodeLensProvider._config this2)) ->
  ICodeLensConfig.enabled (IConfig.authors (GitCodeLensProvider._config this1))
  = ICodeLensConfig.enabled (IConfig.authors (GitCodeLensProvider._config this2)) ->
  languageLocationsOf (GitCodeLensProvider._config this1) document
  = languageLocationsOf (GitCodeLensProvider._config this2) document ->
  snd (provideCodeLenses this1 document gitUri blame symbols)
  = snd (provideCodeLenses this2 document gitUri blame symbols).
Proof.
  intros Hrc Hau Hll. unfold provideCodeLenses. cbn [snd]. cbn zeta.
  cbn [GitCodeLensProvider._config]. rewrite Hll.
  set (ll := languageLocationsOf (GitCodeLensProvider._config this2) document).
  set (a := GitCodeLensProvider.mk (GitCodeLensProvider._config this1)
              (TextDocument.isDirty document)).
  set (b := GitCodeLensProvider.mk (GitCodeLensProvider._config this2)
              (TextDocument.isDirty document)).
  assert (H1 : wantsRecentChange a = wantsRecentChange b)
    by (unfold wantsRecentChange; simpl; now rewrite Hrc).
  assert (H2 : authorsEnabled a = authorsEnabled b)
    by (unfold authorsEnabled; simpl; exact Hau).
  assert (H3 : GitCodeLensProvider._documentIsDirty a
               = GitCodeLensProvider._documentIsDirty b) by reflexivity.
  destruct (_ && _); destruct blame as [bl|]; try reflexivity;
    destruct (blameIsMissing (Some bl)); try reflexivity.
  - now rewrite (provideDocumentLens_flags a b).
  - rewrite (forEachSymbol_flags a b) by assumption.
    destruct (forEachSymbol b gitUri document ll bl symbols _); simpl; [|reflexivity].
    now rewrite (provideDocumentLens_flags a b).
Qed.

Lemma pass_reads_the_enable_flags_and_the_language_locations_witness :
  snd (provideCodeLenses (GitCodeLensProvider.mk Samples.perLanguageConfig true)
         (Samples.doc "typescript" false) Samples.uri (Some Samples.blame)
         Samples.inOrder)
  = snd (provideCodeLenses (GitCodeLensProvider.mk Samples.perLanguageConfig2 false)
           (Samples.doc "typescript" false) Samples.uri (Some Samples.blame)
           Samples.inOrder)
  /\ languageLocationsOf Samples.perLanguageConfig (Samples.doc "typescript" false)
     = ICodeLensLanguageLocation.mk (Some "TypeScript") [CodeLensLocations.Blocks] None.
Proof.
  split; [|reflexivity].
  apply (pass_reads_the_enable_flags_and_the_language_locations
           (GitCodeLensProvider.mk Samples.perLanguageConfig true)
           (GitCodeLensProvider.mk Samples.perLanguageConfig2 false)
           (Samples.doc "typescript" false) Samples.uri (Some Samples.blame)
           Samples.inOrder); reflexivity.
Defined.

(** ** Anchors lie in the document *)

Lemma anchored_step this gitUri document symbol languageLocation b st st' :
  _provideCodeLens this gitUri document symbol languageLocation b st = Some st' ->
  List.Forall (anchoredInDocument document) (Pass.lenses st) ->
  List.Forall (anchoredInDocument document) (Pass.lenses st').
Proof.
  intros Hstep Hinv.
  destruct (provideCodeLens_cases _ _ _ _ _ _ _ _ Hstep)
    as [(_ & ->) | (r & line & Hv & Hl &
                    [(_ & ->) | (_ & rRC & rAU & Hlenses & _ & HonRC & HonAU)])];
    try assumption.
  destruct (lineAt_Some _ _ _ Hl) as (_ & Hin & _).
  fold (symbolLine symbol) in Hin.
  rewrite Hlenses. apply List.Forall_app. split; [assumption|].
  destruct HonRC as [Hs1 He1]. destruct HonAU as [Hs2 He2].
  destruct (wantsRecentChange this), (_ && _); simpl; repeat constructor;
    unfold singleLineAnchor, anchorLine; simpl; intros; lia.
Qed.

Lemma anchored_walk this gitUri document languageLocation b symbols :
  forall st st',
    forEachSymbol this gitUri document languageLocation b symbols st = Some st' ->
    List.Forall (anchoredInDocument document) (Pass.lenses st) ->
    List.Forall (anchoredInDocument document) (Pass.lenses st').
Proof.
  induction symbols as [|sym rest IH]; intros st st' Hrun Hinv; simpl in Hrun.
  - inversion Hrun; subst. assumption.
  - destruct (_provideCodeLens this gitUri document sym languageLocation b st)
      as [st1|] eqn:Hstep; simpl in Hrun; [|discriminate].
    eapply IH; [exact Hrun|]. eapply anchored_step; eassumption.
Qed.

Lemma anchored_document this gitUri document languageLocations b st :
  List.Forall (anchoredInDocument document) (Pass.lenses st) ->
  List.Forall (anchoredInDocument document)
    (Pass.lenses (provideDocumentLens this gitUri document languageLocations b st)).
Proof.
  intros Hinv.
  destruct (provideDocumentLens_cases this gitUri document languageLocations b st)
    as [(_ & ->) | [(_ & _ & ->) | (_ & _ & Hlenses & _)]]; try assumption.
  rewrite Hlenses. apply List.Forall_app. split; [assumption|].
  set (c := Position.character (Range.start (wholeDocumentRange document))).
  destruct (new4_anchor_zero 0 c) as [Hs1 He1].
  destruct (new4_anchor_zero 1 c) as [Hs2 He2].
  destruct (wantsRecentChange this), (_ && _); simpl; repeat constructor;
    unfold singleLineAnchor, anchorLine; simpl; intros; try lia; discriminate.
Qed.

(** X18.  Every lens of a pass is anchored on a single line, at line 0 or
    below; a lens made for a symbol is anchored on a line of the document. *)
Theorem lenses_are_anchored_on_a_line_of_the_document
  this document gitUri blame symbols this' p :
  provideCodeLenses this document gitUri blame symbols = (this', Some p) ->
  List.Forall (anchoredInDocument document) (Pass.lenses p).
Proof.
  intros Hrun.
  destruct (provideCodeLenses_cases _ _ _ _ _ _ _ Hrun)
    as (_ & [(_ & ->) | (b & st & _ & _ & -> & Hst)]); [constructor|].
  apply anchored_document.
  destruct Hst as [(_ & ->) | (_ & Hwalk)]; [constructor|].
  eapply anchored_walk; [exact Hwalk|constructor].
Qed.

Lemma lenses_are_anchored_on_a_line_of_the_document_witness :
  exists p,
    snd (provideCodeLenses
           (Samples.provider
              (Samples.config true true
                 [CodeLensLocations.Document; CodeLensLocations.Blocks]))
           (Samples.doc "typescript" false) Samples.uri (Some Samples.blame)
           Samples.outOfOrder) = Some p
    /\ List.length (Pass.lenses p) = 6%nat
    /\ List.Forall (anchoredInDocument (Samples.doc "typescript" false)) (Pass.lenses p).
Proof.
  eexists. split; [vm_compute; reflexivity|]. split; [reflexivity|].
  apply (lenses_are_anchored_on_a_line_of_the_document
           (Samples.provider
              (Samples.config true true
                 [CodeLensLocations.Document; CodeLensLocations.Blocks]))
           (Samples.doc "typescript" false) Samples.uri (Some Samples.blame)
           Samples.outOfOrder
           (Samples.provider
              (Samples.config true true
                 [CodeLensLocations.Document; CodeLensLocations.Blocks]))).
  vm_compute. reflexivity.
Defined.

(** ** Both kinds disabled *)

Lemma nothing_wanted_step this gitUri document symbol languageLocation b st st' :
  wantsRecentChange this = false -> authorsEnabled this = false ->
  _provideCodeLens this gitUri document symbol languageLocation b st = Some st' ->
  st' = st.
Proof.
  intros Hrc Hau Hstep.
  destruct (provideCodeLens_cases _ _ _ _ _ _ _ _ Hstep)
    as [(_ & ->) | (r & line & Hv & Hl &
                    [(_ & ->) | (_ & rRC & rAU & Hlenses & Hcells & _ & _)])];
    try reflexivity.
  rewrite Hrc, Hau in Hlenses, Hcells. simpl in Hlenses, Hcells.
  rewrite app_nil_r in Hlenses, Hcells.
  destruct st, st'. simpl in *. congruence.
Qed.

Lemma nothing_wanted_walk this gitUri document languageLocation b symbols :
  wantsRecentChange this = false -> authorsEnabled this = false ->
  forall st st',
    forEachSymbol this gitUri document languageLocation b symbols st = Some st' ->
    st' = st.
Proof.
  intros Hrc Hau. induction symbols as [|sym rest IH]; intros st st' Hrun;
    simpl in Hrun.
  - congruence.
  - destruct (_provideCodeLens this gitUri document sym languageLocation b st)
      as [st1|] eqn:Hstep; simpl in Hrun; [|discriminate].
    rewrite (nothing_wanted_step _ _ _ _ _ _ _ _ Hrc Hau Hstep) in Hrun.
    now apply IH.
Qed.

(** X19.  With both kinds disabled and a document that is not dirty, a pass
    that returns returns no lens and memoizes nothing, whatever the locations
    and the symbols are. *)
Theorem no_lens_when_both_kinds_are_disabled
  this document gitUri blame symbols this' p :
  TextDocument.isDirty document = false ->
  ICodeLensConfig.enabled (IConfig.recentChange (GitCodeLensProvider._config this))
  = false ->
  ICodeLensConfig.enabled (IConfig.authors (GitCodeLensProvider._config this))
  = false ->
  provideCodeLenses this document gitUri blame symbols = (this', Some p) ->
  p = Pass.mk [] [].
Proof.
  intros Hd Hrc Hau Hrun.
  destruct (provideCodeLenses_cases _ _ _ _ _ _ _ Hrun)
    as (Hthis & [(_ & ->) | (b & st & _ & _ & -> & Hst)]); [reflexivity|].
  assert (H1 : wantsRecentChange this' = false)
    by (rewrite Hthis; unfold wantsRecentChange; simpl; now rewrite Hd, Hrc).
  assert (H2 : authorsEnabled this' = false)
    by (rewrite Hthis; unfold authorsEnabled; simpl; exact Hau).
  assert (Hst0 : st = Pass.mk [] []).
  { destruct Hst as [(_ & ->) | (_ & Hwalk)]; [reflexivity|].
    eapply nothing_wanted_walk; eassumption. }
  subst st.
  destruct (provideDocumentLens_cases this' gitUri document
              (languageLocationsOf (GitCodeLensProvider._config this) document) b
              (Pass.mk [] []))
    as [(_ & ->) | [(_ & _ & ->) | (_ & _ & Hlenses & Hcells)]]; try reflexivity.
  rewrite H1, H2 in Hlenses, Hcells. simpl in Hlenses, Hcells.
  destruct (provideDocumentLens _ _ _ _ _ _). simpl in *. congruence.
Qed.

Lemma no_lens_when_both_kinds_are_disabled_witness :
  snd (provideCodeLenses
         (Samples.provider
            (Samples.config false false
               [CodeLensLocations.Document; CodeLensLocations.Blocks]))
         (Samples.doc "typescript" false) Samples.uri (Some Samples.blame)
         Samples.inOrder) = Some (Pass.mk [] []).
Proof.
  destruct (snd (provideCodeLenses
                   (Samples.provider
                      (Samples.config false false
                         [CodeLensLocations.Document; CodeLensLocations.Blocks]))
                   (Samples.doc "typescript" false) Samples.uri (Some Samples.blame)
                   Samples.inOrder)) as [p|] eqn:E; [|vm_compute in E; discriminate].
  f_equal.
  apply (no_lens_when_both_kinds_are_disabled
           (Samples.provider
              (Samples.config false false
                 [CodeLensLocations.Document; CodeLensLocations.Blocks]))
           (Samples.doc "typescript" false) Samples.uri (Some Samples.blame)
           Samples.inOrder
           (Samples.provider
              (Samples.config false false
                 [CodeLensLocations.Document; CodeLensLocations.Blocks])) p);
    try reflexivity.
  rewrite <- E. reflexivity.
Defined.
